(** * PRAW models: comments, redditors, listings

    A shallow embedding of [praw/models/reddit/comment.py],
    [praw/models/reddit/redditor.py] and [praw/models/listing/listing.py].

    Python objects live in a heap and are referred to by location; an
    object is its class together with its [__dict__].  Methods are
    computations in a state-and-exception monad over that heap and over the
    log of network requests. *)

From Stdlib Require Import ZArith Ascii String List Lia.
From stdpp Require Import base option list gmap strings fin_maps pretty.

Open Scope string_scope.
Open Scope Z_scope.

#[local] Set Warnings "-register-all".

(** ** Python strings *)

Module PyStr.

(** [s.split(sep)] for a one-character separator: never empty. *)
Fixpoint split (sep : ascii) (s : string) : list string :=
  match s with
  | EmptyString => [EmptyString]
  | String c s' =>
      if Ascii.eqb c sep then EmptyString :: split sep s'
      else match split sep s' with
           | [] => [String c EmptyString]
           | p :: ps => String c p :: ps
           end
  end.

(** [s.split(sep, 1)]. *)
Fixpoint split1 (sep : ascii) (s : string) : list string :=
  match s with
  | EmptyString => [EmptyString]
  | String c s' =>
      if Ascii.eqb c sep then [EmptyString; s']
      else match split1 sep s' with
           | p :: ps => String c p :: ps
           | [] => [String c EmptyString]
           end
  end.

Definition rev (s : string) : string :=
  string_of_list_ascii (List.rev (list_ascii_of_string s)).

Fixpoint lstrip (c : ascii) (s : string) : string :=
  match s with
  | String c' s' => if Ascii.eqb c' c then lstrip c s' else s
  | EmptyString => EmptyString
  end.

(** [s.rstrip(c)] for a one-character set. *)
Definition rstrip (c : ascii) (s : string) : string :=
  rev (lstrip c (rev s)).

(** [s.rsplit(sep, n)]: at most [n] splits, from the right. *)
Fixpoint rsplit_rev (sep : ascii) (n : nat) (s : string) : list string :=
  match n with
  | O => [s]
  | S n' =>
      match split1 sep s with
      | [a; b] => a :: rsplit_rev sep n' b
      | _ => [s]
      end
  end.

Definition rsplit (sep : ascii) (n : nat) (s : string) : list string :=
  List.rev (List.map rev (rsplit_rev sep n (rev s))).

Definition startswith (p s : string) : bool := String.prefix p s.

End PyStr.

(** ** Exceptions *)

Inductive exn :=
| TypeError (msg : string)
| ValueError (msg : string)
| AssertionError (msg : string)
| AttributeError (name : string)
| KeyError (key : string)
| IndexError
| InvalidURL (url : string)
| ClientException (msg : string).

(** [InvalidURL] derives from [ClientException]
    (tests/unit/test_exceptions.py, [TestInvalidURL.test_inheritance]). *)
Definition is_ClientException (e : exn) : bool :=
  match e with
  | InvalidURL _ | ClientException _ => true
  | _ => false
  end.

Definition is_TypeError (e : exn) : bool :=
  match e with TypeError _ => true | _ => false end.

Inductive res (A : Type) :=
| Ok (a : A)
| Raise (e : exn)
| OutOfFuel.
Arguments Ok {A} a.
Arguments Raise {A} e.
Arguments OutOfFuel {A}.

(** ** Identifier of a comment from its permalink *)

Module Url.

Definition is_alpha (c : ascii) : bool :=
  let n := nat_of_ascii c in
  (((65 <=? n) && (n <=? 90)) || ((97 <=? n) && (n <=? 122)))%nat%bool.

Definition is_scheme_char (c : ascii) : bool :=
  let n := nat_of_ascii c in
  (is_alpha c || ((48 <=? n) && (n <=? 57)) ||
   (n =? 43) || (n =? 45) || (n =? 46))%nat%bool.

(** The text before the first occurrence of a character satisfying [p],
    and the text from that character on. *)
Fixpoint break (p : ascii -> bool) (s : string) : string * string :=
  match s with
  | EmptyString => (EmptyString, EmptyString)
  | String c s' =>
      if p c then (EmptyString, s)
      else let '(a, b) := break p s' in (String c a, b)
  end.

Definition is_char c (c' : ascii) : bool := Ascii.eqb c c'.

(** [urlsplit]'s scheme: the text before the first colon, when it is a
    letter followed by scheme characters. *)
Definition strip_scheme (url : string) : string :=
  match break (is_char ":") url with
  | (String c0 pre, String _ rest) =>
      if (is_alpha c0 && forallb is_scheme_char (list_ascii_of_string pre))%bool
      then rest else url
  | _ => url
  end.

(** [urlparse(url)], its [netloc] and [path]: the network location
    follows a leading double slash and ends at the first of slash,
    question mark and hash; the path ends at the first hash or question
    mark.  This is [urlparse] on the URLs it accepts whose path has no
    parameters after a semicolon. *)
Definition urlparse (url : string) : string * string :=
  let rest := strip_scheme url in
  let '(netloc, rest) :=
    match rest with
    | String "/" (String "/" r) =>
        break (fun c => (is_char "/" c || is_char "?" c || is_char "#" c)%bool) r
    | _ => (EmptyString, rest)
    end in
  (netloc, fst (break (fun c => (is_char "#" c || is_char "?" c)%bool) rest)).

End Url.

(** Modelled from the spec: [RedditBase._url_parts]
    (praw/models/reddit/base.py) is not among the sources.  A URL without
    a network location is a malformed identity; otherwise the parts are
    the segments of the path, trailing slashes dropped. *)
Definition _url_parts (url : string) : res (list string) :=
  let '(netloc, path) := Url.urlparse url in
  if String.eqb netloc "" then Raise (InvalidURL url)
  else Ok (PyStr.split "/" (PyStr.rstrip "/" path)).

(** [parts.index(x)]: the first position of [x]. *)
Fixpoint list_index (x : string) (parts : list string) : option nat :=
  match parts with
  | [] => None
  | p :: ps => if String.eqb p x then Some O else S <$> list_index x ps
  end.

(** [Comment.id_from_url]. *)
Definition id_from_url (url : string) : res string :=
  match _url_parts url with
  | Ok parts =>
      match list_index "comments" parts with
      | None => Raise (InvalidURL url)
      | Some comment_index =>
          if negb (Z.of_nat (length parts) - 4 =? Z.of_nat comment_index)
          then Raise (InvalidURL url)
          else match last parts with
               | Some p => Ok p
               | None => Raise IndexError
               end
      end
  | Raise e => Raise e
  | OutOfFuel => OutOfFuel
  end.


(** ** Values, objects and the heap *)

Definition loc := nat.
Bind Scope nat_scope with loc.

(** A Python value: JSON data as the server sends it ([VDict] keeps the
    keys in order), references to objects, and the dictionary from
    fullnames to comment objects that a submission keeps ([VMap]). *)
Inductive pyval :=
| VNone
| VBool (b : bool)
| VInt (n : Z)
| VStr (s : string)
| VList (items : list pyval)
| VDict (items : list (string * pyval))
| VMap (m : gmap string loc)
| VRef (l : loc).

Inductive pyclass :=
| ClsComment
| ClsMoreComments
| ClsSubmission
| ClsRedditor
| ClsCommentForest
| ClsListing
| ClsFlairListing
| ClsModNoteListing
| ClsModeratorListing
| ClsModmailConversationsListing
| ClsOther (name : string).

#[global] Instance pyclass_eq_dec : EqDecision pyclass.
Proof. solve_decision. Defined.

Record object := Instance { __class__ : pyclass; __dict__ : gmap string pyval }.

(** A request: its path and its parameters. *)
Definition request : Type := string * list (string * pyval).

Record state := State { heap : list object; requests : list request }.

(** [bool(v)]; the instances met here (submissions, comments, redditors)
    define neither [__bool__] nor [__len__]. *)
Definition truthy (v : pyval) : bool :=
  match v with
  | VNone => false
  | VBool b => b
  | VInt n => negb (n =? 0)
  | VStr s => negb (String.eqb s "")
  | VList items => match items with [] => false | _ => true end
  | VDict items => match items with [] => false | _ => true end
  | VMap m => negb (bool_decide (m = ∅))
  | VRef _ => true
  end.

Definition is_None (v : pyval) : bool :=
  match v with VNone => true | _ => false end.

(** [v == s] for a string literal [s] and JSON data [v]: only a string
    equals a string. *)
Definition eq_str (v : pyval) (s : string) : bool :=
  match v with VStr t => String.eqb t s | _ => false end.

(** ** The monad of methods *)

Definition M (A : Type) : Type := state -> res A * state.

#[global] Instance M_ret : MRet M := fun A a σ => (Ok a, σ).

#[global] Instance M_bind : MBind M := fun A B f m σ =>
  match m σ with
  | (Ok a, σ') => f a σ'
  | (Raise e, σ') => (Raise e, σ')
  | (OutOfFuel, σ') => (OutOfFuel, σ')
  end.

Definition raise {A} (e : exn) : M A := fun σ => (Raise e, σ).

Definition out_of_fuel {A} : M A := fun σ => (OutOfFuel, σ).

Definition lift {A} (r : res A) : M A := fun σ => (r, σ).

(** [try: m except AttributeError: handler]. *)
Definition except_AttributeError {A} (m : M A) (handler : M A) : M A := fun σ =>
  match m σ with
  | (Raise (AttributeError _), σ') => handler σ'
  | r => r
  end.

(** [try: m except IndexError: handler]. *)
Definition except_IndexError {A} (m : M A) (handler : M A) : M A := fun σ =>
  match m σ with
  | (Raise IndexError, σ') => handler σ'
  | r => r
  end.

(** [for x in xs: body(x)]. *)
Fixpoint for_each {A} (body : A -> M unit) (xs : list A) : M unit :=
  match xs with
  | [] => mret tt
  | x :: xs' => body x ;; for_each body xs'
  end.

Definition alloc (o : object) : M loc := fun σ =>
  (Ok (length (heap σ)), State (heap σ ++ [o]) (requests σ)).

(** The object at a location; a location that was never allocated has no
    attribute at all. *)
Definition deref (l : loc) : M object := fun σ =>
  match heap σ !! l with
  | Some o => (Ok o, σ)
  | None => (Raise (AttributeError "__dict__"), σ)
  end.

Definition update (l : loc) (f : object -> object) : M unit := fun σ =>
  match heap σ !! l with
  | Some o => (Ok tt, State (<[l := f o]> (heap σ)) (requests σ))
  | None => (Raise (AttributeError "__dict__"), σ)
  end.

(** [object.__setattr__]: the entry of the instance dictionary. *)
Definition store (l : loc) (name : string) (v : pyval) : M unit :=
  update l (fun o => Instance (__class__ o) (<[name := v]> (__dict__ o))).

(** [name in self.__dict__]. *)
Definition in_dict (l : loc) (name : string) : M bool :=
  o ← deref l; mret (bool_decide (is_Some (__dict__ o !! name))).

Definition log_request (r : request) : M unit := fun σ =>
  (Ok tt, State (heap σ) (requests σ ++ [r])).

(** ** What the modules import

    The [reddit] instance every model holds, and the pieces of the
    interpreter and of the base classes that the three modules call but do
    not define. *)
Record Env := {
  (** [reddit.config.kinds[name]] *)
  kinds : string -> string;
  (** [API_PATH["submission"].format(id=...)] *)
  submission_path : string -> string;
  (** [reddit.get(path, params=params)], the response objectified *)
  reddit_get : string -> list (string * pyval) -> M pyval;
  (** [reddit.submission(id)] *)
  reddit_submission : pyval -> M pyval;
  (** [reddit.subreddit(name)] *)
  reddit_subreddit : pyval -> M pyval;
  (** [reddit._objector.objectify(data=...)] *)
  objectify : pyval -> M pyval;
  (** [UserSubreddit(reddit=..., _data=...)] *)
  UserSubreddit : pyval -> M pyval;
  (** [RedditBase.__getattr__], called when an attribute is neither a
      property nor in the instance dictionary: it fetches the object when
      it is not fetched yet *)
  RedditBase___getattr__ : loc -> string -> M pyval;
  (** [str(v)] for a value that is not a string *)
  builtin_str : pyval -> string;
  (** [a == b] for values that are not both strings *)
  builtin_eq : pyval -> pyval -> bool
}.

Section Models.

Context (reddit : Env).

(** [f"{v}"]. *)
Definition format (v : pyval) : string :=
  match v with VStr s => s | _ => builtin_str reddit v end.

(** [a == b]. *)
Definition py_eq (a b : pyval) : bool :=
  match a, b with
  | VStr s, VStr t => String.eqb s t
  | _, _ => builtin_eq reddit a b
  end.

(** [reddit.get(path, params=params)]: the request is logged, then
    answered. *)
Definition get (path : string) (params : list (string * pyval)) : M pyval :=
  log_request (path, params) ;; reddit_get reddit path params.

(** An attribute kept in the instance dictionary, [self.name]. *)
Definition getattr (self : loc) (name : string) : M pyval :=
  o ← deref self;
  match __dict__ o !! name with
  | Some v => mret v
  | None =>
      match __class__ o with
      | ClsComment | ClsSubmission | ClsRedditor => RedditBase___getattr__ reddit self name
      | _ => raise (AttributeError name)
      end
  end.

(** [v.name] for any value [v]. *)
Definition attr (v : pyval) (name : string) : M pyval :=
  match v with
  | VRef l => getattr l name
  | _ => raise (AttributeError name)
  end.

(** [Comment._kind], [Redditor._kind], and their like of a submission. *)
Definition _kind (c : pyclass) : M string :=
  match c with
  | ClsComment => mret (kinds reddit "comment")
  | ClsRedditor => mret (kinds reddit "redditor")
  | ClsSubmission => mret (kinds reddit "submission")
  | _ => raise (AttributeError "_kind")
  end.

(** Modelled from the spec: [FullnameMixin.fullname]
    (praw/models/reddit/mixins) is not among the sources.  The fullname is
    the identifier prefixed with the kind of the object, [t1_<id>] for a
    comment. *)
Definition fullname (self : loc) : M string :=
  o ← deref self;
  kind ← _kind (__class__ o);
  id ← getattr self "id";
  mret (kind ++ "_" ++ format id).

(** [v.fullname]. *)
Definition attr_fullname (v : pyval) : M string :=
  match v with
  | VRef l => fullname l
  | _ => raise (AttributeError "fullname")
  end.

(** [isinstance(v, cls)]. *)
Definition isinstance (v : pyval) (cls : pyclass) : M bool :=
  match v with
  | VRef l => o ← deref l; mret (bool_decide (__class__ o = cls))
  | _ => mret false
  end.

(** [sum(1 for value in values if value is not None)]. *)
Definition count_not_None (values : list pyval) : nat :=
  length (List.filter (fun v => negb (is_None v)) values).

(** Modelled from the spec: [PRAWBase.__init__] and [RedditBase.__init__]
    (praw/models/base.py, praw/models/reddit/base.py) are not among the
    sources.  The attributes of the payload are set one after the other
    through the [__setattr__] of the class, the object is fetched or not,
    and an object left without its identity attribute ([STR_FIELD], or the
    extra attribute the class names) has a malformed identity. *)
Definition RedditBase___init__ (setattr : loc -> string -> pyval -> M unit)
    (STR_FIELD : string) (self : loc) (_data : pyval)
    (_extra_attribute_to_check : option string) (_fetched : bool) : M unit :=
  (if truthy _data then
     match _data with
     | VDict items => for_each (fun '(attribute, value) => setattr self attribute value) items
     | _ => raise (AttributeError "items")
     end
   else mret tt) ;;
  store self "_fetched" (VBool _fetched) ;;
  o ← deref self;
  if bool_decide (is_Some (__dict__ o !! STR_FIELD)) then mret tt
  else
    match _extra_attribute_to_check with
    | Some extra =>
        if bool_decide (is_Some (__dict__ o !! extra)) then mret tt
        else raise (ValueError ("An invalid value was specified for " ++ STR_FIELD ++ "."))
    | None => raise (ValueError ("An invalid value was specified for " ++ STR_FIELD ++ "."))
    end.

(** *** Redditor *)

(** [Redditor.__setattr__], and [object.__setattr__] after it: [_kind],
    [_path] and [fullname] are properties without a setter, and any other
    attribute is an entry of the instance dictionary. *)
Definition Redditor___setattr__ (self : loc) (name : string) (value : pyval) : M unit :=
  value ← (if (String.eqb name "subreddit" && truthy value)%bool
           then UserSubreddit reddit value
           else mret value);
  if bool_decide (name ∈ ["_kind"; "_path"; "fullname"])
  then raise (AttributeError name)
  else store self name value.

Definition ASSERT_MSG : string := "Please file a bug with PRAW.".

Definition Redditor_msg : string :=
  "Exactly one of 'name', 'fullname', or '_data' must be provided.".

(** [isinstance(_data, dict) and "name" in _data]. *)
Definition has_name (_data : pyval) : bool :=
  match _data with
  | VDict items => bool_decide ("name" ∈ items.*1)
  | _ => false
  end.

(** [Redditor.__init__]; the object is allocated once the arguments have
    passed the two checks. *)
Definition Redditor___init__ (name fullname _data : pyval) : M loc :=
  if negb (count_not_None [name; fullname; _data] =? 1)%nat then
    raise (TypeError Redditor_msg)
  else
    (if truthy _data then
       if has_name _data then mret tt
       else raise (AssertionError ASSERT_MSG)
     else mret tt) ;;
    self ← alloc (Instance ClsRedditor ∅);
    store self "_listing_use_sort" (VBool true) ;;
    (if truthy name then store self "name" name
     else if truthy fullname then store self "_fullname" fullname
     else mret tt) ;;
    RedditBase___init__ Redditor___setattr__ "name" self _data (Some "_fullname") false ;;
    mret self.

(** [Redditor.from_data]. *)
Definition from_data (data : pyval) : M pyval :=
  if eq_str data "[deleted]" then mret VNone
  else self ← Redditor___init__ data VNone VNone; mret (VRef self).

(** *** Comment *)

Definition MISSING_COMMENT_MESSAGE : string :=
  "This comment does not appear to be in the comment tree".

Definition Comment_msg : string :=
  "Exactly one of 'id', 'url', or '_data' must be provided.".

(** [s.split(sep, 1)[i]] and [s.rsplit(sep, n)[i]] on an attribute value. *)
Definition nth_part (parts : list string) (i : nat) : M string :=
  match parts !! i with
  | Some p => mret p
  | None => raise IndexError
  end.

Definition as_str (method : string) (v : pyval) : M string :=
  match v with
  | VStr s => mret s
  | _ => raise (AttributeError method)
  end.

(** [Comment._extract_submission_id]. *)
Definition _extract_submission_id (self : loc) : M string :=
  has_context ← in_dict self "context";
  if has_context : bool then
    context ← getattr self "context";
    s ← as_str "rsplit" context;
    nth_part (PyStr.rsplit "/" 4 s) 1
  else
    link_id ← getattr self "link_id";
    s ← as_str "split" link_id;
    nth_part (PyStr.split1 "_" s) 1.

(** The getter of [Comment.submission]. *)
Definition submission (self : loc) : M pyval :=
  _submission ← getattr self "_submission";
  (if negb (truthy _submission) then
     id ← _extract_submission_id self;
     s ← reddit_submission reddit (VStr id);
     store self "_submission" s
   else mret tt) ;;
  getattr self "_submission".

(** Modelled from the spec: [CommentForest]
    (praw/models/comment_forest.py) is not among the sources.  A forest
    holds the submission and the list of the top-level comments it was
    built from, and iterating over it yields these comments in order. *)
Definition CommentForest (submission : pyval) (comments : pyval) : M pyval :=
  l ← alloc (Instance ClsCommentForest
               (<["_comments" := comments]> (<["_submission" := submission]> ∅)));
  mret (VRef l).

(** The items that [for x in v] goes through. *)
Definition iter (v : pyval) : M (list pyval) :=
  match v with
  | VList items => mret items
  | VRef l =>
      o ← deref l;
      match __class__ o, __dict__ o !! "_comments" with
      | ClsCommentForest, Some (VList items) => mret items
      | _, _ => raise (TypeError "object is not iterable")
      end
  | _ => raise (TypeError "object is not iterable")
  end.

(** The property [Comment.replies]. *)
Definition replies (self : loc) : M pyval :=
  _replies ← getattr self "_replies";
  (match _replies with
   | VList _ =>
       s ← submission self;
       _replies ← getattr self "_replies";
       forest ← CommentForest s _replies;
       store self "_replies" forest
   | _ => mret tt
   end) ;;
  getattr self "_replies".

(** [index[key] = value], where [index] is the dictionary that [owner]
    keeps under [name]: the dictionary is updated in place. *)
Definition setitem (owner : pyval) (name : string) (index : pyval)
    (key : string) (value : loc) : M unit :=
  match owner, index with
  | VRef l, VMap m => store l name (VMap (<[key := value]> m))
  | _, _ => raise (TypeError "object does not support item assignment")
  end.

(** The setter of [Comment.submission]; [assign reply submission] is
    [reply.submission = submission]. *)
Definition submission_setter (assign : pyval -> pyval -> M unit)
    (self : loc) (submission : pyval) : M unit :=
  index ← attr submission "_comments_by_id";
  name ← fullname self;
  setitem submission "_comments_by_id" index name self ;;
  store self "_submission" submission ;;
  forest ← except_AttributeError (replies self) (mret (VList []));
  rs ← iter forest;
  for_each (fun reply => assign reply submission) rs.

(** [Comment.__setattr__], and [object.__setattr__] after it: the property
    [submission] has a setter, the other properties of the class have
    none, and any other attribute is an entry of the instance dictionary
    (which is why the methods below [store] the attributes that
    [__setattr__] does not intercept). *)
Definition Comment___setattr___body (assign : pyval -> pyval -> M unit)
    (self : loc) (attribute : string) (value : pyval) : M unit :=
  '(attribute, value) ←
    (if String.eqb attribute "author" then
       value ← from_data value; mret (attribute, value)
     else if String.eqb attribute "replies" then
       value ← (if eq_str value "" then mret (VList [])
                else listing ← objectify reddit value; attr listing "children");
       mret ("_replies", value)
     else if String.eqb attribute "subreddit" then
       value ← reddit_subreddit reddit value; mret (attribute, value)
     else mret (attribute, value));
  if String.eqb attribute "submission" then submission_setter assign self value
  else if bool_decide (attribute ∈ ["is_root"; "_kind"; "fullname"])
       then raise (AttributeError attribute)
  else store self attribute value.

(** [target.name = value], by the class of the target. *)
Definition setattr_with (Comment_setattr : loc -> string -> pyval -> M unit)
    (target : pyval) (name : string) (value : pyval) : M unit :=
  match target with
  | VRef l =>
      o ← deref l;
      match __class__ o with
      | ClsComment => Comment_setattr l name value
      | ClsRedditor => Redditor___setattr__ l name value
      | _ => store l name value
      end
  | _ => raise (AttributeError name)
  end.

(** The recursion of the setter through the replies is bounded by the
    fuel. *)
Fixpoint Comment___setattr__ (fuel : nat) (self : loc) (attribute : string)
    (value : pyval) : M unit :=
  match fuel with
  | O => out_of_fuel
  | S fuel' =>
      Comment___setattr___body
        (fun reply s => setattr_with (Comment___setattr__ fuel') reply "submission" s)
        self attribute value
  end.

Definition setattr (fuel : nat) : pyval -> string -> pyval -> M unit :=
  setattr_with (Comment___setattr__ fuel).

(** [Comment.__init__]; the object is allocated once the arguments have
    passed the check. *)
Definition Comment___init__ (fuel : nat) (id url _data : pyval) : M loc :=
  if negb (count_not_None [id; url; _data] =? 1)%nat then
    raise (TypeError Comment_msg)
  else
    self ← alloc (Instance ClsComment ∅);
    store self "_replies" (VList []) ;;
    store self "_submission" VNone ;;
    fetched ←
      (if truthy id then
         store self "id" id ;; mret false
       else if truthy url then
         u ← as_str "decode" url;
         i ← lift (id_from_url u);
         store self "id" (VStr i) ;; mret false
       else mret true);
    RedditBase___init__ (Comment___setattr__ fuel) "id" self _data None fetched ;;
    mret self.

(** [Comment.is_root]. *)
Definition is_root (self : loc) : M bool :=
  parent_id ← getattr self "parent_id";
  s ← as_str "split" parent_id;
  parent_type ← nth_part (PyStr.split1 "_" s) 0;
  mret (String.eqb parent_type (kinds reddit "submission")).

(** [key in index], [index[key]]. *)
Definition contains (index : pyval) (key : pyval) : M bool :=
  match index, key with
  | VMap m, VStr k => mret (bool_decide (is_Some (m !! k)))
  | VMap m, (VList _ | VDict _ | VMap _) => raise (TypeError "unhashable type")
  | VMap m, _ => mret false
  | _, _ => raise (TypeError "argument is not iterable")
  end.

Definition getitem (index : pyval) (key : pyval) : M pyval :=
  match index, key with
  | VMap m, VStr k =>
      match m !! k with
      | Some l => mret (VRef l)
      | None => raise (KeyError k)
      end
  | _, _ => raise (TypeError "object is not subscriptable")
  end.

(** [Comment.parent]. *)
Definition parent (fuel : nat) (self : loc) : M pyval :=
  parent_id ← getattr self "parent_id";
  s ← submission self;
  name ← attr_fullname s;
  if eq_str parent_id name then submission self
  else
    parent_id ← getattr self "parent_id";
    s ← submission self;
    index ← attr s "_comments_by_id";
    found ← contains index parent_id;
    if found : bool then
      s ← submission self;
      index ← attr s "_comments_by_id";
      parent_id ← getattr self "parent_id";
      getitem index parent_id
    else
      parent_id ← getattr self "parent_id";
      pid ← as_str "split" parent_id;
      id ← nth_part (PyStr.split1 "_" pid) 1;
      parent ← Comment___init__ fuel (VStr id) VNone VNone;
      s ← submission self;
      store parent "_submission" s ;;
      mret (VRef parent).

(** [queue.pop()] on a queue that is not empty. *)
Definition pop (queue : list pyval) : option (list pyval * pyval) :=
  match List.rev queue with
  | [] => None
  | x :: rest => Some (List.rev rest, x)
  end.

(** The loop of [Comment.refresh]:
    [while queue and (comment is None or comment.id != self.id)]. *)
Fixpoint search (fuel : nat) (self : loc) (queue : list pyval) (comment : pyval)
  : M pyval :=
  match fuel with
  | O => out_of_fuel
  | S fuel' =>
      continue ←
        (if truthy (VList queue) then
           if is_None comment then mret true
           else
             cid ← attr comment "id";
             sid ← getattr self "id";
             mret (negb (py_eq cid sid))
         else mret false);
      if continue : bool then
        match pop queue with
        | Some (queue, comment) =>
            is_comment ← isinstance comment ClsComment;
            queue ←
              (if is_comment : bool then
                 _replies ← attr comment "_replies";
                 rs ← iter _replies;
                 mret (queue ++ rs)%list
               else mret queue);
            search fuel' self queue comment
        | None => raise IndexError
        end
      else mret comment
  end.

(** [del o.__dict__[name]]. *)
Definition del_dict (v : pyval) (name : string) : M unit :=
  match v with
  | VRef l =>
      o ← deref l;
      if bool_decide (is_Some (__dict__ o !! name))
      then update l (fun o => Instance (__class__ o) (delete name (__dict__ o)))
      else raise (KeyError name)
  | _ => raise (AttributeError "__dict__")
  end.

(** [self.__dict__.update(other.__dict__)]. *)
Definition dict_update (self : loc) (other : pyval) : M unit :=
  match other with
  | VRef l =>
      o ← deref l;
      update self (fun s => Instance (__class__ s) (__dict__ o ∪ __dict__ s))
  | _ => raise (AttributeError "__dict__")
  end.

(** [items[:]]. *)
Definition slice_all (v : pyval) : M (list pyval) :=
  match v with
  | VList items => mret items
  | _ => raise (TypeError "object is not subscriptable")
  end.

(** [response[1].children]. *)
Definition second_children (response : pyval) : M pyval :=
  match response with
  | VList items =>
      match items !! 1%nat with
      | Some listing => attr listing "children"
      | None => raise IndexError
      end
  | _ => raise (TypeError "object is not subscriptable")
  end.

(** [Comment.refresh]. *)
Definition refresh (fuel : nat) (self : loc) : M loc :=
  has_context ← in_dict self "context";
  comment_path ←
    (if has_context : bool then
       context ← getattr self "context";
       s ← as_str "split" context;
       nth_part (PyStr.split1 "?" s) 0
     else
       s ← submission self;
       sid ← attr s "id";
       let path := submission_path reddit (format sid) in
       id ← getattr self "id";
       mret (path ++ "_/" ++ format id));
  has_limit ← in_dict self "reply_limit";
  limit ← (if has_limit : bool
           then v ← getattr self "reply_limit"; mret [("limit", v)]
           else mret []);
  has_sort ← in_dict self "reply_sort";
  sort ← (if has_sort : bool
          then v ← getattr self "reply_sort"; mret [("sort", v)]
          else mret []);
  let params := ([("context", VInt 100)] ++ limit ++ sort)%list in
  response ← get comment_path params;
  comment_list ← second_children response;
  if negb (truthy comment_list) then raise (ClientException MISSING_COMMENT_MESSAGE)
  else
    queue ← slice_all comment_list;
    comment ← search fuel self queue VNone;
    cid ← attr comment "id";
    sid ← getattr self "id";
    if negb (py_eq cid sid) then raise (ClientException MISSING_COMMENT_MESSAGE)
    else
      _submission ← getattr self "_submission";
      (if negb (is_None _submission) then del_dict comment "_submission"
       else mret tt) ;;
      dict_update self comment ;;
      rs ← iter comment_list;
      for_each (fun reply => s ← submission self; setattr fuel reply "submission" s) rs ;;
      mret self.

(** *** Listings *)

(** [getattr(self, name, default)] on an object without [__getattr__]. *)
Definition getattr_default (self : object) (name : string) (default : pyval) : pyval :=
  match __dict__ self !! name with
  | Some v => v
  | None => default
  end.

(** [FlairListing.after]. *)
Definition FlairListing_after (self : object) : pyval :=
  getattr_default self "next" VNone.

(** [ModNoteListing.after]. *)
Definition ModNoteListing_after (self : object) : pyval :=
  if negb (truthy (getattr_default self "has_next_page" (VBool true))) then VNone
  else getattr_default self "end_cursor" VNone.

(** [items[-1]]. *)
Definition last_item (v : pyval) : M pyval :=
  match v with
  | VList items =>
      match last items with
      | Some x => mret x
      | None => raise IndexError
      end
  | _ => raise (TypeError "object is not subscriptable")
  end.

(** [ModmailConversationsListing.after]. *)
Definition ModmailConversationsListing_after (self : loc) : M pyval :=
  except_IndexError
    (conversations ← getattr self "conversations";
     c ← last_item conversations;
     attr c "id")
    (mret VNone).

End Models.

(** ** Errors of the API *)

(** [RedditErrorItem]: the three fields of one error of the API. *)
Record RedditErrorItem := {
  error_type : pyval;
  message : pyval;
  field : pyval
}.

(** [RedditAPIException]: the errors of one envelope. *)
Record RedditAPIException := { items : list RedditErrorItem }.

(** [d.get(key)] on JSON data. *)
Fixpoint dict_get (key : string) (items : list (string * pyval)) : option pyval :=
  match items with
  | [] => None
  | (k, v) :: rest => if String.eqb k key then Some v else dict_get key rest
  end.

Definition item_of_triple (t : pyval) : option RedditErrorItem :=
  match t with
  | VList [e; m; f] => Some {| error_type := e; message := m; field := f |}
  | _ => None
  end.

(** Modelled from the spec: [Objector.parse_error] (praw/objector.py) is
    not among the sources.  The errors are looked up under ["json"] and
    ["errors"]; a shape without them gives [None]; an array of errors that
    is there but empty is the client-side error of an error that was
    expected and not reported; otherwise every triple becomes an item of
    one [RedditAPIException]. *)
Definition parse_error (data : pyval) : res (option RedditAPIException) :=
  match data with
  | VDict top =>
      match dict_get "json" top with
      | Some (VDict json) =>
          match dict_get "errors" json with
          | Some (VList errors) =>
              match errors with
              | [] => Raise (ClientException "successful error response")
              | _ =>
                  match mapM item_of_triple errors with
                  | Some its => Ok (Some {| items := its |})
                  | None => Raise (TypeError "an error of the API is not a triple")
                  end
              end
          | _ => Ok None
          end
      | _ => Ok None
      end
  | _ => Ok None
  end.

(** ** A concrete client, as the unit tests set one up *)

Definition test_kinds (name : string) : string :=
  if String.eqb name "comment" then "t1"
  else if String.eqb name "redditor" then "t2"
  else if String.eqb name "submission" then "t3"
  else "t5".

(** [reddit.submission(id)]: a submission that is not fetched and has no
    comment yet. *)
Definition test_submission (id : pyval) : M pyval :=
  l ← alloc (Instance ClsSubmission
               (<["id" := id]> (<["_comments_by_id" := VMap ∅]>
                 (<["_fetched" := VBool false]> ∅))));
  mret (VRef l).

Definition no_answer {A} (name : string) : M A := raise (AttributeError name).

(** A client whose server does not answer. *)
Definition test_reddit : Env := {|
  kinds := test_kinds;
  submission_path := fun id => "comments/" ++ id ++ "/";
  reddit_get := fun _ _ => no_answer "get";
  reddit_submission := test_submission;
  reddit_subreddit := fun v => mret v;
  objectify := fun v => mret v;
  UserSubreddit := fun v => mret v;
  RedditBase___getattr__ := fun _ name => no_answer name;
  builtin_str := fun _ => "";
  builtin_eq := fun _ _ => false
|}.

Definition empty_state : state := State [] [].

(** One error of the API as the server sends it, and the item made of
    it. *)
Definition triple (t : pyval * pyval * pyval) : pyval :=
  let '(e, m, f) := t in VList [e; m; f].

Definition item (t : pyval * pyval * pyval) : RedditErrorItem :=
  let '(e, m, f) := t in {| error_type := e; message := m; field := f |}.

(** A method never raises the exception [e0]. *)
Definition never_raises {A} (e0 : exn) (m : M A) : Prop :=
  forall σ σ', m σ <> (Raise e0, σ').

(** What the modules import never raises [e0]. *)
Definition Env_never_raises (e0 : exn) (reddit : Env) : Prop :=
  (forall path params, never_raises e0 (reddit_get reddit path params)) /\
  (forall v, never_raises e0 (reddit_submission reddit v)) /\
  (forall v, never_raises e0 (reddit_subreddit reddit v)) /\
  (forall v, never_raises e0 (objectify reddit v)) /\
  (forall v, never_raises e0 (UserSubreddit reddit v)) /\
  (forall l name, never_raises e0 (RedditBase___getattr__ reddit l name)).

(** A comment made from an identifier alone: it is not fetched, has no
    reply and no submission yet. *)
Definition shallow_comment (id : pyval) : object :=
  Instance ClsComment
    (<["_fetched" := VBool false]>
       (<["id" := id]> (<["_submission" := VNone]> (<["_replies" := VList []]> ∅)))).


(** A redditor made from a name alone. *)
Definition named_redditor (name : pyval) : object :=
  Instance ClsRedditor
    (<["_fetched" := VBool false]>
       (<["name" := name]> (<["_listing_use_sort" := VBool true]> ∅))).

(** ** Comment trees

    The comments that the server returns form trees: a comment with its
    identifier and its replies, or a [MoreComments] placeholder.  A tree
    says where its nodes are in the heap. *)
Inductive tree :=
| Node (l : loc) (id : string) (replies : list tree)
| More (l : loc) (id : string).

Definition root (t : tree) : loc :=
  match t with Node l _ _ | More l _ => l end.

Definition tree_id (t : tree) : string :=
  match t with Node _ id _ | More _ id => id end.

Definition refs (ts : list tree) : list pyval := map (fun t => VRef (root t)) ts.

(** The locations of the nodes. *)
Fixpoint locs (t : tree) : list loc :=
  match t with
  | Node l _ cs => l :: concat (map locs cs)
  | More l _ => [l]
  end.

(** The comments of a tree, a comment before its replies. *)
Fixpoint comments (t : tree) : list (loc * string) :=
  match t with
  | Node l id cs => (l, id) :: concat (map comments cs)
  | More _ _ => []
  end.

Fixpoint height (t : tree) : nat :=
  match t with
  | Node _ _ cs => S (list_max (map height cs))
  | More _ _ => O
  end.

Fixpoint size (t : tree) : nat :=
  match t with
  | Node _ _ cs => S (list_sum (map size cs))
  | More _ _ => 1%nat
  end.

(** The order in which a stack visits the nodes: the node taken from the
    end of the stack, then what its replies, pushed in their order, leave
    on top: the last reply first. *)
Fixpoint visit (t : tree) : list tree :=
  match t with
  | Node _ _ cs => t :: fold_right (fun c acc => (acc ++ visit c)%list) [] cs
  | More _ _ => [t]
  end.

(** The visit of a whole stack, its end first. *)
Definition visit_stack (ts : list tree) : list tree :=
  fold_right (fun c acc => (acc ++ visit c)%list) [] ts.

(** The heap holds the tree: a comment has its identifier and the list of
    its replies, as the objector leaves them. *)
Inductive shape (h : list object) : tree -> Prop :=
| shape_Node l id cs o :
    h !! l = Some o -> __class__ o = ClsComment ->
    __dict__ o !! "id" = Some (VStr id) ->
    __dict__ o !! "_replies" = Some (VList (refs cs)) ->
    Forall (shape h) cs ->
    shape h (Node l id cs)
| shape_More l id o :
    h !! l = Some o -> __class__ o = ClsMoreComments ->
    __dict__ o !! "id" = Some (VStr id) ->
    shape h (More l id).

(** The index of a submission once the comments are registered, in their
    order, under their fullnames. *)
Definition register (kind : string) (cs : list (loc * string)) (m : gmap string loc)
  : gmap string loc :=
  fold_left (fun m c => <[kind ++ "_" ++ c.2 := c.1]> m) cs m.

Definition locs_of (ts : list tree) : list loc := concat (map locs ts).

Definition comments_of (ts : list tree) : list (loc * string) := concat (map comments ts).

Definition height_of (ts : list tree) : nat := list_max (map height ts).

(** The submission at [s] is the object [so], but for its index of
    comments, which is [m]. *)
Definition indexed (h : list object) (s : loc) (so : object) (m : gmap string loc) : Prop :=
  h !! s = Some (Instance (__class__ so) (<["_comments_by_id" := VMap m]> (__dict__ so))).

(** The object at [l] was given the submission [s] between the heaps [h]
    and [h']: a comment has it as its [_submission], its other attributes
    but [_replies] being as they were; another object has it as its
    attribute [submission]. *)
Definition assigned (h h' : list object) (s : loc) (l : loc) : Prop :=
  exists o o', h !! l = Some o /\ h' !! l = Some o' /\ __class__ o' = __class__ o /\
    match __class__ o with
    | ClsComment =>
        __dict__ o' !! "_submission" = Some (VRef s) /\
        forall name, name <> "_submission" -> name <> "_replies" ->
                     __dict__ o' !! name = __dict__ o !! name
    | _ => __dict__ o' = <["submission" := VRef s]> (__dict__ o)
    end.

(** What assigning the submission [s] to the trees [ts] makes of the heap
    [h] and of the index [m]: nothing else than the trees and the
    submission changes, every comment of the trees is in the index, and
    every node was given the submission. *)
Definition reparented (kind : string) (s : loc) (so : object) (ts : list tree)
    (h : list object) (m : gmap string loc) (h' : list object) : Prop :=
  (length h <= length h')%nat /\
  (forall l, (l < length h)%nat -> l ∉ locs_of ts -> l <> s -> h' !! l = h !! l) /\
  indexed h' s so (register kind (comments_of ts) m) /\
  Forall (assigned h h' s) (locs_of ts).

(** The forest that the property [replies] makes of a list of replies. *)
Definition forest_of (s : loc) (cs : list tree) : object :=
  Instance ClsCommentForest
    (<["_comments" := VList (refs cs)]> (<["_submission" := VRef s]> ∅)).

(** The heap once the setter has registered the comment at [l], given it
    the submission, and turned its replies into a forest. *)
Definition registered_heap (kind : string) (s : loc) (so : object) (h : list object)
    (l : loc) (o : object) (id : string) (cs : list tree) (m : gmap string loc)
  : list object :=
  <[l := Instance ClsComment
           (<["_replies" := VRef (length h)]>
              (<["_submission" := VRef s]> (__dict__ o)))]>
    (<[l := Instance ClsComment (<["_submission" := VRef s]> (__dict__ o))]>
       (<[s := Instance (__class__ so)
                 (<["_comments_by_id" := VMap (<[(kind ++ "_" ++ id)%string := l]> m)]>
                    (<["_comments_by_id" := VMap m]> (__dict__ so)))]> h)
     ++ [forest_of s cs])%list.

(** Running [body] on the root of the tree [t], or over the roots of the
    trees [ts], succeeds and assigns the submission [s], from any heap
    that satisfies [inv] and holds the trees apart from one another and
    from the submission. *)
Definition runs_tree (kind : string) (s : loc) (so : object)
    (inv : list object -> Prop) (body : pyval -> M unit) (t : tree) : Prop :=
  forall h r m, inv h -> shape h t -> NoDup (locs t) -> s ∉ locs t ->
    indexed h s so m ->
    exists h', body (VRef (root t)) (State h r) = (Ok tt, State h' r) /\
               reparented kind s so [t] h m h'.

Definition runs_list (kind : string) (s : loc) (so : object)
    (inv : list object -> Prop) (body : pyval -> M unit) (ts : list tree) : Prop :=
  forall h r m, inv h -> Forall (shape h) ts -> NoDup (locs_of ts) -> s ∉ locs_of ts ->
    indexed h s so m ->
    exists h', for_each body (refs ts) (State h r) = (Ok tt, State h' r) /\
               reparented kind s so ts h m h'.

(** A heap and a state for the examples: a submission, a comment on it, a
    reply to that comment, and a reply to a comment that is not there. *)
Definition test_comment (id parent_id : string) (s : loc) : object :=
  Instance ClsComment
    (<["id" := VStr id]> (<["parent_id" := VStr parent_id]>
       (<["_submission" := VRef s]> (<["_replies" := VList []]>
          (<["_fetched" := VBool true]> ∅))))).

Definition test_heap : list object :=
  [ Instance ClsSubmission
      (<["id" := VStr "2gmzqe"]> (<["_comments_by_id" := VMap (<["t1_a" := 1%nat]> ∅)]>
         (<["_fetched" := VBool false]> ∅)));
    test_comment "a" "t3_2gmzqe" 0;
    test_comment "b" "t1_a" 0;
    test_comment "c" "t1_zzz" 0 ].

Definition children (t : tree) : list tree :=
  match t with Node _ _ cs => cs | More _ _ => [] end.

Definition size_of (ts : list tree) : nat := list_sum (map size ts).

Definition has_id (sid : string) (t : tree) : bool := String.eqb (tree_id t) sid.

(** Where the loop of [refresh] stops on its way through the nodes [c],
    then [rest]: at the first node of the identifier looked for, or else
    at the last node. *)
Fixpoint pick (sid : string) (c : tree) (rest : list tree) : tree :=
  match rest with
  | [] => c
  | t :: rest' => if has_id sid c then c else pick sid t rest'
  end.

(** The path that [refresh] requests: the context of the comment up to
    its query, or else the path of the comment under its submission. *)
Definition refresh_path (reddit : Env) (o so : object) : string :=
  match __dict__ o !! "context" with
  | Some context =>
      match context with
      | VStr c => default "" (head (PyStr.split1 "?" c))
      | _ => ""
      end
  | None =>
      match __dict__ so !! "id", __dict__ o !! "id" with
      | Some sid, Some id =>
          submission_path reddit (format reddit sid) ++ "_/" ++ format reddit id
      | _, _ => ""
      end
  end.

(** The parameters of the request: the context, and the limit and the
    sort of the replies when the comment has them. *)
Definition refresh_params (o : object) : list (string * pyval) :=
  ([("context", VInt 100)]
   ++ match __dict__ o !! "reply_limit" with Some v => [("limit", v)] | None => [] end
   ++ match __dict__ o !! "reply_sort" with Some v => [("sort", v)] | None => [] end)%list.

(** The comment [o] once it has taken the attributes of the comment [oc]
    that was found, and the heap then. *)
Definition merged (o oc : object) : object :=
  Instance (__class__ o) (delete "_submission" (__dict__ oc) ∪ __dict__ o).

Definition merged_heap (h : list object) (self c : loc) (o oc : object) : list object :=
  <[self := merged o oc]>
    (<[c := Instance (__class__ oc) (delete "_submission" (__dict__ oc))]> h).

(** Comments as the objector makes them, and the heap of a submission
    with a comment, its reply and a placeholder, none of which has its
    submission yet. *)
Definition fresh_comment (id parent_id : string) (replies : list pyval) : object :=
  Instance ClsComment
    (<["id" := VStr id]> (<["parent_id" := VStr parent_id]>
       (<["_submission" := VNone]> (<["_replies" := VList replies]>
          (<["_fetched" := VBool true]> ∅))))).

Definition fresh_heap : list object :=
  [ Instance ClsSubmission
      (<["id" := VStr "2gmzqe"]> (<["_comments_by_id" := VMap ∅]>
         (<["_fetched" := VBool false]> ∅)));
    fresh_comment "a" "t3_2gmzqe" [VRef 2; VRef 3];
    fresh_comment "b" "t1_a" [];
    Instance ClsMoreComments (<["id" := VStr "m"]> ∅) ].

Definition fresh_tree : tree := Node 1 "a" [Node 2 "b" []; More 3 "m"].

(** A client whose server answers a request for a comment with the
    submission (left out of the first listing) and, in the second listing,
    the tree of a comment ["a"] whose replies are the comment ["b"] and a
    placeholder. *)
Definition answer (first : loc) : list object :=
  [ Instance ClsListing (<["children" := VList []]> ∅);
    Instance ClsListing (<["children" := VList [VRef (first + 2)]]> ∅);
    fresh_comment "a" "t3_2gmzqe" [VRef (first + 3); VRef (first + 4)];
    Instance ClsComment
      (<["body" := VStr "hello"]> (__dict__ (fresh_comment "b" "t1_a" [])));
    Instance ClsMoreComments (<["id" := VStr "m"]> ∅) ].

Definition answering_reddit : Env := {|
  kinds := test_kinds;
  submission_path := fun id => "comments/" ++ id ++ "/";
  reddit_get := fun _ _ σ =>
    (Ok (VList [VRef (length (heap σ)); VRef (length (heap σ) + 1)]),
     State (heap σ ++ answer (length (heap σ))) (requests σ));
  reddit_submission := test_submission;
  reddit_subreddit := fun v => mret v;
  objectify := fun v => mret v;
  UserSubreddit := fun v => mret v;
  RedditBase___getattr__ := fun _ name => no_answer name;
  builtin_str := fun _ => "";
  builtin_eq := fun _ _ => false
|}.

(** A submission and a comment ["b"] of it that was made from its
    identifier. *)
Definition refresh_heap : list object :=
  [ Instance ClsSubmission
      (<["id" := VStr "2gmzqe"]> (<["_comments_by_id" := VMap ∅]>
         (<["_fetched" := VBool false]> ∅)));
    Instance ClsComment
      (<["_submission" := VRef 0]> (__dict__ (shallow_comment (VStr "b")))) ].

(** Two listings of notes, of which the second is the last page, and a
    heap with a listing of two conversations and an empty one. *)
Definition notes : object :=
  Instance ClsModNoteListing (<["end_cursor" := VStr "c"]> ∅).

Definition last_notes : object :=
  Instance ClsModNoteListing
    (<["has_next_page" := VBool false]> (<["end_cursor" := VStr "c"]> ∅)).

Definition modmail_heap : list object :=
  [ Instance ClsModmailConversationsListing
      (<["conversations" := VList [VRef 1; VRef 2]]> ∅);
    Instance (ClsOther "ModmailConversation") (<["id" := VStr "x"]> ∅);
    Instance (ClsOther "ModmailConversation") (<["id" := VStr "y"]> ∅);
    Instance ClsModmailConversationsListing (<["conversations" := VList []]> ∅) ].

(** ** Text of permalinks *)

(** [c in s]. *)
Fixpoint has_char (c : ascii) (s : string) : bool :=
  match s with
  | EmptyString => false
  | String c' s' => (Ascii.eqb c' c || has_char c s')%bool
  end.

(** A segment of a path: a text without slash, question mark or hash. *)
Definition segment (s : string) : bool :=
  negb (has_char "/" s || has_char "?" s || has_char "#" s).

(** An unreserved character of a URL: a letter, a digit, a hyphen, a
    dot, an underscore or a tilde; and a text of such characters. *)
Definition unreserved (c : ascii) : bool :=
  let n := nat_of_ascii c in
  (Url.is_alpha c || ((48 <=? n) && (n <=? 57)) ||
   (n =? 45) || (n =? 46) || (n =? 95) || (n =? 126))%nat%bool.

Definition unreserved_text (s : string) : bool :=
  forallb unreserved (list_ascii_of_string s).

(** A text of printable ASCII characters. *)
Definition printable_text (s : string) : bool :=
  forallb (fun c => ((33 <=? nat_of_ascii c) && (nat_of_ascii c <=? 126))%nat%bool)
    (list_ascii_of_string s).

(** The path made of segments, each after a slash. *)
Fixpoint join_path (segments : list string) : string :=
  match segments with
  | [] => ""
  | p :: rest => "/" ++ p ++ join_path rest
  end.

Fixpoint slashes (n : nat) : string :=
  match n with
  | O => ""
  | S n' => String "/" (slashes n')
  end.

(** The permalink of a comment: scheme, host, the segments before
    [comments], the identifier of the submission, the title, the
    identifier of the comment, trailing slashes and what follows the
    path. *)
Definition permalink (scheme host : string) (prefix : list string)
    (sid title cid : string) (trailing : nat) (rest : string) : string :=
  scheme ++ "://" ++ host ++ join_path (prefix ++ ["comments"; sid; title; cid])%list
    ++ slashes trailing ++ rest.

(** ** Objects that the constructors make *)

(** A redditor made from a fullname alone. *)
Definition fullnamed_redditor (fullname : pyval) : object :=
  Instance ClsRedditor
    (<["_fetched" := VBool false]>
       (<["_fullname" := fullname]> (<["_listing_use_sort" := VBool true]> ∅))).

(** The forest that [CommentForest] makes. *)
Definition forest_object (submission comments : pyval) : object :=
  Instance ClsCommentForest
    (<["_comments" := comments]> (<["_submission" := submission]> ∅)).

(** [o] with one more attribute. *)
Definition with_attr (o : object) (name : string) (v : pyval) : object :=
  Instance (__class__ o) (<[name := v]> (__dict__ o)).

(** A comment as the inbox gives it, with its [context], and a comment
    that has its [link_id]; neither has its submission yet. *)
Definition inbox_heap : list object :=
  [ with_attr (shallow_comment (VStr "cklhv0f")) "context"
      (VStr "/r/redditdev/comments/2gmzqe/_/cklhv0f/?context=3");
    with_attr (shallow_comment (VStr "cklhv0f")) "link_id" (VStr "t3_2gmzqe") ].

(** The heap of the submission and its three comments, with a listing of
    one of them after. *)
Definition listing_heap : list object :=
  (test_heap ++ [Instance ClsListing (<["children" := VList [VRef 2]]> ∅)])%list.

(** A submission and two comments whose [parent_id] names no parent. *)
Definition orphan_heap : list object :=
  [ Instance ClsSubmission
      (<["id" := VStr "2gmzqe"]> (<["_comments_by_id" := VMap ∅]>
         (<["_fetched" := VBool false]> ∅)));
    test_comment "d" "cklhv0f" 0;
    test_comment "e" "t1_" 0 ].

(** ** Listings as containers *)

(** [CHILD_ATTRIBUTE] of a class of listings. *)
Definition CHILD_ATTRIBUTE (c : pyclass) : string :=
  match c with
  | ClsFlairListing => "users"
  | ClsModNoteListing => "mod_notes"
  | ClsModeratorListing => "moderators"
  | ClsModmailConversationsListing => "conversations"
  | _ => "children"
  end.

(** The classes of listings. *)
Definition is_listing (c : pyclass) : bool :=
  match c with
  | ClsListing | ClsFlairListing | ClsModNoteListing | ClsModeratorListing
  | ClsModmailConversationsListing => true
  | _ => false
  end.

(** The classes of listings that define [after] as a property. *)
Definition after_is_property (c : pyclass) : bool :=
  match c with
  | ClsFlairListing | ClsModNoteListing | ClsModmailConversationsListing => true
  | _ => false
  end.

(** [AFTER_PARAM] of a class of listings. *)
Definition AFTER_PARAM (c : pyclass) : string :=
  match c with
  | ClsModNoteListing => "before"
  | _ => "after"
  end.

(** [items[index]] for an integer [index]: a negative index counts from
    the end. *)
Definition list_getitem {A} (items : list A) (index : Z) : M A :=
  let n := Z.of_nat (length items) in
  let i := if index <? 0 then index + n else index in
  if (i <? 0) || (n <=? i) then raise IndexError
  else
    match items !! Z.to_nat i with
    | Some x => mret x
    | None => raise IndexError
    end.

(** [v[index]] on JSON data, for an integer [index]. *)
Definition subscript (v : pyval) (index : Z) : M pyval :=
  match v with
  | VList items => list_getitem items index
  | VStr s =>
      c ← list_getitem (list_ascii_of_string s) index;
      mret (VStr (String c ""))
  | VDict _ | VMap _ => raise (KeyError (pretty index))
  | _ => raise (TypeError "object is not subscriptable")
  end.

(** [len(v)] on JSON data. *)
Definition len (v : pyval) : M Z :=
  match v with
  | VList items => mret (Z.of_nat (length items))
  | VDict items => mret (Z.of_nat (length items))
  | VMap m => mret (Z.of_nat (base.size m))
  | VStr s => mret (Z.of_nat (String.length s))
  | _ => raise (TypeError "object has no len()")
  end.

Section Listings.

Context (reddit : Env).

(** [Listing.__getitem__]. *)
Definition Listing___getitem__ (self : loc) (index : Z) : M pyval :=
  o ← deref self;
  children ← getattr reddit self (CHILD_ATTRIBUTE (__class__ o));
  subscript children index.

(** [Listing.__len__]. *)
Definition Listing___len__ (self : loc) : M Z :=
  o ← deref self;
  children ← getattr reddit self (CHILD_ATTRIBUTE (__class__ o));
  len children.

(** [Listing.__setattr__], and [object.__setattr__] after it: where
    [after] is a property of the class it has no setter, and any other
    attribute is an entry of the instance dictionary. *)
Definition Listing___setattr__ (self : loc) (attribute : string) (value : pyval) : M unit :=
  o ← deref self;
  value ← (if String.eqb attribute (CHILD_ATTRIBUTE (__class__ o))
           then objectify reddit value
           else mret value);
  if (String.eqb attribute "after" && after_is_property (__class__ o))%bool
  then raise (AttributeError attribute)
  else store self attribute value.

End Listings.

(** A listing of moderator notes that was given no note yet. *)
Definition notes_heap : list object :=
  [ Instance ClsModNoteListing ∅ ].

(** ** The nodes of the trees of comments *)

(** The nodes of a tree at any depth, a node before its replies. *)
Fixpoint nodes (t : tree) : list tree :=
  match t with
  | Node _ _ cs => t :: concat (map nodes cs)
  | More _ _ => [t]
  end.

Definition nodes_of (ts : list tree) : list tree := concat (map nodes ts).

(** ** Payloads *)

(** The attributes once the entries of a payload have been set, one
    after the other. *)
Definition payload_dict (items : list (string * pyval)) (d : gmap string pyval)
  : gmap string pyval :=
  fold_left (fun d kv => <[kv.1 := kv.2]> d) items d.

(** An attribute that [Comment.__setattr__] keeps as it is given. *)
Definition plain_attribute (name : string) : bool :=
  negb (bool_decide (name ∈ ["author"; "replies"; "subreddit"; "submission";
                             "is_root"; "_kind"; "fullname"])).

(** The comment that the constructor makes of a payload of plain
    attributes. *)
Definition payload_comment (items : list (string * pyval)) : object :=
  Instance ClsComment
    (<["_fetched" := VBool true]>
       (payload_dict items (<["_submission" := VNone]> (<["_replies" := VList []]> ∅)))).

(** An entry that [Redditor.__setattr__] keeps as it is given: not a
    subreddit to objectify, and not a property without setter. *)
Definition plain_entry (kv : string * pyval) : bool :=
  negb ((String.eqb kv.1 "subreddit" && truthy kv.2)
        || bool_decide (kv.1 ∈ ["_kind"; "_path"; "fullname"])).

(** The redditor that the constructor makes of a payload of plain
    entries. *)
Definition payload_redditor (items : list (string * pyval)) : object :=
  Instance ClsRedditor
    (<["_fetched" := VBool false]>
       (payload_dict items (<["_listing_use_sort" := VBool true]> ∅))).

(** ** Fetching *)

(** [d[key]] for a key that is a string. *)
Definition subscript_key (d : pyval) (key : string) : M pyval :=
  match d with
  | VDict items =>
      match dict_get key items with
      | Some v => mret v
      | None => raise (KeyError key)
      end
  | VMap m =>
      match m !! key with
      | Some l => mret (VRef l)
      | None => raise (KeyError key)
      end
  | VList _ | VStr _ => raise (TypeError "indices must be integers")
  | _ => raise (TypeError "object is not subscriptable")
  end.

Section Fetch.

Context (reddit : Env).

(** [RedditBase._fetch_data], which sends the request of the object, and
    [RedditBase._fetch], both of the base class. *)
Context (_fetch_data : loc -> M pyval) (RedditBase__fetch : loc -> M unit).

(** [Comment._fetch]. *)
Definition Comment__fetch (fuel : nat) (self : loc) : M unit :=
  data ← _fetch_data self;
  data ← subscript_key data "data";
  children ← subscript_key data "children";
  if negb (truthy children) then
    name ← fullname reddit self;
    raise (ClientException ("No data returned for comment " ++ name))
  else
    children ← subscript_key data "children";
    child ← subscript children 0;
    comment_data ← subscript_key child "data";
    other ← Comment___init__ reddit fuel VNone VNone comment_data;
    dict_update self (VRef other) ;;
    RedditBase__fetch self.

(** [Redditor._fetch]. *)
Definition Redditor__fetch (self : loc) : M unit :=
  data ← _fetch_data self;
  data ← subscript_key data "data";
  other ← Redditor___init__ reddit VNone VNone data;
  dict_update self (VRef other) ;;
  RedditBase__fetch self.

End Fetch.

(** [o] once it has taken the attributes of [other]. *)
Definition updated (o other : object) : object :=
  Instance (__class__ o) (__dict__ other ∪ __dict__ o).

(** The answer to the request of a comment, with the children given. *)
Definition info_answer (children : list pyval) : pyval :=
  VDict [("kind", VStr "Listing"); ("data", VDict [("children", VList children)])].

(** A server that answers the request of any object the same. *)
Definition answers (answer : pyval) (self : loc) : M pyval := mret answer.

(** The object is fetched from now on. *)
Definition set_fetched (self : loc) : M unit := store self "_fetched" (VBool true).

(** ** The name of a redditor *)

Section Names.

Context (reddit : Env).

(** [API_PATH[name]], of [praw.const]. *)
Context (API_PATH : string -> string).

(** [hasattr(self, name)]. *)
Definition hasattr (self : loc) (name : string) : M bool :=
  except_AttributeError (getattr reddit self name ;; mret true) (mret false).

(** [d[key]] on JSON data. *)
Definition subscript_value (d key : pyval) : M pyval :=
  match d, key with
  | (VDict _ | VMap _), VStr k => subscript_key d k
  | (VDict _ | VMap _), (VList _ | VDict _ | VMap _) => raise (TypeError "unhashable type")
  | (VDict _ | VMap _), _ => raise (KeyError (format reddit key))
  | (VList _ | VStr _), VInt i => subscript d i
  | (VList _ | VStr _), VBool b => subscript d (if b then 1 else 0)
  | (VList _ | VStr _), _ => raise (TypeError "indices must be integers")
  | _, _ => raise (TypeError "object is not subscriptable")
  end.

(** [Redditor._fetch_username]. *)
Definition _fetch_username (fullname : pyval) : M pyval :=
  response ← get reddit (API_PATH "user_by_fullname") [("ids", fullname)];
  user ← subscript_value response fullname;
  subscript_key user "name".

(** [Redditor._fetch_info]. *)
Definition Redditor__fetch_info (self : loc)
  : M (string * list (string * pyval) * pyval) :=
  has_fullname ← hasattr self "_fullname";
  (if has_fullname : bool then
     _fullname ← getattr reddit self "_fullname";
     name ← _fetch_username _fullname;
     Redditor___setattr__ reddit self "name" name
   else mret tt) ;;
  name ← getattr reddit self "name";
  mret ("user_about", [("user", name)], VNone).

End Names.

(** A client that knows the redditor of the fullname [t2_abc]. *)
Definition naming_reddit : Env := {|
  kinds := test_kinds;
  submission_path := fun id => "comments/" ++ id ++ "/";
  reddit_get := fun _ _ => mret (VDict [("t2_abc", VDict [("name", VStr "spez")])]);
  reddit_submission := test_submission;
  reddit_subreddit := fun v => mret v;
  objectify := fun v => mret v;
  UserSubreddit := fun v => mret v;
  RedditBase___getattr__ := fun _ name => no_answer name;
  builtin_str := fun _ => "";
  builtin_eq := fun _ _ => false
|}.

Definition test_paths (name : string) : string :=
  if String.eqb name "user_by_fullname" then "api/user_data_by_account_ids" else "".

(** ** Loading on demand *)

Section Lazy.

Context (reddit : Env).


(** The path [API_PATH[name]] of [praw.const] with the fields filled in,
    and the server that answers a request. *)
Context (API_PATH : string -> list (string * pyval) -> string).
Context (server : request -> M pyval).



End Lazy.






(** ** Theorems *)

#[local] Open Scope list_scope.

(** *** Permalinks *)

Lemma _url_parts_cases url :
  (exists parts, _url_parts url = Ok parts) \/ _url_parts url = Raise (InvalidURL url).
Proof.
  unfold _url_parts. destruct (Url.urlparse url) as [netloc path].
  destruct (String.eqb netloc ""); eauto.
Qed.



(** On the URLs that the unit tests list as invalid, the error is raised. *)
Example id_from_url_invalid_urls :
  Forall (fun url => id_from_url url = Raise (InvalidURL url))
    [""; "1"; "/"; "my.it/2gmzqe"; "http://my.it/_"; "https://redd.it/_/";
     "http://reddit.com/comments/_/2gmzqe"; "http://my.it/2gmzqe";
     "https://redd.it/2gmzqe"; "http://reddit.com/comments/2gmzqe";
     "https://www.reddit.com/r/redditdev/comments/2gmzqe/"].
Proof. repeat constructor. Qed.

(** When an identifier is returned, it is the last part, and
    ["comments"] stands four parts before the end. *)
Lemma id_from_url_ok url id :
  id_from_url url = Ok id ->
  exists parts i, _url_parts url = Ok parts /\
    list_index "comments" parts = Some i /\
    Z.of_nat (length parts) - 4 = Z.of_nat i /\ last parts = Some id.
Proof.
  unfold id_from_url. intros H.
  destruct (_url_parts url) as [parts| |]; try discriminate.
  destruct (list_index "comments" parts) as [i|] eqn:Hi; try discriminate.
  destruct (Z.eqb_spec (Z.of_nat (length parts) - 4) (Z.of_nat i)); try discriminate.
  simpl in H. destruct (last parts) eqn:Hl; try discriminate.
  injection H as ->. exists parts, i. auto.
Qed.

(** *** Errors of the API *)

Lemma mapM_item_of_triple ts :
  mapM item_of_triple (map triple ts) = Some (map item ts).
Proof.
  induction ts as [|[[e m] f] ts IH]; [reflexivity|].
  simpl in *. rewrite IH. reflexivity.
Qed.

(** C3: [parse_error] gives [None], and raises nothing, on an empty
    mapping, on a list and on a mapping without the key ["json"] or
    without the key ["errors"] under it; on a mapping that has the array of
    errors under ["json"] and ["errors"], whatever its other keys, it
    raises a [ClientException] when the array is empty, and on an array of
    [n >= 1] triples it returns a [RedditAPIException] of exactly [n]
    items, the item of each triple holding its error type, message and
    field. *)
Theorem parse_error_spec :
  (parse_error (VDict []) = Ok None /\
   parse_error (VList []) = Ok None /\
   parse_error (VDict [("asdf", VInt 1)]) = Ok None) /\
  (forall l, parse_error (VList l) = Ok None) /\
  (forall top, dict_get "json" top = None -> parse_error (VDict top) = Ok None) /\
  (forall top json, dict_get "json" top = Some (VDict json) ->
     dict_get "errors" json = None -> parse_error (VDict top) = Ok None) /\
  (forall top json, dict_get "json" top = Some (VDict json) ->
     dict_get "errors" json = Some (VList []) ->
     exists msg, parse_error (VDict top) = Raise (ClientException msg) /\
       is_ClientException (ClientException msg) = true) /\
  (forall top json ts, dict_get "json" top = Some (VDict json) ->
     dict_get "errors" json = Some (VList (map triple ts)) -> ts <> [] ->
     parse_error (VDict top) = Ok (Some {| items := map item ts |}) /\
     length (items {| items := map item ts |}) = length ts /\
     Forall2 (fun t i => t = VList [error_type i; message i; field i])
       (map triple ts) (items {| items := map item ts |})).
Proof.
  split; [repeat split; reflexivity|].
  split; [reflexivity|].
  split; [intros top H; simpl; rewrite H; reflexivity|].
  split; [intros top json H1 H2; simpl; rewrite H1, H2; reflexivity|].
  split.
  - intros top json H1 H2. eexists. simpl. rewrite H1, H2. split; reflexivity.
  - intros top json ts H1 H2 Hne. split; [|split].
    + cbn. rewrite H1, H2, mapM_item_of_triple.
      destruct ts as [|t ts]; [congruence|]. reflexivity.
    + simpl. apply length_map.
    + simpl. clear. induction ts as [|[[e m] f] ts IH]; constructor; auto.
Qed.

Lemma parse_error_spec_witness :
  parse_error
    (VDict [("status", VInt 200);
            ("json", VDict [("data", VDict []);
               ("errors",
                VList [VList [VStr "USER_REQUIRED"; VStr "Please log in to do that."; VNone];
                       VList [VStr "NO_SUBJECT"; VStr "please enter a subject";
                              VStr "subject"]])])])
  = Ok (Some {| items :=
       [ {| error_type := VStr "USER_REQUIRED";
            message := VStr "Please log in to do that."; field := VNone |};
         {| error_type := VStr "NO_SUBJECT";
            message := VStr "please enter a subject"; field := VStr "subject" |} ] |}).
Proof.
  refine (proj1 (proj2 (proj2 (proj2 (proj2 (proj2 parse_error_spec))))
    [("status", VInt 200);
     ("json", VDict [("data", VDict []);
        ("errors",
         VList [VList [VStr "USER_REQUIRED"; VStr "Please log in to do that."; VNone];
                VList [VStr "NO_SUBJECT"; VStr "please enter a subject";
                       VStr "subject"]])])]
    [("data", VDict []);
     ("errors",
      VList [VList [VStr "USER_REQUIRED"; VStr "Please log in to do that."; VNone];
             VList [VStr "NO_SUBJECT"; VStr "please enter a subject"; VStr "subject"]])]
    [(VStr "USER_REQUIRED", VStr "Please log in to do that.", VNone);
     (VStr "NO_SUBJECT", VStr "please enter a subject", VStr "subject")] _ _ _));
    [reflexivity | reflexivity | discriminate].
Defined.

(** *** Reasoning on methods *)

Lemma bind_Ok {A B} (m : M A) (f : A -> M B) σ a σ' :
  m σ = (Ok a, σ') -> (m ≫= f) σ = f a σ'.
Proof. intros H. unfold mbind, M_bind. rewrite H. reflexivity. Qed.

Lemma bind_Raise {A B} (m : M A) (f : A -> M B) σ e σ' :
  m σ = (Raise e, σ') -> (m ≫= f) σ = (Raise e, σ').
Proof. intros H. unfold mbind, M_bind. rewrite H. reflexivity. Qed.

Lemma ret_bind {A B} (a : A) (f : A -> M B) σ : (mret a ≫= f) σ = f a σ.
Proof. reflexivity. Qed.

Lemma bind_assoc {A B C} (m : M A) (f : A -> M B) (g : B -> M C) σ :
  ((m ≫= f) ≫= g) σ = (m ≫= fun a => f a ≫= g) σ.
Proof. unfold mbind, M_bind. destruct (m σ) as [[a|e|] σ']; reflexivity. Qed.

Lemma except_AttributeError_Ok {A} (m handler : M A) σ a σ' :
  m σ = (Ok a, σ') -> except_AttributeError m handler σ = (Ok a, σ').
Proof. intros H. unfold except_AttributeError. rewrite H. reflexivity. Qed.

Lemma deref_hit σ l o : heap σ !! l = Some o -> deref l σ = (Ok o, σ).
Proof. intros H. unfold deref. rewrite H. reflexivity. Qed.

Lemma getattr_hit reddit σ l o name v :
  heap σ !! l = Some o -> __dict__ o !! name = Some v ->
  getattr reddit l name σ = (Ok v, σ).
Proof.
  intros Hl Hv. unfold getattr. rewrite (bind_Ok _ _ _ _ _ (deref_hit _ _ _ Hl)).
  rewrite Hv. reflexivity.
Qed.

Lemma in_dict_hit σ l o name :
  heap σ !! l = Some o ->
  in_dict l name σ = (Ok (bool_decide (is_Some (__dict__ o !! name))), σ).
Proof.
  intros Hl. unfold in_dict. rewrite (bind_Ok _ _ _ _ _ (deref_hit _ _ _ Hl)).
  reflexivity.
Qed.

Lemma update_hit σ l o f :
  heap σ !! l = Some o ->
  update l f σ = (Ok tt, State (<[l := f o]> (heap σ)) (requests σ)).
Proof. intros Hl. unfold update. rewrite Hl. reflexivity. Qed.

Lemma store_hit σ l o name v :
  heap σ !! l = Some o ->
  store l name v σ =
    (Ok tt, State (<[l := Instance (__class__ o) (<[name := v]> (__dict__ o))]> (heap σ))
                  (requests σ)).
Proof. intros Hl. unfold store, update. rewrite Hl. reflexivity. Qed.

(** *** Listings *)

(** C7: the cursor of a listing is computed from the listing alone.
    [ModNoteListing.after] is [None] when [has_next_page] is false, and
    otherwise [end_cursor], or [None] without one;
    [ModmailConversationsListing.after] is [None] when the list of
    conversations is empty, and otherwise the identifier of the last
    conversation, which is not [None]; neither changes the state. *)
Theorem after_spec reddit :
  (forall self, __dict__ self !! "has_next_page" = Some (VBool false) ->
     ModNoteListing_after self = VNone) /\
  (forall self,
     (__dict__ self !! "has_next_page" = None \/
      exists v, __dict__ self !! "has_next_page" = Some v /\ truthy v = true) ->
     ModNoteListing_after self = default VNone (__dict__ self !! "end_cursor")) /\
  (forall σ self o, heap σ !! self = Some o ->
     __dict__ o !! "conversations" = Some (VList []) ->
     ModmailConversationsListing_after reddit self σ = (Ok VNone, σ)) /\
  (forall σ self o convs c oc id, heap σ !! self = Some o ->
     __dict__ o !! "conversations" = Some (VList (convs ++ [VRef c])) ->
     heap σ !! c = Some oc -> __dict__ oc !! "id" = Some (VStr id) ->
     ModmailConversationsListing_after reddit self σ = (Ok (VStr id), σ) /\
     VStr id <> VNone).
Proof.
  repeat split.
  - intros self H. unfold ModNoteListing_after, getattr_default. rewrite H. reflexivity.
  - intros self H. unfold ModNoteListing_after, getattr_default.
    destruct H as [-> | (v & -> & ->)]; simpl;
      destruct (__dict__ self !! "end_cursor"); reflexivity.
  - intros σ self o Ho Hc. unfold ModmailConversationsListing_after, except_IndexError.
    rewrite (bind_Ok _ _ _ _ _ (getattr_hit _ _ _ _ _ _ Ho Hc)). reflexivity.
  - unfold ModmailConversationsListing_after, except_IndexError.
    rewrite (bind_Ok _ _ _ _ _ (getattr_hit _ _ _ _ _ _ H H0)).
    unfold last_item. rewrite last_snoc.
    unfold mbind, M_bind, mret, M_ret. simpl.
    rewrite (getattr_hit _ _ _ _ _ _ H1 H2). reflexivity.
  - discriminate.
Qed.

Lemma after_spec_witness :
  ModNoteListing_after last_notes = VNone /\
  ModNoteListing_after notes = VStr "c" /\
  ModmailConversationsListing_after test_reddit 3%nat (State modmail_heap []) =
    (Ok VNone, State modmail_heap []) /\
  ModmailConversationsListing_after test_reddit 0%nat (State modmail_heap []) =
    (Ok (VStr "y"), State modmail_heap []).
Proof.
  destruct (after_spec test_reddit) as (Hlast & Hnext & Hempty & Hid).
  split; [|split; [|split]].
  - apply Hlast. reflexivity.
  - rewrite (Hnext notes); [reflexivity | left; reflexivity].
  - eapply Hempty; reflexivity.
  - eapply (Hid _ 0%nat _ [VRef 1] 2%nat); reflexivity.
Defined.

(** *** Exceptions that a method cannot raise *)

Section NeverRaises.

Context (reddit : Env) (e0 : exn).
Hypothesis He0 :
  e0 = TypeError Comment_msg \/ e0 = TypeError Redditor_msg \/
  e0 = AssertionError ASSERT_MSG.
Hypothesis Henv : Env_never_raises e0 reddit.

Lemma nr_ret {A} (a : A) : never_raises e0 (mret a).
Proof. intros σ σ' [=]. Qed.

Lemma nr_raise {A} e : e <> e0 -> never_raises e0 (raise e : M A).
Proof. intros He σ σ' [=]. congruence. Qed.

Lemma nr_bind {A B} (m : M A) (f : A -> M B) :
  never_raises e0 m -> (forall a, never_raises e0 (f a)) ->
  never_raises e0 (m ≫= f).
Proof.
  intros Hm Hf σ σ'. unfold mbind, M_bind.
  destruct (m σ) as [[a| e|] σ1] eqn:E.
  - apply Hf.
  - intros [= -> ->]. exact (Hm _ _ E).
  - discriminate.
Qed.

Lemma nr_out_of_fuel {A} : never_raises e0 (out_of_fuel : M A).
Proof. intros σ σ' [=]. Qed.

Lemma nr_lift {A} (r : res A) : r <> Raise e0 -> never_raises e0 (lift r).
Proof. intros Hr σ σ' [=]. congruence. Qed.

Lemma nr_alloc o : never_raises e0 (alloc o).
Proof. intros σ σ' [=]. Qed.

Lemma nr_log r : never_raises e0 (log_request r).
Proof. intros σ σ' [=]. Qed.

Lemma AttributeError_ne name : AttributeError name <> e0.
Proof. destruct He0 as [->|[->| ->]]; discriminate. Qed.

Lemma ValueError_ne msg : ValueError msg <> e0.
Proof. destruct He0 as [->|[->| ->]]; discriminate. Qed.

Lemma IndexError_ne : IndexError <> e0.
Proof. destruct He0 as [->|[->| ->]]; discriminate. Qed.

Lemma KeyError_ne k : KeyError k <> e0.
Proof. destruct He0 as [->|[->| ->]]; discriminate. Qed.

Lemma InvalidURL_ne u : InvalidURL u <> e0.
Proof. destruct He0 as [->|[->| ->]]; discriminate. Qed.

Lemma ClientException_ne m : ClientException m <> e0.
Proof. destruct He0 as [->|[->| ->]]; discriminate. Qed.

Lemma TypeError_ne msg :
  msg <> Comment_msg -> msg <> Redditor_msg -> TypeError msg <> e0.
Proof. destruct He0 as [->|[->| ->]]; congruence. Qed.

Lemma nr_deref l : never_raises e0 (deref l).
Proof.
  intros σ σ'. unfold deref. destruct (heap σ !! l); intros [=].
  eapply AttributeError_ne; eauto.
Qed.

Lemma nr_update l f : never_raises e0 (update l f).
Proof.
  intros σ σ'. unfold update. destruct (heap σ !! l); intros [=].
  eapply AttributeError_ne; eauto.
Qed.

Lemma nr_store l name v : never_raises e0 (store l name v).
Proof. apply nr_update. Qed.

Lemma nr_for_each {A} (body : A -> M unit) xs :
  (forall x, never_raises e0 (body x)) -> never_raises e0 (for_each body xs).
Proof.
  intros Hb. induction xs as [|x xs IH]; simpl.
  - apply nr_ret.
  - apply nr_bind; auto.
Qed.

Lemma nr_except_AttributeError {A} (m h : M A) :
  never_raises e0 m -> never_raises e0 h ->
  never_raises e0 (except_AttributeError m h).
Proof.
  intros Hm Hh σ σ'. unfold except_AttributeError.
  destruct (m σ) as [[a|e|] σ1] eqn:E; try discriminate.
  destruct e; try (intros [= <- <-]; exact (Hm _ _ E)).
  apply Hh.
Qed.

Ltac nr_side :=
  solve [ apply AttributeError_ne | apply ValueError_ne | apply IndexError_ne
        | apply KeyError_ne | apply InvalidURL_ne | apply ClientException_ne
        | apply TypeError_ne; discriminate ].

Ltac nr_step :=
  lazymatch goal with
  | |- never_raises _ (mret _) => apply nr_ret
  | |- never_raises _ (raise _) => apply nr_raise; nr_side
  | |- never_raises _ out_of_fuel => apply nr_out_of_fuel
  | |- never_raises _ (_ ≫= _) => apply nr_bind; [|intros]
  | |- never_raises _ (deref _) => apply nr_deref
  | |- never_raises _ (store _ _ _) => apply nr_store
  | |- never_raises _ (update _ _) => apply nr_update
  | |- never_raises _ (alloc _) => apply nr_alloc
  | |- never_raises _ (log_request _) => apply nr_log
  | |- never_raises _ (except_AttributeError _ _) => apply nr_except_AttributeError
  | |- never_raises _ (for_each _ _) => apply nr_for_each; intros
  | |- never_raises _ (if ?c then _ else _) => destruct c
  | |- never_raises _ (match ?x with _ => _ end) => destruct x
  | |- never_raises _ (let '(_, _) := ?x in _) => destruct x
  end.

Ltac nr := repeat nr_step.

Lemma nr_getattr self name : never_raises e0 (getattr reddit self name).
Proof. unfold getattr. nr; apply Henv. Qed.

Lemma nr_attr v name : never_raises e0 (attr reddit v name).
Proof. unfold attr. destruct v; try (apply nr_raise; nr_side). apply nr_getattr. Qed.

Lemma nr_fullname self : never_raises e0 (fullname reddit self).
Proof. unfold fullname, _kind. nr. apply nr_getattr. Qed.

Lemma nr_in_dict self name : never_raises e0 (in_dict self name).
Proof. unfold in_dict. nr. Qed.

Lemma nr_as_str m v : never_raises e0 (as_str m v).
Proof. unfold as_str. nr. Qed.

Lemma nr_nth_part parts i : never_raises e0 (nth_part parts i).
Proof. unfold nth_part. nr. Qed.

Lemma nr_extract self : never_raises e0 (_extract_submission_id reddit self).
Proof.
  unfold _extract_submission_id.
  repeat first [ apply nr_getattr | apply nr_in_dict | apply nr_as_str
               | apply nr_nth_part | nr_step ].
Qed.

Lemma nr_submission self : never_raises e0 (submission reddit self).
Proof.
  unfold submission.
  repeat first [ apply nr_getattr | apply nr_extract | apply Henv | nr_step ].
Qed.

Lemma nr_iter v : never_raises e0 (iter v).
Proof. unfold iter. nr. Qed.

Lemma nr_replies self : never_raises e0 (replies reddit self).
Proof.
  unfold replies, CommentForest.
  repeat first [ apply nr_getattr | apply nr_submission | nr_step ].
Qed.

Lemma nr_RedditBase_init setattr_ field self _data extra fetched :
  (forall l a v, never_raises e0 (setattr_ l a v)) ->
  never_raises e0 (RedditBase___init__ setattr_ field self _data extra fetched).
Proof.
  intros Hs. unfold RedditBase___init__.
  repeat first [ apply Hs | nr_step ].
Qed.

Lemma nr_Redditor_setattr self name v :
  never_raises e0 (Redditor___setattr__ reddit self name v).
Proof. unfold Redditor___setattr__. repeat first [ apply Henv | nr_step ]. Qed.

Lemma nr_Redditor_init name fullname_ _data :
  (count_not_None [name; fullname_; _data] <> 1%nat -> e0 <> TypeError Redditor_msg) ->
  (truthy _data = true -> has_name _data = false -> e0 <> AssertionError ASSERT_MSG) ->
  never_raises e0 (Redditor___init__ reddit name fullname_ _data).
Proof.
  intros Hc Ha. unfold Redditor___init__.
  destruct (Nat.eqb_spec (count_not_None [name; fullname_; _data]) 1) as [E|E]; simpl.
  - apply nr_bind; [|intros _].
    + destruct (truthy _data) eqn:Ht; [|apply nr_ret].
      destruct (has_name _data) eqn:Hn; [apply nr_ret|].
      apply nr_raise. intros ?. eapply Ha; eauto.
    + repeat first [ apply nr_RedditBase_init; intros; apply nr_Redditor_setattr
                   | nr_step ].
  - apply nr_raise. intros ?. eapply Hc; eauto.
Qed.

Lemma nr_from_data data :
  e0 = TypeError Comment_msg -> never_raises e0 (from_data reddit data).
Proof.
  intros E. unfold from_data.
  destruct (eq_str data "[deleted]"); [apply nr_ret|].
  apply nr_bind; [|intros; apply nr_ret].
  apply nr_Redditor_init; rewrite E; intros; discriminate.
Qed.

Lemma nr_setitem owner name index key value :
  never_raises e0 (setitem owner name index key value).
Proof. unfold setitem. nr. Qed.

Lemma nr_submission_setter assign self s :
  (forall r v, never_raises e0 (assign r v)) ->
  never_raises e0 (submission_setter reddit assign self s).
Proof.
  intros H. unfold submission_setter.
  repeat first [ apply nr_attr | apply nr_fullname | apply nr_setitem
               | apply nr_replies | apply nr_iter | apply H | nr_step ].
Qed.

Lemma nr_setattr_with f target name v :
  (forall l a v, never_raises e0 (f l a v)) ->
  never_raises e0 (setattr_with reddit f target name v).
Proof.
  intros H. unfold setattr_with.
  repeat first [ apply H | apply nr_Redditor_setattr | nr_step ].
Qed.

Lemma nr_Comment_setattr fuel :
  e0 = TypeError Comment_msg ->
  forall self attribute v,
    never_raises e0 (Comment___setattr__ reddit fuel self attribute v).
Proof.
  intros E. induction fuel as [|fuel IH]; intros self attribute v; simpl.
  - apply nr_out_of_fuel.
  - unfold Comment___setattr___body.
    apply nr_bind.
    + repeat first [ apply nr_from_data; assumption | apply Henv | apply nr_attr
                   | nr_step ].
    + intros [a w].
      repeat first [ apply nr_submission_setter; intros; apply nr_setattr_with; apply IH
                   | nr_step ].
Qed.

Lemma nr_Comment_init fuel id url _data :
  e0 = TypeError Comment_msg ->
  count_not_None [id; url; _data] = 1%nat ->
  never_raises e0 (Comment___init__ reddit fuel id url _data).
Proof.
  intros E Hc. unfold Comment___init__. rewrite Hc. simpl.
  repeat first [ apply nr_RedditBase_init; intros; apply nr_Comment_setattr; assumption
               | apply nr_as_str | nr_step ].
  apply nr_lift. unfold id_from_url. rewrite E.
  match goal with
  | |- context [_url_parts ?u] =>
      destruct (_url_parts_cases u) as [[parts ->]| ->]; [|discriminate]
  end.
  repeat case_match; discriminate.
Qed.

End NeverRaises.

(** *** Construction *)

Lemma store_last h o r name v :
  store (length h) name v (State (h ++ [o]) r) =
    (Ok tt, State (h ++ [Instance (__class__ o) (<[name := v]> (__dict__ o))]) r).
Proof.
  unfold store, update. simpl.
  rewrite lookup_app_r, Nat.sub_diag by lia. simpl.
  rewrite insert_app_r_alt, Nat.sub_diag by lia. reflexivity.
Qed.

Lemma deref_last h o r :
  deref (length h) (State (h ++ [o]) r) = (Ok o, State (h ++ [o]) r).
Proof.
  unfold deref. simpl. rewrite lookup_app_r, Nat.sub_diag by lia. reflexivity.
Qed.

Lemma eq_str_false data s : data <> VStr s -> eq_str data s = false.
Proof.
  destruct data; simpl; try reflexivity.
  intros H. apply String.eqb_neq. congruence.
Qed.

Lemma eq_str_true data s : eq_str data s = true -> data = VStr s.
Proof.
  destruct data; simpl; try discriminate.
  intros H. apply String.eqb_eq in H. congruence.
Qed.

Lemma Redditor_init_name reddit name σ :
  truthy name = true ->
  Redditor___init__ reddit name VNone VNone σ =
    (Ok (length (heap σ)), State (heap σ ++ [named_redditor name]) (requests σ)).
Proof.
  intros Ht. destruct σ as [h r].
  assert (Hn : is_None name = false) by (destruct name; try reflexivity; discriminate).
  unfold Redditor___init__, count_not_None. simpl. rewrite Hn. simpl.
  unfold mbind, M_bind, mret, M_ret, alloc. simpl.
  rewrite store_last. simpl. rewrite Ht. rewrite store_last. simpl.
  unfold RedditBase___init__. unfold mbind, M_bind, mret, M_ret. simpl.
  rewrite store_last. rewrite deref_last. reflexivity.
Qed.

(** C1: the constructors of [Comment] and [Redditor] raise the
    [TypeError] of the usage error, before they do anything else, when
    none, two or three of their three inputs are given, that is when the
    number of inputs given is not one; when exactly one is given they do
    not raise this error, as long as no module they call does. *)
Theorem construct_failure reddit fuel a b c σ :
  (count_not_None [a; b; c] <> 1%nat ->
     Comment___init__ reddit fuel a b c σ = (Raise (TypeError Comment_msg), σ) /\
     Redditor___init__ reddit a b c σ = (Raise (TypeError Redditor_msg), σ) /\
     is_TypeError (TypeError Comment_msg) = true) /\
  (count_not_None [a; b; c] = 1%nat ->
     (Env_never_raises (TypeError Comment_msg) reddit ->
      forall σ', Comment___init__ reddit fuel a b c σ <> (Raise (TypeError Comment_msg), σ')) /\
     (Env_never_raises (TypeError Redditor_msg) reddit ->
      forall σ', Redditor___init__ reddit a b c σ <> (Raise (TypeError Redditor_msg), σ'))).
Proof.
  split.
  - intros H. apply Nat.eqb_neq in H.
    unfold Comment___init__, Redditor___init__. rewrite H. simpl. auto.
  - intros H. split; intros Henv σ'.
    + apply (nr_Comment_init reddit (TypeError Comment_msg)); auto.
    + apply (nr_Redditor_init reddit (TypeError Redditor_msg)); auto.
Qed.

(** The number of inputs given is none, one, two or three. *)
Lemma count_not_None_cases a b c :
  count_not_None [a; b; c] <> 1%nat <->
  count_not_None [a; b; c] = 0%nat \/ count_not_None [a; b; c] = 2%nat \/
  count_not_None [a; b; c] = 3%nat.
Proof.
  unfold count_not_None. simpl.
  destruct (is_None a), (is_None b), (is_None c); simpl; lia.
Qed.

Lemma test_reddit_never_raises e0 :
  (forall n, e0 <> AttributeError n) -> Env_never_raises e0 test_reddit.
Proof.
  intros H. repeat split; simpl; intros; intros σ σ' [=]; congruence.
Qed.

Lemma construct_failure_witness :
  (Comment___init__ test_reddit 1 (VStr "dummy") (VStr "dummy") VNone empty_state
     = (Raise (TypeError Comment_msg), empty_state) /\
   Redditor___init__ test_reddit (VStr "dummy") (VStr "dummy") VNone empty_state
     = (Raise (TypeError Redditor_msg), empty_state)) /\
  (forall σ', Comment___init__ test_reddit 1 (VStr "dummy") VNone VNone empty_state
     <> (Raise (TypeError Comment_msg), σ')).
Proof.
  split.
  - pose proof (proj1 (construct_failure test_reddit 1 (VStr "dummy") (VStr "dummy") VNone
                         empty_state)) as H.
    destruct H as (H1 & H2 & _); [vm_compute; discriminate|]. auto.
  - refine (proj1 (proj2 (construct_failure test_reddit 1 (VStr "dummy") VNone VNone
                            empty_state) _) _).
    + reflexivity.
    + apply test_reddit_never_raises. discriminate.
Defined.

(** *** Deleted users *)

(** C9: [Redditor.from_data] returns [None] exactly when its input is the
    string ["[deleted]"]; on any other input it is the construction of a
    redditor from that input, which gives a new redditor of that name when
    the input is truthy; and assigning ["[deleted]"] to the attribute
    [author] of a comment stores [None] there. *)
Theorem from_data_spec reddit :
  (forall σ, from_data reddit (VStr "[deleted]") σ = (Ok VNone, σ)) /\
  (forall data σ σ', from_data reddit data σ = (Ok VNone, σ') -> data = VStr "[deleted]") /\
  (forall data σ, data <> VStr "[deleted]" ->
     from_data reddit data σ =
       (self ← Redditor___init__ reddit data VNone VNone; mret (VRef self)) σ) /\
  (forall data σ, data <> VStr "[deleted]" -> truthy data = true ->
     from_data reddit data σ =
       (Ok (VRef (length (heap σ))),
        State (heap σ ++ [named_redditor data]) (requests σ))) /\
  (forall fuel σ self o, heap σ !! self = Some o ->
     Comment___setattr__ reddit (S fuel) self "author" (VStr "[deleted]") σ =
       (Ok tt, State (<[self := Instance (__class__ o) (<["author" := VNone]> (__dict__ o))]>
                        (heap σ)) (requests σ))).
Proof.
  repeat split.
  - intros data σ σ' H. unfold from_data in H.
    destruct (eq_str data "[deleted]") eqn:E; [eauto using eq_str_true|].
    unfold mbind, M_bind, mret, M_ret in H.
    destruct (Redditor___init__ reddit data VNone VNone σ) as [[l|e|] σ1]; discriminate.
  - intros data σ H. unfold from_data. rewrite eq_str_false by assumption. reflexivity.
  - intros data σ H Ht. unfold from_data. rewrite eq_str_false by assumption.
    rewrite (bind_Ok _ _ _ _ _ (Redditor_init_name reddit data σ Ht)). reflexivity.
  - intros fuel σ self o Ho. simpl. unfold Comment___setattr___body. simpl.
    unfold mbind, M_bind, mret, M_ret. simpl.
    apply store_hit. assumption.
Qed.

Lemma from_data_spec_witness :
  from_data test_reddit (VStr "spez") empty_state =
    (Ok (VRef 0%nat), State [named_redditor (VStr "spez")] []) /\
  Comment___setattr__ test_reddit 1 0%nat "author" (VStr "[deleted]")
    (State [Instance ClsComment ∅] []) =
    (Ok tt, State [Instance ClsComment (<["author" := VNone]> ∅)] []).
Proof.
  split.
  - refine (proj1 (proj2 (proj2 (proj2 (from_data_spec test_reddit))))
              (VStr "spez") empty_state _ _); [discriminate | reflexivity].
  - refine (proj2 (proj2 (proj2 (proj2 (from_data_spec test_reddit))))
              0%nat (State [Instance ClsComment ∅] []) 0%nat (Instance ClsComment ∅) _).
    reflexivity.
Defined.

(** *** The payload of a redditor *)

Lemma has_name_spec items :
  has_name (VDict items) = true <-> "name" ∈ items.*1.
Proof. unfold has_name. rewrite bool_decide_eq_true. reflexivity. Qed.

(** C10, amended: given to the constructor of [Redditor] as [_data], a
    payload that is a dictionary, not empty, without the key ["name"]
    fails the assertion and no redditor is made; with the key ["name"] the
    assertion passes.  [from_data] is left out: it gives its input to the
    constructor as the name, which the assertion does not look at. *)
Theorem Redditor_data_assertion reddit items σ :
  items <> [] ->
  ("name" ∉ items.*1 ->
     Redditor___init__ reddit VNone VNone (VDict items) σ =
       (Raise (AssertionError ASSERT_MSG), σ)) /\
  ("name" ∈ items.*1 ->
     Env_never_raises (AssertionError ASSERT_MSG) reddit ->
     forall σ', Redditor___init__ reddit VNone VNone (VDict items) σ <>
                  (Raise (AssertionError ASSERT_MSG), σ')).
Proof.
  intros Hne. split.
  - intros Hn. unfold Redditor___init__.
    replace (count_not_None [VNone; VNone; VDict items]) with 1%nat by reflexivity.
    assert (Ht : truthy (VDict items) = true) by (destruct items; [congruence|reflexivity]).
    assert (E : has_name (VDict items) = false).
    { apply not_true_is_false. rewrite has_name_spec. assumption. }
    cbn [Nat.eqb negb]. rewrite Ht, E. reflexivity.
  - intros Hn Henv σ'.
    apply (nr_Redditor_init reddit (AssertionError ASSERT_MSG)); auto.
    intros _ E. apply has_name_spec in Hn. congruence.
Qed.

Lemma Redditor_data_assertion_witness :
  Redditor___init__ test_reddit VNone VNone (VDict [("id", VStr "x")]) empty_state =
    (Raise (AssertionError ASSERT_MSG), empty_state) /\
  (forall σ', Redditor___init__ test_reddit VNone VNone (VDict [("name", VStr "spez")])
                empty_state <> (Raise (AssertionError ASSERT_MSG), σ')).
Proof.
  split.
  - refine (proj1 (Redditor_data_assertion test_reddit [("id", VStr "x")] empty_state _) _).
    + discriminate.
    + simpl. intros H. apply list_elem_of_singleton in H. discriminate.
  - refine (proj2 (Redditor_data_assertion test_reddit [("name", VStr "spez")]
                     empty_state _) _ _).
    + discriminate.
    + simpl. apply list_elem_of_singleton. reflexivity.
    + apply test_reddit_never_raises. discriminate.
Defined.

(** Given to [from_data], a dictionary without the key ["name"] meets no
    assertion: a redditor is made, with the dictionary as its name. *)
Lemma from_data_skips_assertion :
  from_data test_reddit (VDict [("id", VStr "x")]) empty_state =
    (Ok (VRef 0%nat), State [named_redditor (VDict [("id", VStr "x")])] []).
Proof. reflexivity. Qed.

(** With the key ["name"], and nothing for the hooks of the class, the
    redditor is made from the payload. *)
Example Redditor_from_payload :
  Redditor___init__ test_reddit VNone VNone (VDict [("name", VStr "spez")]) empty_state =
    (Ok 0%nat,
     State [Instance ClsRedditor
              (<["_fetched" := VBool false]>
                 (<["name" := VStr "spez"]> (<["_listing_use_sort" := VBool true]> ∅)))] []).
Proof. reflexivity. Qed.

(** *** A comment made from an identifier *)

Lemma Comment_init_id reddit fuel id σ :
  truthy id = true ->
  Comment___init__ reddit fuel id VNone VNone σ =
    (Ok (length (heap σ)), State (heap σ ++ [shallow_comment id]) (requests σ)).
Proof.
  intros Ht. destruct σ as [h r].
  assert (Hn : is_None id = false) by (destruct id; try reflexivity; discriminate).
  unfold Comment___init__, count_not_None. simpl. rewrite Hn. simpl.
  unfold mbind, M_bind, mret, M_ret, alloc. simpl.
  rewrite !store_last. simpl. rewrite Ht. rewrite store_last. simpl.
  unfold RedditBase___init__. unfold mbind, M_bind, mret, M_ret. simpl.
  rewrite store_last. rewrite deref_last. reflexivity.
Qed.

Lemma truthy_VStr s : s <> "" -> truthy (VStr s) = true.
Proof. intros H. simpl. apply negb_true_iff, String.eqb_neq, H. Qed.

(** *** Steps of the methods on a known heap *)

Lemma getattr_at reddit h r l o name v :
  h !! l = Some o -> __dict__ o !! name = Some v ->
  getattr reddit l name (State h r) = (Ok v, State h r).
Proof. intros. eapply getattr_hit; eauto. Qed.

Lemma deref_at h r l o : h !! l = Some o -> deref l (State h r) = (Ok o, State h r).
Proof. intros. apply deref_hit. assumption. Qed.

Lemma store_at h r l o name v :
  h !! l = Some o ->
  store l name v (State h r) =
    (Ok tt, State (<[l := Instance (__class__ o) (<[name := v]> (__dict__ o))]> h) r).
Proof. intros H. apply (store_hit (State h r)). assumption. Qed.

Lemma submission_at reddit h r self o s :
  h !! self = Some o -> __dict__ o !! "_submission" = Some (VRef s) ->
  submission reddit self (State h r) = (Ok (VRef s), State h r).
Proof.
  intros Ho Hs. unfold submission.
  rewrite (bind_Ok _ _ _ _ _ (getattr_at reddit h r self o _ _ Ho Hs)). simpl.
  unfold mbind, M_bind, mret, M_ret.
  apply (getattr_at reddit h r self o _ _ Ho Hs).
Qed.

Lemma fullname_at reddit h r l o id :
  h !! l = Some o ->
  __class__ o = ClsComment \/ __class__ o = ClsSubmission ->
  __dict__ o !! "id" = Some (VStr id) ->
  fullname reddit l (State h r) =
    (Ok (kinds reddit (match __class__ o with ClsComment => "comment" | _ => "submission" end)
           +:+ "_" +:+ id), State h r).
Proof.
  intros Ho Hc Hid. unfold fullname.
  rewrite (bind_Ok _ _ _ _ _ (deref_at h r l o Ho)).
  destruct Hc as [Hc|Hc]; rewrite Hc; simpl;
    unfold mbind, M_bind, mret, M_ret;
    rewrite (getattr_at reddit h r l o _ _ Ho Hid); reflexivity.
Qed.

(** *** The parent of a comment *)




(** *** Comment trees in the heap *)

Lemma tree_ind' (P : tree -> Prop) :
  (forall l id cs, Forall P cs -> P (Node l id cs)) ->
  (forall l id, P (More l id)) ->
  forall t, P t.
Proof.
  intros HN HM. fix IH 1. intros [l id cs|l id].
  - apply HN. induction cs as [|c cs IHcs]; constructor; [apply IH | apply IHcs].
  - apply HM.
Qed.

Lemma elem_of_locs_of l ts : l ∈ locs_of ts <-> exists t, t ∈ ts /\ l ∈ locs t.
Proof.
  unfold locs_of. rewrite list_elem_of_In, in_concat. split.
  - intros (ls & Hls & Hl). apply in_map_iff in Hls as (t & <- & Ht).
    exists t. rewrite !list_elem_of_In. auto.
  - intros (t & Ht & Hl). exists (locs t).
    apply list_elem_of_In in Ht. apply list_elem_of_In in Hl.
    split; [apply in_map; assumption | assumption].
Qed.

Lemma root_in_locs t : root t ∈ locs t.
Proof. destruct t; simpl; apply list_elem_of_here. Qed.

(** A tree stays in a heap that keeps its nodes. *)
Lemma shape_frame h h' t :
  shape h t -> (forall l, l ∈ locs t -> h' !! l = h !! l) -> shape h' t.
Proof.
  revert t. induction t as [l id cs IH|l id] using tree_ind'; intros Hs Hf.
  - inversion Hs as [? ? ? o Ho Hc Hid Hr Hcs|]; subst.
    econstructor; eauto.
    + rewrite Hf by apply list_elem_of_here. exact Ho.
    + rewrite Forall_forall in IH, Hcs. apply Forall_forall. intros c Hc'.
      apply IH; auto. intros l' Hl'. apply Hf. simpl.
      apply list_elem_of_further. fold (locs_of cs). apply elem_of_locs_of. eauto.
  - inversion Hs; subst. econstructor; eauto.
    rewrite Hf by apply list_elem_of_here. assumption.
Qed.

Lemma shape_lt h t l : shape h t -> l ∈ locs t -> (l < length h)%nat.
Proof.
  revert t. induction t as [l0 id cs IH|l0 id] using tree_ind'; intros Hs Hl.
  - inversion Hs as [? ? ? o Ho Hc Hid Hr Hcs|]; subst.
    simpl in Hl. apply elem_of_cons in Hl as [->|Hl].
    + eapply lookup_lt_Some; eauto.
    + fold (locs_of cs) in Hl. apply elem_of_locs_of in Hl as (c & Hc' & Hl).
      rewrite Forall_forall in IH, Hcs. eauto.
  - inversion Hs; subst. simpl in Hl. apply list_elem_of_singleton in Hl as ->.
    eapply lookup_lt_Some; eauto.
Qed.

Lemma shapes_frame h h' ts :
  Forall (shape h) ts -> (forall l, l ∈ locs_of ts -> h' !! l = h !! l) ->
  Forall (shape h') ts.
Proof.
  rewrite !Forall_forall. intros Hs Hf t Ht.
  eapply shape_frame; eauto. intros l Hl. apply Hf, elem_of_locs_of. eauto.
Qed.

Lemma shapes_lt h ts l : Forall (shape h) ts -> l ∈ locs_of ts -> (l < length h)%nat.
Proof.
  rewrite Forall_forall. intros Hs Hl. apply elem_of_locs_of in Hl as (t & Ht & Hl).
  eapply shape_lt; eauto.
Qed.

Lemma lookup_insert_at (h : list object) l o x :
  h !! l = Some o -> <[l := x]> h !! l = Some x.
Proof. intros H. apply list_lookup_insert_eq. eapply lookup_lt_Some; eauto. Qed.

Lemma lookup_insert_off (h : list object) l l' x :
  l <> l' -> <[l := x]> h !! l' = h !! l'.
Proof. intros H. apply list_lookup_insert_ne. assumption. Qed.

(** *** Assigning a submission to comment trees *)

Section Reparent.

Context (reddit : Env) (s : loc) (so : object).

Local Abbreviation kind := (kinds reddit "comment").

Local Abbreviation assign fuel :=
  (fun reply => setattr_with reddit (Comment___setattr__ reddit fuel) reply "submission" (VRef s)).

Lemma locs_of_one t : locs_of [t] = locs t.
Proof. unfold locs_of. simpl. apply app_nil_r. Qed.

Lemma comments_of_one t : comments_of [t] = comments t.
Proof. unfold comments_of. simpl. apply app_nil_r. Qed.

Lemma register_app k cs1 cs2 m :
  register k (cs1 ++ cs2) m = register k cs2 (register k cs1 m).
Proof. unfold register. apply fold_left_app. Qed.

Lemma indexed_store h m m' :
  indexed h s so m ->
  indexed (<[s := Instance (__class__ so)
                    (<["_comments_by_id" := VMap m']>
                       (<["_comments_by_id" := VMap m]> (__dict__ so)))]> h) s so m'.
Proof.
  intros H. unfold indexed. rewrite insert_insert_eq.
  eapply lookup_insert_at. exact H.
Qed.

Lemma indexed_off h l x m : l <> s -> indexed h s so m -> indexed (<[l := x]> h) s so m.
Proof. intros Hl H. unfold indexed. rewrite lookup_insert_off by assumption. exact H. Qed.

Lemma indexed_app h k m : indexed h s so m -> indexed (h ++ k) s so m.
Proof. intros H. apply lookup_app_l_Some. exact H. Qed.

(** A placeholder is given the submission as an attribute. *)
Lemma assign_More f h r l id m :
  shape h (More l id) -> l <> s -> indexed h s so m ->
  exists h',
    setattr_with reddit f (VRef l) "submission" (VRef s) (State h r) = (Ok tt, State h' r) /\
    reparented kind s so [More l id] h m h'.
Proof.
  intros Hs Hl Hi. inversion Hs as [|? ? o Ho Hc Hid]; subst.
  eexists. split.
  - unfold setattr_with. rewrite (bind_Ok _ _ _ _ _ (deref_at h r l o Ho)).
    rewrite Hc. apply store_at. exact Ho.
  - unfold reparented. rewrite locs_of_one, comments_of_one. simpl.
    split; [rewrite length_insert; lia|]. split; [|split].
    + intros l' _ Hl' _. apply lookup_insert_off.
      intros ->. apply Hl'. apply list_elem_of_here.
    + apply indexed_off; assumption.
    + constructor; [|constructor].
      exists o. eexists. split; [exact Ho|]. split; [eapply lookup_insert_at; exact Ho|].
      split; [reflexivity|]. rewrite Hc. reflexivity.
Qed.

Local Abbreviation forest cs := (forest_of s cs).
Local Abbreviation registered h l o id cs m := (registered_heap kind s so h l o id cs m).

Lemma setter_at (f : pyval -> pyval -> M unit) h r l id cs o m :
  h !! l = Some o -> __class__ o = ClsComment ->
  __dict__ o !! "id" = Some (VStr id) ->
  __dict__ o !! "_replies" = Some (VList (refs cs)) ->
  l <> s -> indexed h s so m ->
  submission_setter reddit f l (VRef s) (State h r) =
    for_each (fun reply => f reply (VRef s)) (refs cs)
      (State (registered h l o id cs m) r).
Proof.
  intros Ho Hc Hid Hr Hl Hi. unfold submission_setter.
  (* index = submission._comments_by_id *)
  unfold attr at 1.
  rewrite (bind_Ok _ _ _ _ _
    (getattr_at reddit h r s _ "_comments_by_id" (VMap m) Hi (lookup_insert_eq _ _ _))).
  (* name = self.fullname *)
  rewrite (bind_Ok _ _ _ _ _ (fullname_at reddit h r l o id Ho (or_introl Hc) Hid)).
  rewrite Hc.
  (* index[name] = self *)
  unfold setitem.
  rewrite (bind_Ok _ _ _ _ _ (store_at h r s _ "_comments_by_id" _ Hi)).
  cbn [__class__ __dict__].
  set (h1 := <[s := _]> h).
  assert (Ho1 : h1 !! l = Some o) by (unfold h1; rewrite lookup_insert_off by congruence; exact Ho).
  (* self._submission = submission *)
  rewrite (bind_Ok _ _ _ _ _ (store_at h1 r l o "_submission" _ Ho1)).
  rewrite Hc.
  set (o1 := Instance ClsComment _).
  set (h2 := <[l := o1]> h1).
  assert (Ho2 : h2 !! l = Some o1) by (eapply lookup_insert_at; exact Ho1).
  assert (Hr1 : __dict__ o1 !! "_replies" = Some (VList (refs cs))).
  { unfold o1. cbn [__dict__]. rewrite lookup_insert_ne by discriminate. exact Hr. }
  assert (Hs1 : __dict__ o1 !! "_submission" = Some (VRef s)).
  { unfold o1. cbn [__dict__]. apply lookup_insert_eq. }
  (* getattr(self, "replies", []) *)
  assert (Hrep : replies reddit l (State h2 r) =
    (Ok (VRef (length h)),
     State (<[l := Instance ClsComment (<["_replies" := VRef (length h)]> (__dict__ o1))]>
              (h2 ++ [forest cs])) r)).
  { unfold replies.
    rewrite (bind_Ok _ _ _ _ _ (getattr_at reddit h2 r l o1 _ _ Ho2 Hr1)).
    cbv beta iota. rewrite bind_assoc.
    rewrite (bind_Ok _ _ _ _ _ (submission_at reddit h2 r l o1 s Ho2 Hs1)).
    rewrite bind_assoc.
    rewrite (bind_Ok _ _ _ _ _ (getattr_at reddit h2 r l o1 _ _ Ho2 Hr1)).
    unfold CommentForest.
    assert (Hlen : length h2 = length h) by (unfold h2, h1; rewrite !length_insert; reflexivity).
    assert (Ha : alloc (forest cs) (State h2 r) = (Ok (length h), State (h2 ++ [forest cs]) r))
      by (unfold alloc; simpl; rewrite Hlen; reflexivity).
    rewrite !bind_assoc.
    rewrite (bind_Ok _ _ _ _ _ Ha). rewrite ret_bind.
    assert (Ho3 : (h2 ++ [forest cs]) !! l = Some o1) by (apply lookup_app_l_Some; exact Ho2).
    rewrite (bind_Ok _ _ _ _ _ (store_at _ r l o1 "_replies" _ Ho3)).
    eapply getattr_at.
    - eapply lookup_insert_at. exact Ho3.
    - cbn [__dict__]. apply lookup_insert_eq. }
  rewrite (bind_Ok _ _ _ _ _ (except_AttributeError_Ok _ _ _ _ _ Hrep)).
  assert (Hlen : length h2 = length h) by (unfold h2, h1; rewrite !length_insert; reflexivity).
  assert (Hit : iter (VRef (length h))
            (State (<[l := Instance ClsComment
                            (<["_replies" := VRef (length h)]> (__dict__ o1))]>
                      (h2 ++ [forest cs])) r) =
          (Ok (refs cs),
           State (<[l := Instance ClsComment
                            (<["_replies" := VRef (length h)]> (__dict__ o1))]>
                      (h2 ++ [forest cs])) r)).
  { unfold iter.
    assert (Hf : (<[l := Instance ClsComment
                            (<["_replies" := VRef (length h)]> (__dict__ o1))]>
                      (h2 ++ [forest cs])) !! length h = Some (forest cs)).
    { rewrite lookup_insert_off by (apply lookup_lt_Some in Ho; lia).
      rewrite lookup_app_r by lia. rewrite Hlen, Nat.sub_diag. reflexivity. }
    rewrite (bind_Ok _ _ _ _ _ (deref_at _ r _ _ Hf)). reflexivity. }
  rewrite (bind_Ok _ _ _ _ _ Hit).
  unfold registered_heap. reflexivity.
Qed.

Lemma registered_length h l o id cs m :
  length (registered h l o id cs m) = S (length h).
Proof.
  unfold registered_heap. rewrite length_insert, length_app, !length_insert. simpl. lia.
Qed.

Lemma registered_at h l o id cs m :
  h !! l = Some o ->
  registered h l o id cs m !! l =
    Some (Instance ClsComment
            (<["_replies" := VRef (length h)]> (<["_submission" := VRef s]> (__dict__ o)))).
Proof.
  intros Ho. unfold registered_heap. apply list_lookup_insert_eq.
  rewrite length_app, !length_insert. apply lookup_lt_Some in Ho. lia.
Qed.

Lemma registered_off h l o id cs m l' :
  l' <> l -> l' <> s -> (l' < length h)%nat ->
  registered h l o id cs m !! l' = h !! l'.
Proof.
  intros H1 H2 H3. unfold registered_heap.
  rewrite lookup_insert_off by congruence.
  rewrite lookup_app_l by (rewrite !length_insert; lia).
  rewrite !lookup_insert_off by congruence. reflexivity.
Qed.

Lemma registered_indexed h l o id cs m :
  l <> s -> indexed h s so m ->
  indexed (registered h l o id cs m) s so (<[kind +:+ "_" +:+ id := l]> m).
Proof.
  intros Hl Hi. unfold indexed, registered_heap.
  rewrite lookup_insert_off by congruence.
  rewrite lookup_app_l by (rewrite !length_insert; apply lookup_lt_Some in Hi; lia).
  rewrite lookup_insert_off by congruence.
  rewrite (lookup_insert_at _ _ _ _ Hi). rewrite insert_insert_eq. reflexivity.
Qed.

Lemma reparented_nil h m : indexed h s so m -> reparented kind s so [] h m h.
Proof.
  intros Hi. unfold reparented. split; [lia|]. split; [auto|]. split; [exact Hi|].
  constructor.
Qed.

Lemma assigned_eq h0 h h' l :
  h0 !! l = h !! l -> assigned h h' s l -> assigned h0 h' s l.
Proof. intros E (o & o' & H1 & H2). exists o, o'. rewrite E. auto. Qed.

Lemma assigned_later h h1 h2 l :
  h2 !! l = h1 !! l -> assigned h h1 s l -> assigned h h2 s l.
Proof. intros E (o & o' & H1 & H2 & H3). exists o, o'. rewrite E. auto. Qed.

Lemma reparented_Node h l id cs o m h' :
  h !! l = Some o -> __class__ o = ClsComment ->
  l <> s -> l ∉ locs_of cs -> s ∉ locs_of cs ->
  (forall l', l' ∈ locs_of cs -> (l' < length h)%nat) ->
  reparented kind s so cs (registered h l o id cs m) (<[kind +:+ "_" +:+ id := l]> m) h' ->
  reparented kind s so [Node l id cs] h m h'.
Proof.
  intros Ho Hc Hl Hlcs Hscs Hlt (Hlen & Hframe & Hidx & Hall).
  rewrite registered_length in Hlen.
  assert (Hl' : h' !! l = registered h l o id cs m !! l).
  { apply Hframe; auto. rewrite registered_length. apply lookup_lt_Some in Ho. lia. }
  unfold reparented. rewrite locs_of_one, comments_of_one. cbn [locs comments].
  fold (locs_of cs). fold (comments_of cs).
  split; [lia|]. split; [|split].
  - intros l0 H0 Hn0 Hs0. apply not_elem_of_cons in Hn0 as [Hne Hn0].
    rewrite Hframe; auto.
    + apply registered_off; auto.
    + rewrite registered_length. lia.
  - exact Hidx.
  - constructor.
    + exists o. eexists. split; [exact Ho|]. split.
      { rewrite Hl'. apply registered_at. exact Ho. }
      split; [symmetry; exact Hc|]. rewrite Hc. cbn [__dict__]. split.
      * rewrite lookup_insert_ne by discriminate. apply lookup_insert_eq.
      * intros name N1 N2. rewrite !lookup_insert_ne by congruence. reflexivity.
    + rewrite Forall_forall in Hall |- *. intros l' Hin.
      eapply assigned_eq; [|apply Hall; exact Hin].
      symmetry. apply registered_off; auto; congruence.
Qed.

Lemma reparented_cons t ts h m h1 h2 :
  (forall l, l ∈ locs t -> l ∉ locs_of ts) ->
  s ∉ locs t -> s ∉ locs_of ts ->
  (forall l, l ∈ locs_of ts -> (l < length h)%nat) ->
  reparented kind s so [t] h m h1 ->
  reparented kind s so ts h1 (register kind (comments t) m) h2 ->
  reparented kind s so (t :: ts) h m h2.
Proof.
  intros Hdis Hst Hsts Hlt (L1 & F1 & I1 & A1) (L2 & F2 & I2 & A2).
  rewrite locs_of_one in F1, A1. rewrite comments_of_one in I1.
  unfold reparented.
  change (locs_of (t :: ts)) with (locs t ++ locs_of ts).
  change (comments_of (t :: ts)) with (comments t ++ comments_of ts).
  split; [lia|]. split; [|split].
  - intros l Hl Hn Hs. apply not_elem_of_app in Hn as [Hn1 Hn2].
    rewrite F2 by (auto; lia). apply F1; auto.
  - rewrite register_app. exact I2.
  - apply Forall_app. split.
    + rewrite Forall_forall in A1 |- *. intros l Hin.
      eapply assigned_later; [|apply A1; exact Hin].
      destruct (A1 l Hin) as (o & o' & _ & Ho' & _).
      apply F2; [eapply lookup_lt_Some; eauto | auto | congruence].
    + rewrite Forall_forall in A2 |- *. intros l Hin.
      eapply assigned_eq; [|apply A2; exact Hin].
      symmetry. apply F1; auto.
      * intros Hin'. exact (Hdis l Hin' Hin).
      * congruence.
Qed.


Lemma list_runs inv body ts :
  (forall t, t ∈ ts -> runs_tree kind s so inv body t) ->
  (forall t h m h', t ∈ ts -> inv h -> reparented kind s so [t] h m h' -> inv h') ->
  runs_list kind s so inv body ts.
Proof.
  induction ts as [|t ts IH]; intros Hrun Hinv h r m Hi Hsh Hnd Hs Hidx.
  - exists h. split; [reflexivity | apply reparented_nil; exact Hidx].
  - change (locs_of (t :: ts)) with (locs t ++ locs_of ts) in Hnd, Hs.
    apply NoDup_app in Hnd as (Hnd1 & Hdis & Hnd2).
    apply not_elem_of_app in Hs as [Hs1 Hs2].
    apply Forall_cons in Hsh as [Hsh1 Hsh2].
    destruct (Hrun t (list_elem_of_here _ _) h r m Hi Hsh1 Hnd1 Hs1 Hidx) as (h1 & E1 & R1).
    assert (Hlt : forall l, l ∈ locs_of ts -> (l < length h)%nat)
      by (intros l Hl; eapply shapes_lt; eauto).
    destruct (IH (fun t' Ht => Hrun t' (list_elem_of_further _ _ _ Ht))
                 (fun t' h0 m0 h0' Ht => Hinv t' h0 m0 h0' (list_elem_of_further _ _ _ Ht))
                 h1 r (register kind (comments t) m))
      as (h2 & E2 & R2); auto.
    + eapply Hinv; eauto. apply list_elem_of_here.
    + eapply shapes_frame; [exact Hsh2|]. intros l Hl.
      destruct R1 as (_ & F1 & _). rewrite locs_of_one in F1. apply F1; auto.
      * intros Hin. exact (Hdis l Hin Hl).
      * congruence.
    + destruct R1 as (_ & _ & I1 & _). rewrite comments_of_one in I1. exact I1.
    + exists h2. split.
      * cbn [refs map for_each]. rewrite (bind_Ok _ _ _ _ _ E1). exact E2.
      * eapply reparented_cons; eauto.
Qed.


Lemma height_of_le cs c : c ∈ cs -> (height c <= height_of cs)%nat.
Proof.
  unfold height_of. induction 1; simpl; lia.
Qed.

Lemma assign_Node fuel h r l id cs m :
  runs_list kind s so (fun _ => True) (assign fuel) cs ->
  shape h (Node l id cs) -> NoDup (locs (Node l id cs)) -> s ∉ locs (Node l id cs) ->
  indexed h s so m ->
  exists h',
    assign (S fuel) (VRef l) (State h r) = (Ok tt, State h' r) /\
    reparented kind s so [Node l id cs] h m h'.
Proof.
  intros Hcs Hsh Hnd Hs Hidx.
  inversion Hsh as [? ? ? o Ho Hc Hid Hr Hshcs|]; subst.
  cbn [locs] in Hnd, Hs. fold (locs_of cs) in Hnd, Hs.
  apply NoDup_cons in Hnd as [Hl Hnd]. apply not_elem_of_cons in Hs as [Hsl Hs].
  assert (Hlt : forall l', l' ∈ locs_of cs -> (l' < length h)%nat)
    by (intros l' Hl'; eapply shapes_lt; eauto).
  destruct (Hcs (registered_heap kind s so h l o id cs m) r
              (<[kind +:+ "_" +:+ id := l]> m)) as (h' & E & R); auto.
  - eapply shapes_frame; [exact Hshcs|]. intros l' Hl'.
    apply registered_off; auto; congruence.
  - apply registered_indexed; auto.
  - exists h'. split.
    + unfold setattr_with. rewrite (bind_Ok _ _ _ _ _ (deref_at h r l o Ho)).
      rewrite Hc. cbn [Comment___setattr__]. unfold Comment___setattr___body.
      change (String.eqb "submission" "author") with false.
      change (String.eqb "submission" "replies") with false.
      change (String.eqb "submission" "subreddit") with false.
      cbv beta iota. rewrite ret_bind.
      change (String.eqb "submission" "submission") with true.
      cbv beta iota.
      rewrite (setter_at _ h r l id cs o m Ho Hc Hid Hr); auto.
    + eapply reparented_Node; eauto.
Qed.

(** With fuel for its height, a tree is assigned the submission. *)
Lemma tree_runs fuel : forall t, (height t <= fuel)%nat ->
  runs_tree kind s so (fun _ => True) (assign fuel) t.
Proof.
  induction fuel as [|fuel IH]; intros [l id cs|l id] Hh h r m _ Hsh Hnd Hs Hidx.
  - simpl in Hh. lia.
  - apply assign_More; auto. intros ->. apply Hs. apply list_elem_of_here.
  - apply assign_Node; auto. apply list_runs; [|auto].
    intros c Hc. apply IH. pose proof (height_of_le cs c Hc) as Hle.
    cbn [height] in Hh. fold (height_of cs) in Hh. lia.
  - apply assign_More; auto. intros ->. apply Hs. apply list_elem_of_here.
Qed.

Lemma forest_runs fuel ts : (height_of ts <= fuel)%nat ->
  runs_list kind s so (fun _ => True) (assign fuel) ts.
Proof.
  intros Hh. apply list_runs; [|auto].
  intros t Ht. apply tree_runs. pose proof (height_of_le ts t Ht). lia.
Qed.

End Reparent.

(** *** The index of a submission *)

Lemma append_inj_r (p a b : string) : p +:+ a = p +:+ b -> a = b.
Proof. induction p as [|c p IH]; simpl; [auto|]. intros [=]. auto. Qed.

Lemma register_cons k c cs m :
  register k (c :: cs) m = register k cs (<[k +:+ "_" +:+ c.2 := c.1]> m).
Proof. reflexivity. Qed.

Lemma register_other k cs m key :
  (forall c, c ∈ cs -> k +:+ "_" +:+ c.2 <> key) -> register k cs m !! key = m !! key.
Proof.
  revert m. induction cs as [|c cs IH]; intros m H; [reflexivity|].
  rewrite register_cons, IH.
  - apply lookup_insert_ne. apply H, list_elem_of_here.
  - intros c' Hc'. apply H, list_elem_of_further, Hc'.
Qed.

(** Comments of distinct identifiers are all in the index, each under its
    fullname. *)
Lemma register_lookup k cs m l id :
  NoDup cs.*2 -> (l, id) ∈ cs -> register k cs m !! (k +:+ "_" +:+ id) = Some l.
Proof.
  revert m. induction cs as [|c cs IH]; intros m Hnd Hin.
  - apply elem_of_nil in Hin. contradiction.
  - rewrite fmap_cons in Hnd. apply NoDup_cons in Hnd as [Hc Hnd].
    rewrite register_cons. apply elem_of_cons in Hin as [<-|Hin].
    + rewrite register_other; [apply lookup_insert_eq|].
      intros c' Hc' E. apply append_inj_r, append_inj_r in E.
      apply Hc. simpl. rewrite <- E. apply list_elem_of_fmap. eauto.
    + apply IH; assumption.
Qed.

Lemma elem_of_comments_of c ts : c ∈ comments_of ts <-> exists t, t ∈ ts /\ c ∈ comments t.
Proof.
  unfold comments_of. rewrite list_elem_of_In, in_concat. split.
  - intros (ls & Hls & Hl). apply in_map_iff in Hls as (t & <- & Ht).
    exists t. rewrite !list_elem_of_In. auto.
  - intros (t & Ht & Hl). exists (comments t).
    apply list_elem_of_In in Ht. apply list_elem_of_In in Hl.
    split; [apply in_map; assumption | assumption].
Qed.

(** The comments of a tree are nodes of it, and are comments in the heap. *)
Lemma comments_shape h t l id :
  shape h t -> (l, id) ∈ comments t ->
  l ∈ locs t /\
  exists o, h !! l = Some o /\ __class__ o = ClsComment /\
            __dict__ o !! "id" = Some (VStr id).
Proof.
  revert t. induction t as [l0 id0 cs IH|l0 id0] using tree_ind'; intros Hs Hin.
  - inversion Hs as [? ? ? o Ho Hc Hid Hr Hcs|]; subst.
    cbn [comments locs] in *. fold (comments_of cs) in Hin. fold (locs_of cs).
    apply elem_of_cons in Hin as [[= -> ->]|Hin].
    + split; [apply list_elem_of_here | eauto].
    + apply elem_of_comments_of in Hin as (c & Hc' & Hin).
      rewrite Forall_forall in IH, Hcs.
      destruct (IH c Hc' (Hcs c Hc') Hin) as [Hl Ho'].
      split; [|exact Ho']. apply list_elem_of_further, elem_of_locs_of. eauto.
  - simpl in Hin. apply elem_of_nil in Hin. contradiction.
Qed.

Lemma indexed_init h s so m :
  h !! s = Some so -> __dict__ so !! "_comments_by_id" = Some (VMap m) ->
  indexed h s so m.
Proof.
  intros Hs Hm. unfold indexed. rewrite insert_id by exact Hm.
  destruct so; exact Hs.
Qed.

(** What [parent] finds in the index of the submission. *)
Lemma parent_index reddit fuel h r self o pid s so sid m c :
  h !! self = Some o ->
  __dict__ o !! "parent_id" = Some (VStr pid) ->
  __dict__ o !! "_submission" = Some (VRef s) ->
  h !! s = Some so ->
  __class__ so = ClsSubmission ->
  __dict__ so !! "id" = Some (VStr sid) ->
  __dict__ so !! "_comments_by_id" = Some (VMap m) ->
  pid <> kinds reddit "submission" +:+ "_" +:+ sid -> m !! pid = Some c ->
  parent reddit fuel self (State h r) = (Ok (VRef c), State h r).
Proof.
  intros Ho Hpid Hsub Hs Hcls Hsid Hidx E Hc.
  assert (Hname : fullname reddit s (State h r) =
                  (Ok (kinds reddit "submission" +:+ "_" +:+ sid), State h r)).
  { rewrite (fullname_at reddit h r s so sid Hs (or_intror Hcls) Hsid).
    rewrite Hcls. reflexivity. }
  unfold parent.
  rewrite (bind_Ok _ _ _ _ _ (getattr_at reddit h r self o _ _ Ho Hpid)).
  rewrite (bind_Ok _ _ _ _ _ (submission_at reddit h r self o s Ho Hsub)).
  simpl. rewrite (bind_Ok _ _ _ _ _ Hname). simpl.
  apply String.eqb_neq in E. rewrite E.
  rewrite (bind_Ok _ _ _ _ _ (getattr_at reddit h r self o _ _ Ho Hpid)).
  rewrite (bind_Ok _ _ _ _ _ (submission_at reddit h r self o s Ho Hsub)).
  simpl. rewrite (bind_Ok _ _ _ _ _ (getattr_at reddit h r s so _ _ Hs Hidx)).
  simpl. unfold mbind at 1, M_bind at 1, mret, M_ret.
  rewrite bool_decide_eq_true_2 by (rewrite Hc; eauto).
  rewrite (bind_Ok _ _ _ _ _ (submission_at reddit h r self o s Ho Hsub)).
  simpl. rewrite (bind_Ok _ _ _ _ _ (getattr_at reddit h r s so _ _ Hs Hidx)).
  rewrite (bind_Ok _ _ _ _ _ (getattr_at reddit h r self o _ _ Ho Hpid)).
  simpl. rewrite Hc. reflexivity.
Qed.

(** C8: assigning a submission to the attribute [submission] of a comment
    puts the comment in the index of the submission under its fullname,
    and does the same for every comment among its replies, at any depth;
    every node of the tree is given the submission.  No request is made.
    After that, [parent] on a comment of the tree whose [parent_id] is the
    fullname of another comment of the tree returns that very object, and
    leaves the state as it is. *)
Theorem submission_setter_spec reddit fuel h r l id cs s so sid m :
  let t := Node l id cs in
  let kind := kinds reddit "comment" in
  shape h t -> NoDup (locs t) -> NoDup (comments t).*2 -> s ∉ locs t ->
  h !! s = Some so -> __class__ so = ClsSubmission ->
  __dict__ so !! "id" = Some (VStr sid) ->
  __dict__ so !! "_comments_by_id" = Some (VMap m) ->
  (height t <= fuel)%nat ->
  exists h' m',
    setattr reddit fuel (VRef l) "submission" (VRef s) (State h r) = (Ok tt, State h' r) /\
    h' !! s = Some (Instance ClsSubmission
                      (<["_comments_by_id" := VMap m']> (__dict__ so))) /\
    m' !! (kind +:+ "_" +:+ id) = Some l /\
    Forall (assigned h h' s) (locs t) /\
    (forall c cid, (c, cid) ∈ comments t ->
       m' !! (kind +:+ "_" +:+ cid) = Some c /\
       exists o', h' !! c = Some o' /\ __dict__ o' !! "_submission" = Some (VRef s)) /\
    (forall c cid p pid o fuel', (c, cid) ∈ comments t -> (p, pid) ∈ comments t ->
       h !! c = Some o ->
       __dict__ o !! "parent_id" = Some (VStr (kind +:+ "_" +:+ pid)) ->
       kind +:+ "_" +:+ pid <> kinds reddit "submission" +:+ "_" +:+ sid ->
       parent reddit fuel' c (State h' r) = (Ok (VRef p), State h' r)).
Proof.
  intros t kind Hsh Hnd Hids Hs Hso Hcls Hsid Hm Hfuel.
  destruct (tree_runs reddit s so fuel t Hfuel h r m I Hsh Hnd Hs
              (indexed_init h s so m Hso Hm)) as (h' & E & (Hlen & Hframe & Hidx & Hall)).
  rewrite locs_of_one in Hall, Hframe. rewrite comments_of_one in Hidx.
  unfold indexed in Hidx. rewrite Hcls in Hidx.
  assert (Hcom : forall c cid, (c, cid) ∈ comments t ->
    register kind (comments t) m !! (kind +:+ "_" +:+ cid) = Some c /\
    exists o o', h !! c = Some o /\ h' !! c = Some o' /\
      __dict__ o' !! "_submission" = Some (VRef s) /\
      forall name, name <> "_submission" -> name <> "_replies" ->
                   __dict__ o' !! name = __dict__ o !! name).
  { intros c cid Hin. split; [apply register_lookup; assumption|].
    destruct (comments_shape h t c cid Hsh Hin) as (Hl & o & Ho & Hc & _).
    rewrite Forall_forall in Hall.
    destruct (Hall c Hl) as (o1 & o' & Ho1 & Ho' & _ & Hd).
    rewrite Ho in Ho1. injection Ho1 as <-. rewrite Hc in Hd.
    exists o, o'. tauto. }
  exists h', (register kind (comments t) m).
  split; [exact E|]. split; [exact Hidx|].
  split; [apply Hcom; apply list_elem_of_here|].
  split; [exact Hall|]. split.
  - intros c cid Hin. destruct (Hcom c cid Hin) as (Hr & o & o' & _ & Ho' & Hsub & _).
    eauto.
  - intros c cid p pid o fuel' Hc Hp Ho Hpid Hne.
    destruct (Hcom c cid Hc) as (_ & o1 & o' & Ho1 & Ho' & Hsub & Hrest).
    rewrite Ho in Ho1. injection Ho1 as <-.
    destruct (Hcom p pid Hp) as (Hreg & _).
    refine (parent_index reddit fuel' h' r c o' _ s _ sid _ p
              Ho' _ Hsub Hidx eq_refl _ _ Hne Hreg).
    + rewrite Hrest by discriminate. exact Hpid.
    + cbn [__dict__]. rewrite lookup_insert_ne by discriminate. exact Hsid.
    + cbn [__dict__]. apply lookup_insert_eq.
Qed.

Lemma fresh_tree_shape : shape fresh_heap fresh_tree.
Proof.
  eapply (shape_Node _ 1 "a"); [reflexivity..|].
  constructor; [|constructor; [|constructor]].
  - eapply (shape_Node _ 2 "b"); [reflexivity..|]. constructor.
  - eapply (shape_More _ 3 "m"); reflexivity.
Qed.

Lemma submission_setter_spec_witness :
  exists (h' : list object) (m' : gmap string loc),
    setattr test_reddit 2 (VRef 1) "submission" (VRef 0) (State fresh_heap [])
      = (Ok tt, State h' []) /\
    (exists so', h' !! 0%nat = Some so' /\
                 __dict__ so' !! "_comments_by_id" = Some (VMap m')) /\
    m' !! "t1_a" = Some 1%nat /\ m' !! "t1_b" = Some 2%nat /\
    parent test_reddit 1 2%nat (State h' []) = (Ok (VRef 1), State h' []).
Proof.
  destruct (submission_setter_spec test_reddit 2 fresh_heap [] 1%nat "a"
              [Node 2 "b" []; More 3 "m"] 0%nat
              (Instance ClsSubmission
                 (<["id" := VStr "2gmzqe"]> (<["_comments_by_id" := VMap ∅]>
                    (<["_fetched" := VBool false]> ∅))))
              "2gmzqe" ∅)
    as (h' & m' & E & Hso & Ha & _ & Hc & Hp).
  - exact fresh_tree_shape.
  - apply (bool_decide_unpack _). vm_compute. exact I.
  - apply (bool_decide_unpack _). vm_compute. exact I.
  - apply (bool_decide_unpack _). vm_compute. exact I.
  - reflexivity.
  - reflexivity.
  - reflexivity.
  - reflexivity.
  - simpl. lia.
  - assert (Hb : (2%nat, "b") ∈ comments (Node 1 "a" [Node 2 "b" []; More 3 "m"]))
      by (apply (bool_decide_unpack _); vm_compute; exact I).
    assert (Ha' : (1%nat, "a") ∈ comments (Node 1 "a" [Node 2 "b" []; More 3 "m"]))
      by (apply (bool_decide_unpack _); vm_compute; exact I).
    exists h', m'. split; [exact E|].
    split; [eexists; split; [exact Hso | reflexivity]|]. split; [exact Ha|].
    split; [exact (proj1 (Hc 2%nat "b" Hb))|].
    eapply (Hp 2%nat "b" 1%nat "a"); [exact Hb | exact Ha' | reflexivity | reflexivity |].
    discriminate.
Defined.

(** *** The search of [refresh] *)

Lemma visit_stack_acc acc ts :
  fold_right (fun c a => a ++ visit c) acc ts = acc ++ visit_stack ts.
Proof.
  unfold visit_stack. induction ts as [|t ts IH]; simpl.
  - rewrite app_nil_r. reflexivity.
  - rewrite IH, app_assoc. reflexivity.
Qed.

Lemma visit_stack_app xs ys :
  visit_stack (xs ++ ys) = visit_stack ys ++ visit_stack xs.
Proof.
  unfold visit_stack at 1. rewrite fold_right_app. fold (visit_stack ys).
  apply visit_stack_acc.
Qed.

Lemma visit_stack_one t : visit_stack [t] = visit t.
Proof. reflexivity. Qed.

(** Taking the node at the end of the stack and pushing its replies: the
    node is visited, then the new stack. *)
Lemma visit_stack_pop ts t :
  visit_stack (ts ++ [t]) = t :: visit_stack (ts ++ children t).
Proof.
  rewrite !visit_stack_app, visit_stack_one. destruct t; reflexivity.
Qed.

Lemma size_pos t : (0 < size t)%nat.
Proof. destruct t; simpl; lia. Qed.

Lemma size_of_app xs ys : size_of (xs ++ ys) = (size_of xs + size_of ys)%nat.
Proof. unfold size_of. rewrite map_app, list_sum_app. reflexivity. Qed.

Lemma size_of_pop ts t : size_of (ts ++ [t]) = S (size_of (ts ++ children t)).
Proof.
  rewrite !size_of_app. destruct t as [l id cs|l id]; unfold size_of; simpl; lia.
Qed.

Lemma refs_app xs ys : refs (xs ++ ys) = refs xs ++ refs ys.
Proof. apply map_app. Qed.

Lemma pop_refs ts t : pop (refs (ts ++ [t])) = Some (refs ts, VRef (root t)).
Proof.
  unfold pop. rewrite refs_app. simpl. rewrite rev_app_distr. simpl.
  rewrite rev_involutive. reflexivity.
Qed.

Lemma shape_id h t :
  shape h t -> exists o, h !! root t = Some o /\ __dict__ o !! "id" = Some (VStr (tree_id t)).
Proof. intros H. inversion H; subst; simpl; eauto. Qed.

Lemma shape_children h t : shape h t -> Forall (shape h) (children t).
Proof. intros H. inversion H; subst; simpl; auto. Qed.

Section Search.

Context (reddit : Env) (h : list object) (r : list request).
Context (self : loc) (o : object) (sid : string).
Hypothesis Hself : h !! self = Some o.
Hypothesis Hsid : __dict__ o !! "id" = Some (VStr sid).

(** With fuel for the nodes of the stack, the loop stops where [pick]
    says, and changes nothing. *)
Lemma search_spec fuel : forall ts c,
  (size_of ts < fuel)%nat -> Forall (shape h) ts -> shape h c ->
  search reddit fuel self (refs ts) (VRef (root c)) (State h r) =
    (Ok (VRef (root (pick sid c (visit_stack ts)))), State h r).
Proof.
  induction fuel as [|fuel IH]; intros ts c Hfuel Hts Hc; [lia|].
  destruct (shape_id h c Hc) as (oc & Hoc & Hcid).
  cbn [search].
  destruct ts as [|t0 ts0] using rev_ind.
  - reflexivity.
  - clear IHts0. rename ts0 into ts, t0 into t.
    assert (Htruthy : truthy (VList (refs (ts ++ [t]))) = true).
    { rewrite refs_app. simpl. destruct (refs ts); reflexivity. }
    rewrite Htruthy. cbn [is_None]. cbv beta iota.
    rewrite bind_assoc. cbn [attr].
    rewrite (bind_Ok _ _ _ _ _ (getattr_at reddit h r _ oc _ _ Hoc Hcid)).
    rewrite bind_assoc.
    rewrite (bind_Ok _ _ _ _ _ (getattr_at reddit h r self o _ _ Hself Hsid)).
    rewrite ret_bind. cbn [py_eq].
    rewrite visit_stack_pop. cbn [pick]. unfold has_id.
    destruct (String.eqb (tree_id c) sid); cbn [negb]; [reflexivity|].
    rewrite pop_refs.
    apply Forall_app in Hts as [Hts Ht]. apply Forall_cons in Ht as [Ht _].
    rewrite size_of_pop in Hfuel.
    assert (Hq : forall k : bool -> M pyval,
      (isinstance (VRef (root t)) ClsComment ≫= k) (State h r) =
      k (match t with Node _ _ _ => true | More _ _ => false end) (State h r)).
    { intros k. unfold isinstance. inversion Ht as [? ? ? ot Hot Hcl|? ? ot Hot Hcl]; subst;
        cbn [root]; rewrite bind_assoc, (bind_Ok _ _ _ _ _ (deref_at h r _ ot Hot)),
          ret_bind, Hcl; reflexivity. }
    rewrite Hq.
    assert (Hnext : Forall (shape h) (ts ++ children t))
      by (apply Forall_app; split; [exact Hts | apply shape_children; exact Ht]).
    inversion Ht as [l id cs ot Hot Hcl Hid Hrep Hcs|l id ot Hot Hcl Hid]; subst;
      cbn [root children].
    + rewrite !bind_assoc. cbn [attr].
      rewrite (bind_Ok _ _ _ _ _ (getattr_at reddit h r l ot _ _ Hot Hrep)).
      cbn [iter]. rewrite bind_assoc, !ret_bind. rewrite <- refs_app.
      apply (IH (ts ++ cs) (Node l id cs)); [cbn [children] in Hfuel; lia | exact Hnext | exact Ht].
    + rewrite ret_bind. rewrite app_nil_r in Hnext |- *.
      apply (IH ts (More l id)); [cbn [children] in Hfuel; rewrite app_nil_r in Hfuel; lia
                                 | exact Hnext | exact Ht].
Qed.

Lemma last_cons_default (l : list tree) a d : List.last (a :: l) d = List.last l a.
Proof.
  revert a d. induction l as [|b l IH]; intros a d; [reflexivity|].
  change (List.last (a :: b :: l) d) with (List.last (b :: l) d).
  rewrite !IH. reflexivity.
Qed.

Lemma pick_find c rest :
  pick sid c rest =
    match find (has_id sid) (c :: rest) with
    | Some t => t
    | None => List.last rest c
    end.
Proof.
  revert c. induction rest as [|t rest IH]; intros c; cbn [pick find].
  - destruct (has_id sid c); reflexivity.
  - destruct (has_id sid c); [reflexivity|]. rewrite IH. cbn [find].
    destruct (has_id sid t); [reflexivity|].
    destruct (find (has_id sid) rest); [reflexivity|].
    symmetry. apply last_cons_default.
Qed.

(** From the start, with no comment yet: the loop stops at the first node,
    in the order of the visit, of the identifier looked for, and at the
    last node visited when there is none. *)
Lemma search_start fuel ts t :
  (size_of (ts ++ [t]) < fuel)%nat -> Forall (shape h) (ts ++ [t]) ->
  search reddit fuel self (refs (ts ++ [t])) VNone (State h r) =
    (Ok (VRef (root (match find (has_id sid) (visit_stack (ts ++ [t])) with
                     | Some c => c
                     | None => List.last (visit_stack (ts ++ children t)) t
                     end))), State h r).
Proof.
  intros Hfuel Hts. destruct fuel as [|fuel]; [lia|].
  cbn [search].
  assert (Htruthy : truthy (VList (refs (ts ++ [t]))) = true).
  { rewrite refs_app. simpl. destruct (refs ts); reflexivity. }
  rewrite Htruthy. cbn [is_None]. rewrite ret_bind. rewrite pop_refs.
  apply Forall_app in Hts as [Hts Ht]. apply Forall_cons in Ht as [Ht _].
  rewrite size_of_pop in Hfuel.
  assert (Hnext : Forall (shape h) (ts ++ children t))
    by (apply Forall_app; split; [exact Hts | apply shape_children; exact Ht]).
  rewrite visit_stack_pop, <- pick_find.
  rewrite <- (search_spec fuel (ts ++ children t) t) by (auto; lia).
  unfold isinstance.
  inversion Ht as [l id cs ot Hot Hcl Hid Hrep Hcs|l id ot Hot Hcl Hid]; subst;
    cbn [root children].
  - rewrite !bind_assoc, (bind_Ok _ _ _ _ _ (deref_at h r _ ot Hot)), ret_bind, Hcl.
    cbn [bool_decide decide_rel]. rewrite bool_decide_eq_true_2 by reflexivity.
    rewrite !bind_assoc. cbn [attr].
    rewrite (bind_Ok _ _ _ _ _ (getattr_at reddit h r l ot _ _ Hot Hrep)).
    cbn [iter]. rewrite bind_assoc, !ret_bind. rewrite <- refs_app. reflexivity.
  - rewrite !bind_assoc, (bind_Ok _ _ _ _ _ (deref_at h r _ ot Hot)), ret_bind, Hcl.
    rewrite bool_decide_eq_false_2 by discriminate.
    rewrite ret_bind, app_nil_r. reflexivity.
Qed.

End Search.

(** *** Nodes of the trees *)

Lemma elem_of_visit_stack t ts :
  t ∈ visit_stack ts <-> exists t0, t0 ∈ ts /\ t ∈ visit t0.
Proof.
  induction ts as [|a ts IH].
  - simpl. split; [intros H; apply elem_of_nil in H; contradiction|].
    intros (t0 & H & _). apply elem_of_nil in H. contradiction.
  - change (visit_stack (a :: ts)) with (visit_stack ts ++ visit a).
    rewrite elem_of_app, IH. split.
    + intros [(t0 & H0 & H1)|H].
      * exists t0. split; [apply list_elem_of_further|]; assumption.
      * exists a. split; [apply list_elem_of_here | assumption].
    + intros (t0 & H0 & H1). apply elem_of_cons in H0 as [->|H0]; eauto.
Qed.

(** A node that is visited is in the heap, among the nodes of the tree. *)
Lemma visit_shape h t0 t :
  shape h t0 -> t ∈ visit t0 -> shape h t /\ root t ∈ locs t0.
Proof.
  revert t0. induction t0 as [l id cs IH|l id] using tree_ind'; intros Hs Hin.
  - cbn [visit] in Hin. fold (visit_stack cs) in Hin.
    apply elem_of_cons in Hin as [->|Hin].
    + split; [exact Hs | apply root_in_locs].
    + apply elem_of_visit_stack in Hin as (c & Hc & Hin).
      inversion Hs as [? ? ? o Ho Hcl Hid Hr Hcs|]; subst.
      rewrite Forall_forall in IH, Hcs.
      destruct (IH c Hc (Hcs c Hc) Hin) as [H1 H2].
      split; [exact H1|]. cbn [locs]. fold (locs_of cs).
      apply list_elem_of_further, elem_of_locs_of. eauto.
  - cbn [visit] in Hin. apply list_elem_of_singleton in Hin as ->.
    split; [exact Hs | apply root_in_locs].
Qed.

Lemma visit_stack_shape h ts t :
  Forall (shape h) ts -> t ∈ visit_stack ts -> shape h t /\ root t ∈ locs_of ts.
Proof.
  intros Hs Hin. apply elem_of_visit_stack in Hin as (t0 & H0 & Hin).
  rewrite Forall_forall in Hs.
  destruct (visit_shape h t0 t (Hs t0 H0) Hin) as [H1 H2].
  split; [exact H1 | apply elem_of_locs_of; eauto].
Qed.

Lemma last_elem_of (l : list tree) d : List.last l d ∈ d :: l.
Proof.
  revert d. induction l as [|a l IH]; intros d; [apply list_elem_of_here|].
  rewrite last_cons_default. apply list_elem_of_further, IH.
Qed.

Lemma height_le_size t : (height t <= size t)%nat.
Proof.
  induction t as [l id cs IH|l id] using tree_ind'; simpl; [|lia].
  apply le_n_S. induction IH as [|c cs Hc _ IHcs]; simpl; lia.
Qed.

Lemma size_le_size_of t ts : t ∈ ts -> (size t <= size_of ts)%nat.
Proof. unfold size_of. induction 1; simpl; lia. Qed.

(** A tree stays in a heap that keeps the class, the identifier and the
    replies of its nodes. *)
Lemma shape_keep h h' t :
  shape h t ->
  (forall l o, l ∈ locs t -> h !! l = Some o ->
     exists o', h' !! l = Some o' /\ __class__ o' = __class__ o /\
       __dict__ o' !! "id" = __dict__ o !! "id" /\
       __dict__ o' !! "_replies" = __dict__ o !! "_replies") ->
  shape h' t.
Proof.
  revert t. induction t as [l id cs IH|l id] using tree_ind'; intros Hs Hk.
  - inversion Hs as [? ? ? o Ho Hc Hid Hr Hcs|]; subst.
    destruct (Hk l o (list_elem_of_here _ _) Ho) as (o' & Ho' & E1 & E2 & E3).
    eapply (shape_Node h' l id cs o'); [exact Ho' | congruence | congruence | congruence |].
    rewrite Forall_forall in IH, Hcs. apply Forall_forall. intros c Hc'.
    apply IH; auto. intros l' o0 Hl'. apply Hk. cbn [locs]. fold (locs_of cs).
    apply list_elem_of_further, elem_of_locs_of. eauto.
  - inversion Hs as [|? ? o Ho Hc Hid]; subst.
    destruct (Hk l o (list_elem_of_here _ _) Ho) as (o' & Ho' & E1 & E2 & _).
    eapply (shape_More h' l id o'); [exact Ho' | congruence | congruence].
Qed.

(** *** Refreshing a comment *)

Lemma in_dict_at h r l o name :
  h !! l = Some o ->
  in_dict l name (State h r) = (Ok (bool_decide (is_Some (__dict__ o !! name))), State h r).
Proof. intros H. apply (in_dict_hit (State h r)). exact H. Qed.

Lemma split1_cons sep s : exists p ps, PyStr.split1 sep s = p :: ps.
Proof.
  induction s as [|c s IH]; simpl; [eauto|].
  destruct (Ascii.eqb c sep); [eauto|].
  destruct IH as (p & ps & ->). eauto.
Qed.

Section Refresh.

Context (reddit : Env) (h : list object) (r : list request).
Context (self : loc) (o : object) (sid : string) (s : loc) (so : object).
Hypothesis Hself : h !! self = Some o.
Hypothesis Hsid : __dict__ o !! "id" = Some (VStr sid).
Hypothesis Hsub : __dict__ o !! "_submission" = Some (VRef s).
Hypothesis Hctx : forall context, __dict__ o !! "context" = Some context ->
                                  exists c, context = VStr c.
Hypothesis Hs : h !! s = Some so.
Hypothesis Hsubid : is_Some (__dict__ so !! "id").

(** Up to the request: the path and the parameters are worked out
    without a change of state, the request is logged and sent. *)
Lemma refresh_request fuel :
  refresh reddit fuel self (State h r) =
    (response ← reddit_get reddit (refresh_path reddit o so) (refresh_params o);
     comment_list ← second_children reddit response;
     if negb (truthy comment_list) then raise (ClientException MISSING_COMMENT_MESSAGE)
     else
       queue ← slice_all comment_list;
       comment ← search reddit fuel self queue VNone;
       cid ← attr reddit comment "id";
       sid ← getattr reddit self "id";
       if negb (py_eq reddit cid sid) then raise (ClientException MISSING_COMMENT_MESSAGE)
       else
         _submission ← getattr reddit self "_submission";
         (if negb (is_None _submission) then del_dict comment "_submission"
          else mret tt) ;;
         dict_update self comment ;;
         rs ← iter comment_list;
         for_each (fun reply => s ← submission reddit self;
                                setattr reddit fuel reply "submission" s) rs ;;
         mret self)
      (State h (r ++ [(refresh_path reddit o so, refresh_params o)])).
Proof.
  unfold refresh.
  rewrite (bind_Ok _ _ _ _ _ (in_dict_at h r self o "context" Hself)).
  assert (Hpath :
    (if bool_decide (is_Some (__dict__ o !! "context"))
     then context ← getattr reddit self "context";
          s0 ← as_str "split" context; nth_part (PyStr.split1 "?" s0) 0
     else s0 ← submission reddit self; sid0 ← attr reddit s0 "id";
          let path := submission_path reddit (format reddit sid0) in
          id ← getattr reddit self "id"; mret (path +:+ "_/" +:+ format reddit id))
      (State h r) = (Ok (refresh_path reddit o so), State h r)).
  { unfold refresh_path. destruct (__dict__ o !! "context") as [context|] eqn:E.
    - destruct (Hctx context eq_refl) as [c ->].
      rewrite bool_decide_eq_true_2 by eauto.
      rewrite (bind_Ok _ _ _ _ _ (getattr_at reddit h r self o _ _ Hself E)).
      cbn [as_str]. rewrite ret_bind.
      destruct (split1_cons "?" c) as (p & ps & ->). reflexivity.
    - rewrite bool_decide_eq_false_2 by (intros [? [=]]).
      rewrite (bind_Ok _ _ _ _ _ (submission_at reddit h r self o s Hself Hsub)).
      destruct Hsubid as [v Hv]. cbn [attr].
      rewrite (bind_Ok _ _ _ _ _ (getattr_at reddit h r s so _ _ Hs Hv)).
      cbv zeta.
      rewrite (bind_Ok _ _ _ _ _ (getattr_at reddit h r self o _ _ Hself Hsid)).
      rewrite Hv, Hsid. reflexivity. }
  rewrite (bind_Ok _ _ _ _ _ Hpath).
  rewrite (bind_Ok _ _ _ _ _ (in_dict_at h r self o "reply_limit" Hself)).
  assert (Hlimit :
    (if bool_decide (is_Some (__dict__ o !! "reply_limit"))
     then v ← getattr reddit self "reply_limit"; mret [("limit", v)]
     else mret []) (State h r) =
    (Ok match __dict__ o !! "reply_limit" with Some v => [("limit", v)] | None => [] end,
     State h r)).
  { destruct (__dict__ o !! "reply_limit") as [v|] eqn:E.
    - rewrite bool_decide_eq_true_2 by eauto.
      rewrite (bind_Ok _ _ _ _ _ (getattr_at reddit h r self o _ _ Hself E)). reflexivity.
    - rewrite bool_decide_eq_false_2 by (intros [? [=]]). reflexivity. }
  rewrite (bind_Ok _ _ _ _ _ Hlimit).
  rewrite (bind_Ok _ _ _ _ _ (in_dict_at h r self o "reply_sort" Hself)).
  assert (Hsort :
    (if bool_decide (is_Some (__dict__ o !! "reply_sort"))
     then v ← getattr reddit self "reply_sort"; mret [("sort", v)]
     else mret []) (State h r) =
    (Ok match __dict__ o !! "reply_sort" with Some v => [("sort", v)] | None => [] end,
     State h r)).
  { destruct (__dict__ o !! "reply_sort") as [v|] eqn:E.
    - rewrite bool_decide_eq_true_2 by eauto.
      rewrite (bind_Ok _ _ _ _ _ (getattr_at reddit h r self o _ _ Hself E)). reflexivity.
    - rewrite bool_decide_eq_false_2 by (intros [? [=]]). reflexivity. }
  rewrite (bind_Ok _ _ _ _ _ Hsort).
  cbv zeta. unfold get. rewrite bind_assoc.
  fold (refresh_params o).
  rewrite (bind_Ok (log_request _) _ (State h r) tt
             (State h (r ++ [(refresh_path reddit o so, refresh_params o)])) eq_refl).
  reflexivity.
Qed.

Context (m : gmap string loc) (x : pyval) (lst : loc) (olst : object).
Context (ts : list tree) (h1 : list object) (r1 : list request).
Hypothesis Hm : __dict__ so !! "_comments_by_id" = Some (VMap m).
Hypothesis Hget :
  reddit_get reddit (refresh_path reddit o so) (refresh_params o)
    (State h (r ++ [(refresh_path reddit o so, refresh_params o)])) =
  (Ok (VList [x; VRef lst]), State h1 r1).
Hypothesis Hself1 : h1 !! self = Some o.
Hypothesis Hs1 : h1 !! s = Some so.
Hypothesis Hlst : h1 !! lst = Some olst.
Hypothesis Hchildren : __dict__ olst !! "children" = Some (VList (refs ts)).
Hypothesis Hshape : Forall (shape h1) ts.
Hypothesis Hnd : NoDup (locs_of ts).
Hypothesis Hsn : s ∉ locs_of ts.
Hypothesis Hselfn : self ∉ locs_of ts.
Hypothesis Hne : self <> s.

(** The node where the search stops. *)
Lemma refresh_search fuel :
  ts <> [] -> (size_of ts < fuel)%nat ->
  exists c, c ∈ visit_stack ts /\
    (forall c', find (has_id sid) (visit_stack ts) = Some c' -> c = c') /\
    (find (has_id sid) (visit_stack ts) = None -> has_id sid c = false) /\
    search reddit fuel self (refs ts) VNone (State h1 r1) =
      (Ok (VRef (root c)), State h1 r1).
Proof.
  intros Hts Hfuel. destruct ts as [|t0 ts0] using rev_ind; [congruence|].
  clear IHts0. eexists. split; [|split; [|split]].
  4: { apply (search_start reddit h1 r1 self o sid Hself1 Hsid fuel ts0 t0 Hfuel Hshape). }
  - destruct (find (has_id sid) (visit_stack (ts0 ++ [t0]))) as [c|] eqn:E.
    + apply find_some in E as [E _]. apply list_elem_of_In. exact E.
    + rewrite visit_stack_pop. apply last_elem_of.
  - intros c' ->. reflexivity.
  - intros E. rewrite E.
    pose proof (last_elem_of (visit_stack (ts0 ++ children t0)) t0) as Hin.
    rewrite <- visit_stack_pop in Hin. apply list_elem_of_In in Hin.
    exact (find_none _ _ E _ Hin).
Qed.

Lemma refresh_missing fuel :
  (size_of ts < fuel)%nat ->
  find (has_id sid) (visit_stack ts) = None ->
  refresh reddit fuel self (State h r) =
    (Raise (ClientException MISSING_COMMENT_MESSAGE), State h1 r1).
Proof.
  intros Hfuel Hfind. rewrite refresh_request.
  rewrite (bind_Ok _ _ _ _ _ Hget). cbn [second_children lookup list_lookup attr].
  rewrite (bind_Ok _ _ _ _ _ (getattr_at reddit h1 r1 lst olst _ _ Hlst Hchildren)).
  destruct (decide (ts = [])) as [->|Hts]; [reflexivity|].
  assert (Htruthy : truthy (VList (refs ts)) = true) by (destruct ts; [congruence|reflexivity]).
  rewrite Htruthy. cbn [negb slice_all]. rewrite ret_bind.
  destruct (refresh_search fuel Hts Hfuel) as (c & Hin & _ & Hno & E).
  rewrite (bind_Ok _ _ _ _ _ E).
  destruct (visit_stack_shape h1 ts c Hshape Hin) as [Hc _].
  destruct (shape_id h1 c Hc) as (oc & Hoc & Hcid). cbn [attr].
  rewrite (bind_Ok _ _ _ _ _ (getattr_at reddit h1 r1 _ oc _ _ Hoc Hcid)).
  rewrite (bind_Ok _ _ _ _ _ (getattr_at reddit h1 r1 self o _ _ Hself1 Hsid)).
  cbn [py_eq]. specialize (Hno Hfind). unfold has_id in Hno. rewrite Hno. reflexivity.
Qed.

Lemma merged_submission oc : __dict__ (merged o oc) !! "_submission" = Some (VRef s).
Proof.
  unfold merged. cbn [__dict__]. rewrite lookup_union_r by apply lookup_delete_eq.
  exact Hsub.
Qed.

Lemma refresh_found fuel c id cs oc :
  (size_of ts < fuel)%nat ->
  find (has_id sid) (visit_stack ts) = Some (Node c id cs) ->
  h1 !! c = Some oc -> is_Some (__dict__ oc !! "_submission") ->
  exists h',
    refresh reddit fuel self (State h r) = (Ok self, State h' r1) /\
    h' !! self = Some (merged o oc) /\
    Forall (shape (merged_heap h1 self c o oc)) ts /\
    reparented (kinds reddit "comment") s so ts (merged_heap h1 self c o oc) m h'.
Proof.
  intros Hfuel Hfind Hoc Hocs.
  assert (Hts : ts <> []) by (intros ->; discriminate).
  destruct (refresh_search fuel Hts Hfuel) as (c0 & Hin & Hyes & _ & E).
  specialize (Hyes _ Hfind). subst c0.
  destruct (visit_stack_shape h1 ts _ Hshape Hin) as [Hc Hcl]. cbn [root] in Hcl.
  assert (Hcself : c <> self) by congruence.
  assert (Hcs : c <> s) by congruence.
  assert (Hid : __dict__ oc !! "id" = Some (VStr id)).
  { inversion Hc as [? ? ? oc' Hoc' _ Hid' _ _|]; subst. congruence. }
  assert (Heq : String.eqb id sid = true) by (apply find_some in Hfind as [_ H]; exact H).
  set (h2a := <[c := Instance (__class__ oc) (delete "_submission" (__dict__ oc))]> h1).
  assert (Hc2a : h2a !! c = Some (Instance (__class__ oc) (delete "_submission" (__dict__ oc))))
    by (eapply lookup_insert_at; exact Hoc).
  assert (Hself2a : h2a !! self = Some o)
    by (unfold h2a; rewrite lookup_insert_off by exact Hcself; exact Hself1).
  assert (Hshape2 : Forall (shape (merged_heap h1 self c o oc)) ts).
  { rewrite Forall_forall in Hshape |- *. intros t Ht.
    eapply shape_keep; [apply Hshape; exact Ht|]. intros l ol Hl Hol.
    assert (Hlself : l <> self).
    { intros ->. apply Hselfn, elem_of_locs_of. eauto. }
    unfold merged_heap. rewrite lookup_insert_off by congruence.
    destruct (decide (l = c)) as [->|Hlc].
    + rewrite (lookup_insert_at _ _ _ _ Hoc). assert (ol = oc) by congruence. subst ol.
      eexists. split; [reflexivity|]. cbn [__class__ __dict__].
      rewrite !lookup_delete_ne by discriminate. auto.
    + rewrite lookup_insert_off by congruence. eauto. }
  (* the last loop *)
  assert (Hheight : forall t, t ∈ ts -> (height t <= fuel)%nat).
  { intros t Ht. pose proof (height_le_size t). pose proof (size_le_size_of t ts Ht). lia. }
  destruct (list_runs reddit s so (fun h0 => h0 !! self = Some (merged o oc))
              (fun reply => s0 ← submission reddit self;
                            setattr reddit fuel reply "submission" s0) ts)
    with (h := merged_heap h1 self c o oc) (r := r1) (m := m) as (h' & Erun & Hrep).
  - intros t Ht h0 r0 m0 Hinv Hsh0 Hnd0 Hs0 Hidx0.
    rewrite (bind_Ok _ _ _ _ _
               (submission_at reddit h0 r0 self _ s Hinv (merged_submission oc))).
    apply (tree_runs reddit s so fuel t (Hheight t Ht) h0 r0 m0 I Hsh0 Hnd0 Hs0 Hidx0).
  - intros t h0 m0 h0' Ht Hinv (_ & Hframe & _). rewrite Hframe; auto.
    + eapply lookup_lt_Some; eauto.
    + rewrite locs_of_one. intros Hin'. apply Hselfn, elem_of_locs_of. eauto.
  - unfold merged_heap. fold h2a. eapply lookup_insert_at. exact Hself2a.
  - exact Hshape2.
  - exact Hnd.
  - exact Hsn.
  - apply indexed_init; [|exact Hm]. unfold merged_heap.
    rewrite !lookup_insert_off by congruence. exact Hs1.
  - exists h'. split; [|split; [|split; [exact Hshape2 | exact Hrep]]].
    + rewrite refresh_request.
      rewrite (bind_Ok _ _ _ _ _ Hget). cbn [second_children lookup list_lookup attr].
      rewrite (bind_Ok _ _ _ _ _ (getattr_at reddit h1 r1 lst olst _ _ Hlst Hchildren)).
      assert (Htruthy : truthy (VList (refs ts)) = true)
        by (destruct ts; [congruence|reflexivity]).
      rewrite Htruthy. cbn [negb slice_all]. rewrite ret_bind.
      rewrite (bind_Ok _ _ _ _ _ E). cbn [attr root].
      rewrite (bind_Ok _ _ _ _ _ (getattr_at reddit h1 r1 c oc _ _ Hoc Hid)).
      rewrite (bind_Ok _ _ _ _ _ (getattr_at reddit h1 r1 self o _ _ Hself1 Hsid)).
      cbn [py_eq]. rewrite Heq. cbn [negb].
      rewrite (bind_Ok _ _ _ _ _ (getattr_at reddit h1 r1 self o _ _ Hself1 Hsub)).
      cbn [is_None negb del_dict].
      rewrite ?bind_assoc.
      rewrite (bind_Ok _ _ _ _ _ (deref_at h1 r1 c oc Hoc)).
      rewrite bool_decide_eq_true_2 by exact Hocs.
      rewrite (bind_Ok _ _ _ _ _ (update_hit (State h1 r1) c oc _ Hoc)).
      cbn [heap requests dict_update]. fold h2a.
      rewrite ?bind_assoc.
      rewrite (bind_Ok _ _ _ _ _ (deref_at h2a r1 c _ Hc2a)).
      rewrite (bind_Ok _ _ _ _ _ (update_hit (State h2a r1) self o _ Hself2a)).
      cbn [heap requests __dict__ iter]. rewrite ret_bind.
      change (<[self := _]> h2a) with (merged_heap h1 self c o oc).
      rewrite ?bind_assoc. rewrite (bind_Ok _ _ _ _ _ Erun). reflexivity.
    + destruct Hrep as (_ & Hframe & _). rewrite Hframe; auto.
      * unfold merged_heap. fold h2a. eapply lookup_insert_at. exact Hself2a.
      * unfold merged_heap. rewrite !length_insert. eapply lookup_lt_Some; eauto.
Qed.

End Refresh.

Lemma comments_of_shape h ts c id :
  Forall (shape h) ts -> (c, id) ∈ comments_of ts ->
  c ∈ locs_of ts /\ exists o, h !! c = Some o /\ __class__ o = ClsComment.
Proof.
  intros Hs Hin. apply elem_of_comments_of in Hin as (t & Ht & Hin).
  rewrite Forall_forall in Hs.
  destruct (comments_shape h t c id (Hs t Ht) Hin) as (Hl & o & Ho & Hc & _).
  split; [apply elem_of_locs_of; eauto | eauto].
Qed.

(** C5: [refresh] works out the path of the comment and the parameters,
    of which the first is a context of 100, logs the request and sends it.
    In the trees of comments of the answer it looks for the node of the
    identifier of the comment, taking the nodes from the end of a stack
    on which it pushes the replies of each comment it visits.  When the
    list of the answer is empty, or no node has the identifier, it raises
    the [ClientException] of the comment that is missing.  When a comment
    is found, [refresh] returns the comment, which has taken the
    attributes of the comment found, and every comment of the answer, at
    any depth, has been given the submission and put in its index. *)
Theorem refresh_spec reddit fuel h r self o sid s so m x lst olst ts h1 r1 :
  let path := refresh_path reddit o so in
  let params := refresh_params o in
  let kind := kinds reddit "comment" in
  h !! self = Some o ->
  __dict__ o !! "id" = Some (VStr sid) ->
  __dict__ o !! "_submission" = Some (VRef s) ->
  (forall context, __dict__ o !! "context" = Some context -> exists c, context = VStr c) ->
  h !! s = Some so ->
  is_Some (__dict__ so !! "id") ->
  __dict__ so !! "_comments_by_id" = Some (VMap m) ->
  reddit_get reddit path params (State h (r ++ [(path, params)])) =
    (Ok (VList [x; VRef lst]), State h1 r1) ->
  h1 !! self = Some o -> h1 !! s = Some so -> h1 !! lst = Some olst ->
  __dict__ olst !! "children" = Some (VList (refs ts)) ->
  Forall (shape h1) ts -> NoDup (locs_of ts) ->
  s ∉ locs_of ts -> self ∉ locs_of ts -> self <> s ->
  (size_of ts < fuel)%nat ->
  head params = Some ("context", VInt 100) /\
  (exists k, refresh reddit fuel self (State h r) =
               (reddit_get reddit path params ≫= k) (State h (r ++ [(path, params)]))) /\
  (ts = [] \/ find (has_id sid) (visit_stack ts) = None ->
     refresh reddit fuel self (State h r) =
       (Raise (ClientException MISSING_COMMENT_MESSAGE), State h1 r1)) /\
  (forall c id cs oc,
     find (has_id sid) (visit_stack ts) = Some (Node c id cs) ->
     h1 !! c = Some oc -> is_Some (__dict__ oc !! "_submission") ->
     exists h',
       refresh reddit fuel self (State h r) = (Ok self, State h' r1) /\
       h' !! self = Some (merged o oc) /\
       reparented kind s so ts (merged_heap h1 self c o oc) m h' /\
       (forall c' id', (c', id') ∈ comments_of ts ->
          exists o', h' !! c' = Some o' /\
                     __dict__ o' !! "_submission" = Some (VRef s))).
Proof.
  intros path params kind Hself Hsid Hsub Hctx Hs Hsubid Hm Hget Hself1 Hs1 Hlst Hch
         Hshape Hnd Hsn Hselfn Hne Hfuel.
  split; [reflexivity|]. split; [|split].
  - eexists. apply (refresh_request reddit h r self o sid s so Hself Hsid Hsub Hctx Hs Hsubid).
  - intros Hnone.
    eapply refresh_missing; eauto.
    destruct Hnone as [->|Hnone]; [reflexivity | exact Hnone].
  - intros c id cs oc Hfind Hoc Hocs.
    edestruct (refresh_found reddit h r self o sid s so Hself Hsid Hsub Hctx Hs Hsubid
                 m x lst olst ts h1 r1) as (h' & E & Hmerged & Hshape2 & Hrep); eauto.
    exists h'. split; [exact E|]. split; [exact Hmerged|]. split; [exact Hrep|].
    intros c' id' Hin.
    destruct (comments_of_shape _ ts c' id' Hshape2 Hin) as (Hl & o2 & Ho2 & Hc2).
    destruct Hrep as (_ & _ & _ & Hall). rewrite Forall_forall in Hall.
    destruct (Hall c' Hl) as (o3 & o' & Ho3 & Ho' & _ & Hd).
    assert (o3 = o2) by congruence. subst o3. rewrite Hc2 in Hd.
    exists o'. tauto.
Qed.

Lemma refresh_spec_witness :
  exists h' : list object,
    refresh answering_reddit 4 1%nat (State refresh_heap []) =
      (Ok 1%nat, State h' [("comments/2gmzqe/_/b", [("context", VInt 100)])]) /\
    (exists o', h' !! 1%nat = Some o' /\ __dict__ o' !! "body" = Some (VStr "hello")) /\
    (exists o', h' !! 4%nat = Some o' /\ __dict__ o' !! "_submission" = Some (VRef 0)) /\
    (exists o', h' !! 5%nat = Some o' /\ __dict__ o' !! "_submission" = Some (VRef 0)).
Proof.
  destruct (refresh_spec answering_reddit 4 refresh_heap [] 1%nat
              (Instance ClsComment
                 (<["_submission" := VRef 0]> (__dict__ (shallow_comment (VStr "b")))))
              "b" 0%nat
              (Instance ClsSubmission
                 (<["id" := VStr "2gmzqe"]> (<["_comments_by_id" := VMap ∅]>
                    (<["_fetched" := VBool false]> ∅))))
              ∅ (VRef 2) 3%nat
              (Instance ClsListing (<["children" := VList [VRef 4]]> ∅))
              [Node 4 "a" [Node 5 "b" []; More 6 "m"]]
              (refresh_heap ++ answer 2)
              [("comments/2gmzqe/_/b", [("context", VInt 100)])])
    as (_ & _ & _ & Hfound).
  - reflexivity.
  - reflexivity.
  - reflexivity.
  - intros context Hc. vm_compute in Hc. discriminate Hc.
  - reflexivity.
  - eexists. reflexivity.
  - reflexivity.
  - reflexivity.
  - reflexivity.
  - reflexivity.
  - reflexivity.
  - reflexivity.
  - constructor; [|constructor].
    eapply (shape_Node _ 4 "a"); [reflexivity..|].
    constructor; [|constructor; [|constructor]].
    + eapply (shape_Node _ 5 "b"); [reflexivity..|]. constructor.
    + eapply (shape_More _ 6 "m"); reflexivity.
  - apply (bool_decide_unpack _). vm_compute. exact I.
  - apply (bool_decide_unpack _). vm_compute. exact I.
  - apply (bool_decide_unpack _). vm_compute. exact I.
  - discriminate.
  - vm_compute. lia.
  - destruct (Hfound 5%nat "b" []
                (Instance ClsComment
                   (<["body" := VStr "hello"]> (__dict__ (fresh_comment "b" "t1_a" [])))))
      as (h' & E & Hself & _ & Hall).
    + reflexivity.
    + reflexivity.
    + eexists. reflexivity.
    + exists h'. split; [exact E|]. split; [|split].
      * eexists. split; [exact Hself|]. reflexivity.
      * apply (Hall 4%nat "a"). apply (bool_decide_unpack _). vm_compute. exact I.
      * apply (Hall 5%nat "b"). apply (bool_decide_unpack _). vm_compute. exact I.
Defined.

(** ** More of the models *)

(** *** Text *)

Lemma append_String c a b : (String c a +:+ b)%string = String c (a +:+ b).
Proof. reflexivity. Qed.

Lemma append_nil_l b : ("" +:+ b)%string = b.
Proof. reflexivity. Qed.

Ltac unfold_append := rewrite ?append_String, ?append_nil_l.

Lemma append_nil_r s : (s +:+ "")%string = s.
Proof. induction s as [|c s IH]; [reflexivity | unfold_append; rewrite IH; reflexivity]. Qed.

Lemma append_assoc a b c : ((a +:+ b) +:+ c = a +:+ (b +:+ c))%string.
Proof. induction a as [|x a IH]; [reflexivity | unfold_append; rewrite IH; reflexivity]. Qed.

Lemma has_char_app c a b :
  has_char c (a +:+ b) = (has_char c a || has_char c b)%bool.
Proof.
  induction a as [|x a IH]; unfold_append; simpl; [reflexivity|].
  rewrite IH, orb_assoc. reflexivity.
Qed.

Lemma split_cons sep s : exists p ps, PyStr.split sep s = p :: ps.
Proof.
  induction s as [|c s IH]; simpl; [eauto|].
  destruct (Ascii.eqb c sep); [eauto|].
  destruct IH as (p & ps & ->). eauto.
Qed.

Lemma split_segment sep a : has_char sep a = false -> PyStr.split sep a = [a].
Proof.
  induction a as [|c a IH]; simpl; [reflexivity|].
  intros H. apply orb_false_iff in H as [Hc Ha].
  rewrite Hc, (IH Ha). reflexivity.
Qed.

Lemma split_app sep a b :
  has_char sep a = false ->
  PyStr.split sep (a +:+ String sep b) = a :: PyStr.split sep b.
Proof.
  induction a as [|c a IH]; unfold_append; simpl.
  - intros _. rewrite Ascii.eqb_refl. reflexivity.
  - intros H. apply orb_false_iff in H as [Hc Ha].
    rewrite Hc, (IH Ha). reflexivity.
Qed.

Lemma split_has_char c sep s :
  has_char c s = false -> Forall (fun p => has_char c p = false) (PyStr.split sep s).
Proof.
  induction s as [|x s IH]; simpl.
  - intros _. repeat constructor.
  - intros H. apply orb_false_iff in H as [Hx Hs]. specialize (IH Hs).
    destruct (Ascii.eqb x sep).
    + constructor; [reflexivity | exact IH].
    + destruct (PyStr.split sep s) as [|p ps].
      * repeat constructor. simpl. rewrite Hx. reflexivity.
      * apply Forall_cons in IH as [Hp Hps]. constructor; [|exact Hps].
        simpl. rewrite Hx, Hp. reflexivity.
Qed.

Lemma split_no_sep sep s : Forall (fun p => has_char sep p = false) (PyStr.split sep s).
Proof.
  induction s as [|x s IH]; simpl.
  - repeat constructor.
  - destruct (Ascii.eqb x sep) eqn:Hx.
    + constructor; [reflexivity | exact IH].
    + destruct (PyStr.split sep s) as [|p ps].
      * repeat constructor. simpl. rewrite Hx. reflexivity.
      * apply Forall_cons in IH as [Hp Hps]. constructor; [|exact Hps].
        simpl. rewrite Hx, Hp. reflexivity.
Qed.

(** The last part of a split is empty only for the empty text and for a
    text that ends with the separator. *)
Lemma last_split_empty sep s :
  last (PyStr.split sep s) = Some "" ->
  s = "" \/ exists s', s = (s' +:+ String sep "")%string.
Proof.
  induction s as [|c s IH]; simpl; [auto|].
  destruct (split_cons sep s) as (p & ps & E). rewrite E in *.
  destruct (Ascii.eqb_spec c sep) as [->|Hc].
  - intros H. right. change (last ("" :: p :: ps)) with (last (p :: ps)) in H.
    destruct (IH H) as [->|(s' & ->)].
    + exists "". reflexivity.
    + exists (String sep s'). reflexivity.
  - intros H. right. destruct ps as [|q ps]; [discriminate|].
    change (last (String c p :: q :: ps)) with (last (p :: q :: ps)) in H.
    destruct (IH H) as [->|(s' & ->)]; [discriminate|].
    exists (String c s'). reflexivity.
Qed.

Lemma list_of_rev s :
  list_ascii_of_string (PyStr.rev s) = List.rev (list_ascii_of_string s).
Proof. unfold PyStr.rev. apply list_ascii_of_string_of_list_ascii. Qed.

Lemma list_of_app a b :
  list_ascii_of_string (a +:+ b) = list_ascii_of_string a ++ list_ascii_of_string b.
Proof.
  induction a as [|c a IH]; unfold_append; simpl; [reflexivity | rewrite IH; reflexivity].
Qed.

Lemma string_of_app x y :
  string_of_list_ascii (x ++ y) = (string_of_list_ascii x +:+ string_of_list_ascii y)%string.
Proof.
  induction x as [|c x IH]; simpl; unfold_append; [reflexivity | rewrite IH; reflexivity].
Qed.

Lemma rev_app a b : PyStr.rev (a +:+ b) = (PyStr.rev b +:+ PyStr.rev a)%string.
Proof.
  unfold PyStr.rev. rewrite list_of_app, rev_app_distr, string_of_app. reflexivity.
Qed.

Lemma rev_rev s : PyStr.rev (PyStr.rev s) = s.
Proof.
  unfold PyStr.rev. rewrite list_ascii_of_string_of_list_ascii, rev_involutive.
  apply string_of_list_ascii_of_string.
Qed.

Lemma rev_String c s : PyStr.rev (String c s) = (PyStr.rev s +:+ String c "")%string.
Proof. change (String c s) with (String c "" +:+ s)%string. apply rev_app. Qed.

Lemma rev_snoc c s : PyStr.rev (s +:+ String c "") = String c (PyStr.rev s).
Proof. rewrite rev_app. reflexivity. Qed.

Lemma has_char_rev c s : has_char c (PyStr.rev s) = has_char c s.
Proof.
  induction s as [|x s IH]; [reflexivity|].
  rewrite rev_String, has_char_app, IH. simpl. rewrite orb_false_r. apply orb_comm.
Qed.

Lemma lstrip_head c s t : PyStr.lstrip c s <> String c t.
Proof.
  induction s as [|x s IH]; simpl; [discriminate|].
  destruct (Ascii.eqb_spec x c) as [->|Hx]; [exact IH | congruence].
Qed.

Lemma has_char_lstrip d c s : has_char d s = false -> has_char d (PyStr.lstrip c s) = false.
Proof.
  induction s as [|x s IH]; simpl; [reflexivity|].
  intros H. apply orb_false_iff in H as [Hx Hs].
  destruct (Ascii.eqb x c); [auto|]. simpl. rewrite Hx, Hs. reflexivity.
Qed.

(** What [rstrip] gives does not end with the character. *)
Lemma rstrip_end c s t : PyStr.rstrip c s <> (t +:+ String c "")%string.
Proof.
  unfold PyStr.rstrip. intros H. apply (f_equal PyStr.rev) in H.
  rewrite rev_rev, rev_snoc in H. exact (lstrip_head _ _ _ H).
Qed.

Lemma has_char_rstrip d c s : has_char d s = false -> has_char d (PyStr.rstrip c s) = false.
Proof.
  intros H. unfold PyStr.rstrip. rewrite has_char_rev. apply has_char_lstrip.
  rewrite has_char_rev. exact H.
Qed.

Lemma rstrip_snoc c s : PyStr.rstrip c (s +:+ String c "") = PyStr.rstrip c s.
Proof. unfold PyStr.rstrip. rewrite rev_snoc. simpl. rewrite Ascii.eqb_refl. reflexivity. Qed.

Lemma rstrip_other c d s :
  d <> c -> PyStr.rstrip c (s +:+ String d "") = (s +:+ String d "")%string.
Proof.
  intros H. unfold PyStr.rstrip. rewrite rev_snoc. simpl.
  apply Ascii.eqb_neq in H. rewrite H. rewrite <- rev_snoc. apply rev_rev.
Qed.

Lemma string_snoc s : s <> "" -> exists s' d, s = (s' +:+ String d "")%string.
Proof.
  induction s as [|c s IH]; [congruence|]. intros _.
  destruct s as [|c' s].
  - exists "", c. reflexivity.
  - destruct IH as (s' & d & E); [discriminate|]. exists (String c s'), d.
    rewrite append_String, <- E. reflexivity.
Qed.

Lemma slashes_snoc n : slashes (S n) = (slashes n +:+ "/")%string.
Proof.
  induction n as [|n IH]; [reflexivity|].
  change (String "/" (slashes (S n)) = String "/" (slashes n) +:+ "/")%string.
  rewrite append_String. f_equal. exact IH.
Qed.

Lemma rstrip_slashes s n : PyStr.rstrip "/" (s +:+ slashes n) = PyStr.rstrip "/" s.
Proof.
  induction n as [|n IH]; [cbn [slashes]; rewrite append_nil_r; reflexivity|].
  rewrite slashes_snoc, <- append_assoc, rstrip_snoc. exact IH.
Qed.

Lemma rstrip_segment s t :
  t <> "" -> has_char "/" t = false -> PyStr.rstrip "/" (s +:+ t) = (s +:+ t)%string.
Proof.
  intros Ht Hc. destruct (string_snoc t Ht) as (t' & d & ->).
  rewrite <- append_assoc. apply rstrip_other.
  intros ->. rewrite has_char_app in Hc. simpl in Hc.
  rewrite orb_true_r in Hc. discriminate.
Qed.

Lemma break_stop (p : ascii -> bool) a c0 b :
  (forall c, p c = true -> has_char c a = false) -> p c0 = true ->
  Url.break p (a +:+ String c0 b) = (a, String c0 b).
Proof.
  intros Ha Hc0. induction a as [|x a IH]; unfold_append; simpl.
  - rewrite Hc0. reflexivity.
  - destruct (p x) eqn:Hx.
    + specialize (Ha x Hx). simpl in Ha. rewrite Ascii.eqb_refl in Ha. discriminate.
    + rewrite IH; [reflexivity|]. intros c Hc. specialize (Ha c Hc). simpl in Ha.
      apply orb_false_iff in Ha. tauto.
Qed.

Lemma break_all (p : ascii -> bool) a :
  (forall c, p c = true -> has_char c a = false) -> Url.break p a = (a, "").
Proof.
  intros Ha. induction a as [|x a IH]; simpl; [reflexivity|].
  destruct (p x) eqn:Hx.
  - specialize (Ha x Hx). simpl in Ha. rewrite Ascii.eqb_refl in Ha. discriminate.
  - rewrite IH; [reflexivity|]. intros c Hc. specialize (Ha c Hc). simpl in Ha.
    apply orb_false_iff in Ha. tauto.
Qed.

Lemma break_fst (p : ascii -> bool) s c :
  p c = true -> has_char c (fst (Url.break p s)) = false.
Proof.
  intros Hc. induction s as [|x s IH]; simpl; [reflexivity|].
  destruct (p x) eqn:Hx; [reflexivity|].
  destruct (Url.break p s) as [a b]. simpl in *. rewrite IH, orb_false_r.
  apply Ascii.eqb_neq. intros ->. congruence.
Qed.

(** The parts of a URL are the segments of a path without question mark
    or hash that does not end with a slash. *)
Lemma _url_parts_path url parts :
  _url_parts url = Ok parts ->
  exists path, has_char "?" path = false /\ has_char "#" path = false /\
    parts = PyStr.split "/" (PyStr.rstrip "/" path).
Proof.
  unfold _url_parts, Url.urlparse.
  destruct (match Url.strip_scheme url with
            | String "/" (String "/" r) =>
                Url.break (fun c => (Url.is_char "/" c || Url.is_char "?" c
                                     || Url.is_char "#" c)%bool) r
            | _ => (EmptyString, Url.strip_scheme url)
            end) as [netloc rest] eqn:E.
  destruct (String.eqb netloc ""); [discriminate|].
  intros [= <-]. eexists. split; [|split; [|reflexivity]]; apply break_fst; reflexivity.
Qed.

Lemma list_index_split x parts i :
  list_index x parts = Some i ->
  exists before after, parts = before ++ x :: after /\ length before = i /\ x ∉ before.
Proof.
  revert i. induction parts as [|p ps IH]; intros i; simpl; [discriminate|].
  destruct (String.eqb_spec p x) as [->|Hp].
  - intros [= <-]. exists [], ps. split; [reflexivity|]. split; [reflexivity|].
    apply not_elem_of_nil.
  - destruct (list_index x ps) as [j|]; [|discriminate]. intros [= <-].
    destruct (IH j eq_refl) as (before & after & -> & Hlen & Hnot).
    exists (p :: before), after. split; [reflexivity|]. split; [simpl; lia|].
    apply not_elem_of_cons. split; [congruence | exact Hnot].
Qed.

Lemma segment_spec s :
  segment s = true <->
  has_char "/" s = false /\ has_char "?" s = false /\ has_char "#" s = false.
Proof.
  unfold segment. rewrite negb_true_iff, !orb_false_iff. tauto.
Qed.

(** *** The identifier that [id_from_url] returns *)

Lemma id_from_url_parts url id :
  id_from_url url = Ok id ->
  exists before sid title path,
    _url_parts url = Ok (before ++ ["comments"; sid; title; id]) /\
    ("comments" ∉ before) /\
    has_char "?" path = false /\ has_char "#" path = false /\
    before ++ ["comments"; sid; title; id] = PyStr.split "/" (PyStr.rstrip "/" path).
Proof.
  intros H. destruct (id_from_url_ok url id H) as (parts & i & Hparts & Hidx & Hlen & Hlast).
  destruct (list_index_split _ _ _ Hidx) as (before & after & -> & Hbefore & Hnot).
  rewrite length_app in Hlen. simpl in Hlen.
  destruct after as [|sid [|title [|x [|y after]]]]; simpl in Hlen; try lia.
  assert (x = id) as ->.
  { rewrite last_app in Hlast. simpl in Hlast. congruence. }
  destruct (_url_parts_path url _ Hparts) as (path & Hq & Hh & Esplit).
  exists before, sid, title, path. auto.
Qed.

Lemma id_from_url_not_empty url id : id_from_url url = Ok id -> id <> "".
Proof.
  intros H. destruct (id_from_url_parts url id H) as (before & sid & title & path & _ & _ & _ & _ & Esplit).
  intros ->.
  assert (Hl : last (PyStr.split "/" (PyStr.rstrip "/" path)) = Some "").
  { rewrite <- Esplit. rewrite last_app. reflexivity. }
  destruct (last_split_empty _ _ Hl) as [E|(s' & E)].
  - rewrite E in Esplit. apply (f_equal length) in Esplit.
    rewrite length_app in Esplit. simpl in Esplit. lia.
  - exact (rstrip_end _ _ _ E).
Qed.

(** X1: whenever [id_from_url] returns, the identifier is the last part
    of the URL and the third after the first part that is [comments]; it
    is not empty and has no slash, question mark or hash in it. *)
Theorem id_from_url_segment url id :
  id_from_url url = Ok id ->
  id <> "" /\ segment id = true /\
  exists before sid title,
    _url_parts url = Ok (before ++ ["comments"; sid; title; id]) /\
    "comments" ∉ before.
Proof.
  intros H. split; [exact (id_from_url_not_empty url id H)|].
  destruct (id_from_url_parts url id H)
    as (before & sid & title & path & Hparts & Hnot & Hq & Hh & Esplit).
  assert (Hin : id ∈ PyStr.split "/" (PyStr.rstrip "/" path)).
  { rewrite <- Esplit. rewrite elem_of_app, !elem_of_cons. auto 10. }
  split.
  - apply segment_spec. split; [|split].
    + pose proof (split_no_sep "/" (PyStr.rstrip "/" path)) as Hall.
      rewrite Forall_forall in Hall. exact (Hall _ Hin).
    + pose proof (split_has_char "?" "/" _ (has_char_rstrip "?" "/" _ Hq)) as Hall.
      rewrite Forall_forall in Hall. exact (Hall _ Hin).
    + pose proof (split_has_char "#" "/" _ (has_char_rstrip "#" "/" _ Hh)) as Hall.
      rewrite Forall_forall in Hall. exact (Hall _ Hin).
  - exists before, sid, title. split; [exact Hparts | exact Hnot].
Qed.

Lemma id_from_url_segment_witness :
  "cklhv0f" <> "" /\ segment "cklhv0f" = true /\
  exists before sid title,
    _url_parts "https://www.reddit.com/r/redditdev/comments/2gmzqe/_/cklhv0f?context=3" =
      Ok (before ++ ["comments"; sid; title; "cklhv0f"]) /\
    "comments" ∉ before.
Proof.
  apply (id_from_url_segment
           "https://www.reddit.com/r/redditdev/comments/2gmzqe/_/cklhv0f?context=3").
  reflexivity.
Defined.

Lemma has_char_String c x s :
  has_char c (String x s) = (Ascii.eqb x c || has_char c s)%bool.
Proof. reflexivity. Qed.

Lemma join_path_app a b : join_path (a ++ b) = (join_path a +:+ join_path b)%string.
Proof.
  induction a as [|p a IH]; [reflexivity|].
  change (join_path ((p :: a) ++ b)) with (String "/" (p +:+ join_path (a ++ b)))%string.
  change (join_path (p :: a)) with (String "/" (p +:+ join_path a))%string.
  rewrite IH, append_String, append_assoc. reflexivity.
Qed.

Lemma has_char_join_path c segments :
  c <> "/"%char -> Forall (fun p => has_char c p = false) segments ->
  has_char c (join_path segments) = false.
Proof.
  intros Hc. induction 1 as [|p ps Hp _ IH]; [reflexivity|].
  change (join_path (p :: ps)) with (String "/" (p +:+ join_path ps))%string.
  rewrite has_char_String, has_char_app, Hp, IH.
  destruct (Ascii.eqb_spec "/" c); [congruence | reflexivity].
Qed.

Lemma has_char_slashes c n : c <> "/"%char -> has_char c (slashes n) = false.
Proof.
  intros Hc. induction n as [|n IH]; [reflexivity|].
  change (slashes (S n)) with (String "/" (slashes n)). rewrite has_char_String, IH.
  destruct (Ascii.eqb_spec "/" c); [congruence | reflexivity].
Qed.

(** The segments of a path are the parts it splits into, after the empty
    part before its first slash. *)
Lemma split_join_path s segments :
  has_char "/" s = false -> Forall (fun p => has_char "/" p = false) segments ->
  PyStr.split "/" (s +:+ join_path segments) = s :: segments.
Proof.
  intros Hs H. revert s Hs. induction H as [|p ps Hp _ IH]; intros s Hs.
  - change (join_path []) with "". rewrite append_nil_r. apply split_segment, Hs.
  - change (join_path (p :: ps)) with (String "/" (p +:+ join_path ps))%string.
    rewrite split_app by exact Hs. rewrite IH by exact Hp. reflexivity.
Qed.

Lemma list_index_app x before after :
  x ∉ before -> list_index x (before ++ x :: after) = Some (length before).
Proof.
  induction before as [|p ps IH]; intros H; simpl.
  - rewrite String.eqb_refl. reflexivity.
  - apply not_elem_of_cons in H as [Hp Hps].
    destruct (String.eqb_spec p x); [congruence|]. rewrite (IH Hps). reflexivity.
Qed.

(** The network location and the path of a permalink. *)
Lemma urlparse_permalink scheme host prefix sid title cid trailing rest :
  scheme = "http" \/ scheme = "https" ->
  segment host = true ->
  Forall (fun p => segment p = true) (prefix ++ ["comments"; sid; title; cid]) ->
  (rest = "" \/ exists q, rest = String "?" q \/ rest = String "#" q) ->
  Url.urlparse (permalink scheme host prefix sid title cid trailing rest) =
    (host, (join_path (prefix ++ ["comments"; sid; title; cid]) +:+ slashes trailing)%string).
Proof.
  intros Hscheme Hhost Hsegs Hrest. unfold permalink.
  set (segs := prefix ++ ["comments"; sid; title; cid]) in *.
  assert (Hstrip : Url.strip_scheme
            (scheme +:+ "://" +:+ host +:+ join_path segs +:+ slashes trailing +:+ rest) =
          String "/" (String "/" (host +:+ join_path segs +:+ slashes trailing +:+ rest))).
  { destruct Hscheme as [-> | ->]; reflexivity. }
  unfold Url.urlparse. rewrite Hstrip.
  assert (Hjoin : exists p ps, segs = p :: ps).
  { unfold segs. destruct prefix; simpl; eauto. }
  destruct Hjoin as (p & ps & Eseg).
  apply segment_spec in Hhost as (Hh1 & Hh2 & Hh3).
  assert (Hbreak : forall tail,
    Url.break (fun c => (Url.is_char "/" c || Url.is_char "?" c || Url.is_char "#" c)%bool)
      (host +:+ join_path segs +:+ tail) = (host, (join_path segs +:+ tail)%string)).
  { intros tail. rewrite Eseg.
    change (join_path (p :: ps)) with (String "/" (p +:+ join_path ps))%string.
    rewrite append_String. apply break_stop; [|reflexivity].
    intros c Hc. unfold Url.is_char in Hc.
    destruct (Ascii.eqb_spec "/" c) as [E|_]; [rewrite <- E; exact Hh1|].
    destruct (Ascii.eqb_spec "?" c) as [E|_]; [rewrite <- E; exact Hh2|].
    destruct (Ascii.eqb_spec "#" c) as [E|_]; [rewrite <- E; exact Hh3|]. discriminate. }
  rewrite Hbreak. f_equal.
  assert (Hpath : forall c, (Url.is_char "#" c || Url.is_char "?" c)%bool = true ->
    has_char c (join_path segs +:+ slashes trailing) = false).
  { intros c Hc. unfold Url.is_char in Hc.
    assert (Hne : c <> "/"%char).
    { intros ->. discriminate. }
    rewrite has_char_app, has_char_slashes, orb_false_r by exact Hne.
    apply has_char_join_path; [exact Hne|].
    eapply Forall_impl; [exact Hsegs|]. intros q Hq. simpl in Hq.
    apply segment_spec in Hq as (_ & Hq2 & Hq3).
    destruct (Ascii.eqb_spec "#" c) as [E|_]; [rewrite <- E; exact Hq3|].
    destruct (Ascii.eqb_spec "?" c) as [E|_]; [rewrite <- E; exact Hq2|]. discriminate. }
  rewrite <- append_assoc.
  destruct Hrest as [-> | (q & [-> | ->])].
  - rewrite append_nil_r, break_all by exact Hpath. reflexivity.
  - rewrite break_stop by (exact Hpath || reflexivity). reflexivity.
  - rewrite break_stop by (exact Hpath || reflexivity). reflexivity.
Qed.

Lemma unreserved_has_char c s :
  unreserved c = false -> unreserved_text s = true -> has_char c s = false.
Proof.
  intros Hc. unfold unreserved_text. induction s as [|x s IH]; [reflexivity|].
  cbn [list_ascii_of_string forallb]. intros H. apply andb_true_iff in H as [Hx Hs].
  rewrite has_char_String, (IH Hs), orb_false_r.
  apply Ascii.eqb_neq. intros ->. congruence.
Qed.

Lemma unreserved_segment s : unreserved_text s = true -> segment s = true.
Proof.
  intros H. apply segment_spec.
  split; [|split]; apply unreserved_has_char; auto.
Qed.

(** X2: on the permalink of a comment over [http] or [https], whose
    host, segments before [comments], identifier of the submission, title
    and identifier of the comment are made of unreserved characters
    (letters, digits, hyphen, dot, underscore, tilde), [id_from_url]
    returns the identifier of the comment, whatever the number of
    trailing slashes and the query or fragment after the path. *)
Theorem id_from_url_permalink scheme host prefix sid title cid trailing rest :
  scheme = "http" \/ scheme = "https" ->
  host <> "" -> unreserved_text host = true ->
  Forall (fun p => unreserved_text p = true) prefix -> "comments" ∉ prefix ->
  unreserved_text sid = true -> unreserved_text title = true ->
  unreserved_text cid = true -> cid <> "" ->
  (rest = "" \/
   exists q, (rest = String "?" q \/ rest = String "#" q) /\ printable_text q = true) ->
  id_from_url (permalink scheme host prefix sid title cid trailing rest) = Ok cid.
Proof.
  intros Hscheme Hne Hhost Hprefix Hnot Hsid Htitle Hcid Hcne Hrest.
  apply unreserved_segment in Hhost, Hsid, Htitle, Hcid.
  assert (Hprefix' : Forall (fun p => segment p = true) prefix).
  { eapply Forall_impl; [exact Hprefix|]. intros p. apply unreserved_segment. }
  assert (Hrest' : rest = "" \/ exists q, rest = String "?" q \/ rest = String "#" q).
  { destruct Hrest as [->|(q & Hq & _)]; eauto. }
  clear Hprefix Hrest.
  assert (Hsegs : Forall (fun p => segment p = true) (prefix ++ ["comments"; sid; title; cid])).
  { apply Forall_app. split; [exact Hprefix'|]. repeat constructor; assumption. }
  unfold id_from_url, _url_parts.
  rewrite (urlparse_permalink _ _ _ _ _ _ trailing rest Hscheme Hhost Hsegs Hrest').
  apply String.eqb_neq in Hne. rewrite Hne.
  rewrite rstrip_slashes.
  assert (Hslash : Forall (fun p => has_char "/" p = false)
                     (prefix ++ ["comments"; sid; title; cid])).
  { eapply Forall_impl; [exact Hsegs|]. intros p Hp. simpl in Hp.
    apply segment_spec in Hp. tauto. }
  assert (Estrip : PyStr.rstrip "/" (join_path (prefix ++ ["comments"; sid; title; cid])) =
                   join_path (prefix ++ ["comments"; sid; title; cid])).
  { replace (prefix ++ ["comments"; sid; title; cid])
      with ((prefix ++ ["comments"; sid; title]) ++ [cid])
      by (rewrite <- app_assoc; reflexivity).
    rewrite join_path_app.
    change (join_path [cid]) with (String "/" (cid +:+ ""))%string.
    rewrite append_nil_r.
    change (String "/" cid) with ("/" +:+ cid)%string.
    rewrite <- append_assoc. apply rstrip_segment; [exact Hcne|].
    apply segment_spec in Hcid. tauto. }
  rewrite Estrip.
  pose proof (split_join_path "" _ eq_refl Hslash) as Esplit.
  rewrite append_nil_l in Esplit. rewrite Esplit.
  change ("" :: prefix ++ ["comments"; sid; title; cid])
    with (("" :: prefix) ++ "comments" :: [sid; title; cid]).
  rewrite list_index_app.
  2:{ apply not_elem_of_cons. split; [discriminate | exact Hnot]. }
  rewrite length_app.
  replace (Z.of_nat (length ("" :: prefix) + length ["comments"; sid; title; cid]) - 4
           =? Z.of_nat (length ("" :: prefix))) with true
    by (symmetry; apply Z.eqb_eq; simpl; lia).
  cbn [negb]. rewrite last_app. reflexivity.
Qed.

Lemma id_from_url_permalink_witness :
  id_from_url
    (permalink "https" "old.reddit.com" ["r"; "redditdev"] "2gmzqe" "a_title" "cklhv0f"
       2 "?context=3#top") = Ok "cklhv0f".
Proof.
  apply id_from_url_permalink.
  - right. reflexivity.
  - discriminate.
  - reflexivity.
  - repeat constructor.
  - apply (bool_decide_unpack _). vm_compute. exact I.
  - reflexivity.
  - reflexivity.
  - reflexivity.
  - discriminate.
  - right. exists "context=3#top". split; [left|]; reflexivity.
Defined.

(** *** Comments made from a URL, and from an identifier that is empty *)

(** X3: a comment made from a URL is the comment made from the
    identifier that [id_from_url] finds in the URL: not fetched, without
    reply or submission, and no request is made.  When [id_from_url]
    raises, the constructor raises the same exception, returns no
    comment and leaves the objects and the requests as they were. *)
Theorem Comment_from_url reddit fuel url σ :
  url <> "" ->
  (forall id, id_from_url url = Ok id ->
     Comment___init__ reddit fuel VNone (VStr url) VNone σ =
       (Ok (length (heap σ)),
        State (heap σ ++ [shallow_comment (VStr id)]) (requests σ)) /\
     Comment___init__ reddit fuel VNone (VStr url) VNone σ =
       Comment___init__ reddit fuel (VStr id) VNone VNone σ) /\
  (forall e, id_from_url url = Raise e ->
     exists σ', Comment___init__ reddit fuel VNone (VStr url) VNone σ = (Raise e, σ') /\
       requests σ' = requests σ /\
       forall l o, heap σ !! l = Some o -> heap σ' !! l = Some o).
Proof.
  intros Hurl. apply String.eqb_neq in Hurl. destruct σ as [h r]. split.
  - intros id Hid.
    assert (E : Comment___init__ reddit fuel VNone (VStr url) VNone (State h r) =
                (Ok (length h), State (h ++ [shallow_comment (VStr id)]) r)).
    { unfold Comment___init__, count_not_None. simpl.
      unfold mbind, M_bind, mret, M_ret, alloc. simpl.
      rewrite !store_last. simpl. rewrite Hurl. simpl.
      unfold lift. rewrite Hid. rewrite store_last. simpl.
      unfold RedditBase___init__. unfold mbind, M_bind, mret, M_ret. simpl.
      rewrite store_last. rewrite deref_last. reflexivity. }
    split; [exact E|]. rewrite E. symmetry.
    apply (Comment_init_id reddit fuel (VStr id) (State h r)).
    apply truthy_VStr, (id_from_url_not_empty url id Hid).
  - intros e He. eexists. split; [|split].
    + unfold Comment___init__, count_not_None. simpl.
      unfold mbind, M_bind, mret, M_ret, alloc. simpl.
      rewrite !store_last. simpl. rewrite Hurl. simpl.
      unfold lift. rewrite He. reflexivity.
    + reflexivity.
    + intros l o Hl. simpl in *. apply lookup_app_l_Some. exact Hl.
Qed.

Lemma Comment_from_url_witness :
  Comment___init__ test_reddit 1 VNone (VStr "https://reddit.com/comments/2gmzqe/_/cklhv0f/")
    VNone empty_state =
    (Ok 0%nat, State [shallow_comment (VStr "cklhv0f")] []) /\
  exists σ',
    Comment___init__ test_reddit 1 VNone (VStr "https://redd.it/2gmzqe") VNone empty_state =
      (Raise (InvalidURL "https://redd.it/2gmzqe"), σ') /\
    requests σ' = [].
Proof.
  split.
  - apply (Comment_from_url test_reddit 1 "https://reddit.com/comments/2gmzqe/_/cklhv0f/"
             empty_state); [discriminate | reflexivity].
  - destruct (Comment_from_url test_reddit 1 "https://redd.it/2gmzqe" empty_state)
      as (_ & Herr); [discriminate|].
    destruct (Herr (InvalidURL "https://redd.it/2gmzqe")) as (σ' & E & Hr & _);
      [reflexivity|].
    exists σ'. split; [exact E | exact Hr].
Defined.

(** X4: an identifier or a URL that is given but empty (or false in any
    other way) makes the constructor of [Comment] raise a [ValueError]:
    the comment is left without identifier.  No request is made. *)
Theorem Comment_invalid_value reddit fuel v σ :
  is_None v = false -> truthy v = false ->
  exists msg σ1 σ2,
    Comment___init__ reddit fuel v VNone VNone σ = (Raise (ValueError msg), σ1) /\
    Comment___init__ reddit fuel VNone v VNone σ = (Raise (ValueError msg), σ2) /\
    requests σ1 = requests σ /\ requests σ2 = requests σ.
Proof.
  intros Hn Ht. destruct σ as [h r]. do 3 eexists.
  unfold Comment___init__, count_not_None. simpl. rewrite Hn. simpl.
  unfold mbind, M_bind, mret, M_ret, alloc. simpl.
  rewrite !store_last. simpl. rewrite Ht. simpl.
  unfold RedditBase___init__. unfold mbind, M_bind, mret, M_ret. simpl.
  rewrite store_last. rewrite deref_last. simpl.
  repeat split; reflexivity.
Qed.

Lemma Comment_invalid_value_witness :
  exists msg σ1 σ2,
    Comment___init__ test_reddit 1 (VStr "") VNone VNone empty_state =
      (Raise (ValueError msg), σ1) /\
    Comment___init__ test_reddit 1 VNone (VStr "") VNone empty_state =
      (Raise (ValueError msg), σ2) /\
    requests σ1 = [] /\ requests σ2 = [].
Proof.
  apply (Comment_invalid_value test_reddit 1 (VStr "") empty_state); reflexivity.
Defined.

(** *** Redditors made from a fullname *)

(** X5: a redditor made from a fullname keeps it as [_fullname] and has
    no [name] yet; it is not fetched and no request is made.  A name or a
    fullname that is given but empty makes the constructor raise a
    [ValueError]. *)
Theorem Redditor_from_fullname reddit σ :
  (forall fullname, truthy fullname = true ->
     Redditor___init__ reddit VNone fullname VNone σ =
       (Ok (length (heap σ)),
        State (heap σ ++ [fullnamed_redditor fullname]) (requests σ)) /\
     __dict__ (fullnamed_redditor fullname) !! "name" = None) /\
  (forall v, is_None v = false -> truthy v = false ->
     exists msg σ1 σ2,
       Redditor___init__ reddit v VNone VNone σ = (Raise (ValueError msg), σ1) /\
       Redditor___init__ reddit VNone v VNone σ = (Raise (ValueError msg), σ2) /\
       requests σ1 = requests σ /\ requests σ2 = requests σ).
Proof.
  destruct σ as [h r]. split.
  - intros fullname Ht. split; [|reflexivity].
    assert (Hn : is_None fullname = false) by (destruct fullname; try reflexivity; discriminate).
    unfold Redditor___init__, count_not_None. simpl. rewrite Hn. simpl.
    unfold mbind, M_bind, mret, M_ret, alloc. simpl.
    rewrite !store_last. simpl. rewrite Ht. rewrite store_last. simpl.
    unfold RedditBase___init__. unfold mbind, M_bind, mret, M_ret. simpl.
    rewrite store_last. rewrite deref_last. reflexivity.
  - intros v Hn Ht. do 3 eexists.
    unfold Redditor___init__, count_not_None. simpl. rewrite Hn. simpl.
    unfold mbind, M_bind, mret, M_ret, alloc. simpl.
    rewrite !store_last. simpl. rewrite Ht. simpl.
    unfold RedditBase___init__. unfold mbind, M_bind, mret, M_ret. simpl.
    rewrite store_last. rewrite deref_last. simpl.
    repeat split; reflexivity.
Qed.

Lemma Redditor_from_fullname_witness :
  Redditor___init__ test_reddit VNone (VStr "t2_abc") VNone empty_state =
    (Ok 0%nat, State [fullnamed_redditor (VStr "t2_abc")] []) /\
  exists msg σ1,
    Redditor___init__ test_reddit (VStr "") VNone VNone empty_state =
      (Raise (ValueError msg), σ1).
Proof.
  destruct (Redditor_from_fullname test_reddit empty_state) as (Hfull & Hempty).
  split.
  - apply (Hfull (VStr "t2_abc")). reflexivity.
  - destruct (Hempty (VStr "")) as (msg & σ1 & σ2 & E & _); [reflexivity..|].
    exists msg, σ1. exact E.
Defined.

(** *** Root comments *)

Lemma split1_stop sep a b :
  has_char sep a = false -> PyStr.split1 sep (a +:+ String sep b) = [a; b].
Proof.
  induction a as [|c a IH]; unfold_append; simpl.
  - intros _. rewrite Ascii.eqb_refl. reflexivity.
  - intros H. apply orb_false_iff in H as [Hc Ha].
    rewrite Hc, (IH Ha). reflexivity.
Qed.

Lemma split1_segment sep a : has_char sep a = false -> PyStr.split1 sep a = [a].
Proof.
  induction a as [|c a IH]; simpl; [reflexivity|].
  intros H. apply orb_false_iff in H as [Hc Ha].
  rewrite Hc, (IH Ha). reflexivity.
Qed.

(** A text is a part without the separator, alone or followed by the
    separator and the rest. *)
Lemma split1_cases sep s :
  exists p, has_char sep p = false /\
    (s = p \/ exists rest, s = (p +:+ String sep rest)%string).
Proof.
  induction s as [|c s (p & Hp & IH)].
  - exists "". auto.
  - destruct (Ascii.eqb c sep) eqn:Hc.
    + exists "". split; [reflexivity|]. right. exists s.
      apply Ascii.eqb_eq in Hc. subst c. reflexivity.
    + exists (String c p). split; [simpl; rewrite Hc, Hp; reflexivity|].
      destruct IH as [->|(rest & ->)]; [left; reflexivity|].
      right. exists rest. reflexivity.
Qed.

Lemma split1_unique sep a b a' b' :
  has_char sep a = false -> has_char sep a' = false ->
  (a +:+ String sep b = a' +:+ String sep b')%string -> a = a' /\ b = b'.
Proof.
  intros Ha Ha' E. apply (f_equal (PyStr.split1 sep)) in E.
  rewrite !split1_stop in E by assumption. split; congruence.
Qed.

Lemma has_char_stop sep a b : has_char sep (a +:+ String sep b) = true.
Proof.
  rewrite has_char_app, has_char_String, Ascii.eqb_refl. apply orb_true_r.
Qed.

(** X6: [is_root] is true exactly when the [parent_id] of the comment is
    the kind of the submissions, alone or followed by an underscore and
    anything: the fullname of a submission, and not the fullname of a
    comment.  It reads the attribute and changes nothing. *)
Theorem is_root_spec reddit h r self o pid :
  h !! self = Some o -> __dict__ o !! "parent_id" = Some (VStr pid) ->
  has_char "_" (kinds reddit "submission") = false ->
  exists b, is_root reddit self (State h r) = (Ok b, State h r) /\
    (b = true <->
     pid = kinds reddit "submission" \/
     exists rest, pid = (kinds reddit "submission" +:+ "_" +:+ rest)%string).
Proof.
  intros Ho Hpid Hkind. set (kind := kinds reddit "submission") in *.
  destruct (split1_cases "_" pid) as (p & Hp & Hcases).
  assert (Hsplit : exists tail, PyStr.split1 "_" pid = p :: tail).
  { destruct Hcases as [->|(rest & ->)].
    - rewrite split1_segment by exact Hp. eauto.
    - rewrite split1_stop by exact Hp. eauto. }
  destruct Hsplit as (tail & Hsplit).
  exists (String.eqb p kind). split.
  - unfold is_root.
    rewrite (bind_Ok _ _ _ _ _ (getattr_at reddit h r self o _ _ Ho Hpid)).
    cbn [as_str]. rewrite ret_bind. rewrite Hsplit. reflexivity.
  - rewrite String.eqb_eq. split.
    + intros <-. destruct Hcases as [->|(rest & ->)]; eauto.
    + intros [E|(rest & E)];
        [|change (pid = kind +:+ String "_" rest)%string in E];
        destruct Hcases as [E'|(rest' & E')].
      * congruence.
      * exfalso. rewrite E' in E. rewrite <- E, has_char_stop in Hkind. discriminate.
      * exfalso. rewrite E' in E. rewrite E, has_char_stop in Hp. discriminate.
      * rewrite E' in E. apply split1_unique in E; [tauto | assumption..].
Qed.

Lemma is_root_spec_witness :
  exists b,
    is_root test_reddit 1%nat (State test_heap []) = (Ok b, State test_heap []) /\
    (b = true <->
     "t3_2gmzqe" = "t3" \/ exists rest, "t3_2gmzqe" = ("t3" +:+ "_" +:+ rest)%string).
Proof.
  apply (is_root_spec test_reddit test_heap [] 1%nat (test_comment "a" "t3_2gmzqe" 0));
    reflexivity.
Defined.

(** *** The submission of a comment *)

Lemma rsplit_O sep s : PyStr.rsplit sep 0 s = [s].
Proof. unfold PyStr.rsplit. simpl. rewrite rev_rev. reflexivity. Qed.

Lemma rsplit_snoc sep n s t :
  has_char sep t = false ->
  PyStr.rsplit sep (S n) (s +:+ String sep t) = PyStr.rsplit sep n s ++ [t].
Proof.
  intros Ht. unfold PyStr.rsplit.
  assert (E : PyStr.rev (s +:+ String sep t) = (PyStr.rev t +:+ String sep (PyStr.rev s))%string).
  { rewrite rev_app, rev_String, append_assoc. reflexivity. }
  rewrite E. cbn [PyStr.rsplit_rev].
  rewrite split1_stop by (rewrite has_char_rev; exact Ht).
  cbn [List.map List.rev]. rewrite rev_rev. reflexivity.
Qed.

Lemma rsplit_segment sep n s :
  has_char sep s = false -> PyStr.rsplit sep n s = [s].
Proof.
  intros Hs. unfold PyStr.rsplit. destruct n as [|n]; cbn [PyStr.rsplit_rev].
  - simpl. rewrite rev_rev. reflexivity.
  - rewrite split1_segment by (rewrite has_char_rev; exact Hs).
    simpl. rewrite rev_rev. reflexivity.
Qed.

Lemma rsplit_context pre sid title cid rest :
  has_char "/" sid = false -> has_char "/" title = false ->
  has_char "/" cid = false -> has_char "/" rest = false ->
  PyStr.rsplit "/" 4
    (pre +:+ "/" +:+ sid +:+ "/" +:+ title +:+ "/" +:+ cid +:+ "/" +:+ rest) =
  [pre; sid; title; cid; rest].
Proof.
  intros Hsid Htitle Hcid Hrest.
  replace (pre +:+ "/" +:+ sid +:+ "/" +:+ title +:+ "/" +:+ cid +:+ "/" +:+ rest)%string
    with ((((pre +:+ String "/" sid) +:+ String "/" title) +:+ String "/" cid)
            +:+ String "/" rest)%string
    by (rewrite !append_assoc; reflexivity).
  rewrite !rsplit_snoc by assumption. rewrite rsplit_O. reflexivity.
Qed.

(** X7: the identifier of the submission of a comment is read off its
    [context], when it has one: the segment before the title, the
    identifier of the comment and what follows.  Otherwise it is its
    [link_id] without the kind, and a [link_id] without underscore is an
    [IndexError], as is a [context] without slash.  Nothing is changed. *)
Theorem extract_submission_id_spec reddit h r self o :
  h !! self = Some o ->
  (forall pre sid title cid rest,
     __dict__ o !! "context" =
       Some (VStr (pre +:+ "/" +:+ sid +:+ "/" +:+ title +:+ "/" +:+ cid +:+ "/" +:+ rest)) ->
     has_char "/" sid = false -> has_char "/" title = false ->
     has_char "/" cid = false -> has_char "/" rest = false ->
     _extract_submission_id reddit self (State h r) = (Ok sid, State h r)) /\
  (forall context,
     __dict__ o !! "context" = Some (VStr context) -> has_char "/" context = false ->
     _extract_submission_id reddit self (State h r) = (Raise IndexError, State h r)) /\
  (forall kind id,
     __dict__ o !! "context" = None ->
     __dict__ o !! "link_id" = Some (VStr (kind +:+ "_" +:+ id)) ->
     has_char "_" kind = false ->
     _extract_submission_id reddit self (State h r) = (Ok id, State h r)) /\
  (forall link_id,
     __dict__ o !! "context" = None ->
     __dict__ o !! "link_id" = Some (VStr link_id) -> has_char "_" link_id = false ->
     _extract_submission_id reddit self (State h r) = (Raise IndexError, State h r)).
Proof.
  intros Ho.
  assert (Hcontext : forall c,
    __dict__ o !! "context" = Some (VStr c) ->
    _extract_submission_id reddit self (State h r) =
      nth_part (PyStr.rsplit "/" 4 c) 1 (State h r)).
  { intros c Hc. unfold _extract_submission_id.
    rewrite (bind_Ok _ _ _ _ _ (in_dict_at h r self o "context" Ho)).
    rewrite Hc. rewrite bool_decide_eq_true_2 by eauto.
    rewrite (bind_Ok _ _ _ _ _ (getattr_at reddit h r self o _ _ Ho Hc)).
    cbn [as_str]. rewrite ret_bind. reflexivity. }
  assert (Hlink : forall l,
    __dict__ o !! "context" = None -> __dict__ o !! "link_id" = Some (VStr l) ->
    _extract_submission_id reddit self (State h r) =
      nth_part (PyStr.split1 "_" l) 1 (State h r)).
  { intros l Hc Hl. unfold _extract_submission_id.
    rewrite (bind_Ok _ _ _ _ _ (in_dict_at h r self o "context" Ho)).
    rewrite Hc. rewrite bool_decide_eq_false_2 by (intros [? ?]; discriminate).
    rewrite (bind_Ok _ _ _ _ _ (getattr_at reddit h r self o _ _ Ho Hl)).
    cbn [as_str]. rewrite ret_bind. reflexivity. }
  split; [|split; [|split]].
  - intros pre sid title cid rest Hc Hsid Htitle Hcid Hrest.
    rewrite (Hcontext _ Hc), rsplit_context by assumption. reflexivity.
  - intros context Hc Hs.
    rewrite (Hcontext _ Hc), rsplit_segment by assumption. reflexivity.
  - intros kind id Hc Hl Hk.
    rewrite (Hlink _ Hc Hl).
    change (kind +:+ "_" +:+ id)%string with (kind +:+ String "_" id)%string.
    rewrite split1_stop by exact Hk. reflexivity.
  - intros link_id Hc Hl Hk.
    rewrite (Hlink _ Hc Hl), split1_segment by exact Hk. reflexivity.
Qed.

Lemma extract_submission_id_spec_witness :
  _extract_submission_id test_reddit 0 (State inbox_heap []) =
    (Ok "2gmzqe", State inbox_heap []) /\
  _extract_submission_id test_reddit 1 (State inbox_heap []) =
    (Ok "2gmzqe", State inbox_heap []).
Proof.
  split.
  - refine (proj1 (extract_submission_id_spec test_reddit inbox_heap [] 0%nat _ eq_refl)
              "/r/redditdev/comments" "2gmzqe" "_" "cklhv0f" "?context=3" _ _ _ _ _);
      reflexivity.
  - refine (proj1 (proj2 (proj2
              (extract_submission_id_spec test_reddit inbox_heap [] 1%nat _ eq_refl)))
              "t3" "2gmzqe" _ _ _); reflexivity.
Defined.

(** X8: the first read of [submission] on a comment that has none yet
    makes the submission from the identifier that
    [_extract_submission_id] gives, with one call of [reddit.submission],
    and keeps it in [_submission]; the second read returns the same
    submission and calls nothing. *)
Theorem submission_lazy reddit h r self o none id s h1 r1 :
  h !! self = Some o ->
  __dict__ o !! "_submission" = Some none -> truthy none = false ->
  _extract_submission_id reddit self (State h r) = (Ok id, State h r) ->
  reddit_submission reddit (VStr id) (State h r) = (Ok (VRef s), State h1 r1) ->
  h1 !! self = Some o ->
  let h2 := <[self := with_attr o "_submission" (VRef s)]> h1 in
  submission reddit self (State h r) = (Ok (VRef s), State h2 r1) /\
  submission reddit self (State h2 r1) = (Ok (VRef s), State h2 r1).
Proof.
  intros Ho Hsub Hnone Hid Hmake Ho1 h2.
  assert (Ho2 : h2 !! self = Some (with_attr o "_submission" (VRef s))).
  { unfold h2. eapply lookup_insert_at. exact Ho1. }
  assert (Hsub2 : __dict__ (with_attr o "_submission" (VRef s)) !! "_submission"
                  = Some (VRef s)).
  { unfold with_attr. simpl. apply lookup_insert_eq. }
  split.
  - unfold submission.
    rewrite (bind_Ok _ _ _ _ _ (getattr_at reddit h r self o _ _ Ho Hsub)).
    rewrite Hnone. cbn [negb]. rewrite !bind_assoc.
    rewrite (bind_Ok _ _ _ _ _ Hid). rewrite bind_assoc.
    rewrite (bind_Ok _ _ _ _ _ Hmake).
    rewrite (bind_Ok _ _ _ _ _ (store_at h1 r1 self o _ _ Ho1)).
    apply (getattr_at reddit _ r1 self _ _ _ Ho2 Hsub2).
  - apply (submission_at reddit h2 r1 self _ s Ho2 Hsub2).
Qed.

Lemma submission_lazy_witness :
  exists h2,
    submission test_reddit 1 (State inbox_heap []) = (Ok (VRef 2), State h2 []) /\
    submission test_reddit 1 (State h2 []) = (Ok (VRef 2), State h2 []) /\
    (exists so, h2 !! 2%nat = Some so /\ __dict__ so !! "id" = Some (VStr "2gmzqe")).
Proof.
  eexists. 
  destruct (submission_lazy test_reddit inbox_heap [] 1%nat
              (with_attr (shallow_comment (VStr "cklhv0f")) "link_id" (VStr "t3_2gmzqe"))
              VNone "2gmzqe" 2%nat
              (inbox_heap ++ [Instance ClsSubmission
                 (<["id" := VStr "2gmzqe"]> (<["_comments_by_id" := VMap ∅]>
                    (<["_fetched" := VBool false]> ∅)))]) [])
    as (H1 & H2); try reflexivity.
  split; [exact H1|]. split; [exact H2|].
  eexists. split; reflexivity.
Defined.

(** *** The replies of a comment *)

Lemma replies_run reddit h r self o s items :
  h !! self = Some o ->
  __dict__ o !! "_submission" = Some (VRef s) ->
  __dict__ o !! "_replies" = Some (VList items) ->
  let forest := length h in
  let h' := <[self := with_attr o "_replies" (VRef forest)]>
              (h ++ [forest_object (VRef s) (VList items)]) in
  replies reddit self (State h r) = (Ok (VRef forest), State h' r) /\
  iter (VRef forest) (State h' r) = (Ok items, State h' r).
Proof.
  intros Ho Hsub Hrep forest h'.
  assert (Hlt : (self < length h)%nat) by (eapply lookup_lt_Some; eauto).
  assert (Ho1 : (h ++ [forest_object (VRef s) (VList items)]) !! self = Some o)
    by (apply lookup_app_l_Some; exact Ho).
  assert (Ho' : h' !! self = Some (with_attr o "_replies" (VRef forest))).
  { unfold h'. eapply lookup_insert_at. exact Ho1. }
  assert (Hrep' : __dict__ (with_attr o "_replies" (VRef forest)) !! "_replies"
                  = Some (VRef forest)).
  { unfold with_attr. simpl. apply lookup_insert_eq. }
  assert (Hf : h' !! forest = Some (forest_object (VRef s) (VList items))).
  { unfold h'. rewrite lookup_insert_off by (unfold forest; lia).
    unfold forest. rewrite lookup_app_r by lia. rewrite Nat.sub_diag. reflexivity. }
  split.
  - unfold replies.
    rewrite (bind_Ok _ _ _ _ _ (getattr_at reddit h r self o _ _ Ho Hrep)).
    rewrite !bind_assoc.
    rewrite (bind_Ok _ _ _ _ _ (submission_at reddit h r self o s Ho Hsub)).
    rewrite bind_assoc.
    rewrite (bind_Ok _ _ _ _ _ (getattr_at reddit h r self o _ _ Ho Hrep)).
    unfold CommentForest. rewrite !bind_assoc.
    assert (Ealloc : alloc (forest_object (VRef s) (VList items)) (State h r) =
                     (Ok forest, State (h ++ [forest_object (VRef s) (VList items)]) r))
      by reflexivity.
    rewrite (bind_Ok _ _ _ _ _ Ealloc). rewrite ret_bind.
    rewrite (bind_Ok _ _ _ _ _ (store_at _ r self o _ _ Ho1)).
    apply (getattr_at reddit _ r self _ _ _ Ho' Hrep').
  - unfold iter. rewrite (bind_Ok _ _ _ _ _ (deref_at h' r forest _ Hf)). reflexivity.
Qed.

(** X9: the first read of [replies] on a comment whose replies are still
    a list makes a forest of its submission over that list and keeps it;
    the second read returns the same forest and makes nothing, and the
    forest goes through the comments of the list. *)
Theorem replies_cached reddit h r self o s items :
  h !! self = Some o ->
  __dict__ o !! "_submission" = Some (VRef s) ->
  __dict__ o !! "_replies" = Some (VList items) ->
  let forest := length h in
  let h' := <[self := with_attr o "_replies" (VRef forest)]>
              (h ++ [forest_object (VRef s) (VList items)]) in
  replies reddit self (State h r) = (Ok (VRef forest), State h' r) /\
  replies reddit self (State h' r) = (Ok (VRef forest), State h' r) /\
  iter (VRef forest) (State h' r) = (Ok items, State h' r).
Proof.
  intros Ho Hsub Hrep forest h'.
  destruct (replies_run reddit h r self o s items Ho Hsub Hrep) as (E1 & E3).
  fold forest in E1, E3. fold h' in E1, E3.
  split; [exact E1|]. split; [|exact E3].
  assert (Ho1 : (h ++ [forest_object (VRef s) (VList items)]) !! self = Some o)
    by (apply lookup_app_l_Some; exact Ho).
  assert (Ho' : h' !! self = Some (with_attr o "_replies" (VRef forest))).
  { unfold h'. eapply lookup_insert_at. exact Ho1. }
  assert (Hrep' : __dict__ (with_attr o "_replies" (VRef forest)) !! "_replies"
                  = Some (VRef forest)).
  { unfold with_attr. simpl. apply lookup_insert_eq. }
  unfold replies.
  rewrite (bind_Ok _ _ _ _ _ (getattr_at reddit h' r self _ _ _ Ho' Hrep')).
  rewrite ret_bind.
  apply (getattr_at reddit _ r self _ _ _ Ho' Hrep').
Qed.

Lemma replies_cached_witness :
  exists h',
    replies test_reddit 1 (State test_heap []) = (Ok (VRef 4), State h' []) /\
    replies test_reddit 1 (State h' []) = (Ok (VRef 4), State h' []) /\
    iter (VRef 4) (State h' []) = (Ok [], State h' []).
Proof.
  eexists.
  apply (replies_cached test_reddit test_heap [] 1%nat (test_comment "a" "t3_2gmzqe" 0)
           0%nat []); reflexivity.
Defined.

(** *** Attributes of a comment *)

Lemma setattr_Comment reddit fuel h r self o name v :
  h !! self = Some o -> __class__ o = ClsComment ->
  setattr reddit (S fuel) (VRef self) name v (State h r) =
    Comment___setattr___body reddit
      (fun reply s => setattr_with reddit (Comment___setattr__ reddit fuel) reply "submission" s)
      self name v (State h r).
Proof.
  intros Ho Hcls. unfold setattr, setattr_with.
  rewrite (bind_Ok _ _ _ _ _ (deref_at h r self o Ho)). rewrite Hcls. reflexivity.
Qed.

(** X10: an attribute of a comment that [__setattr__] does not intercept
    and that is no property of the class is kept as it is given: reading
    it back gives the value, no request is made and no other attribute
    and no other object is changed. *)
Theorem Comment_setattr_plain reddit fuel h r self o name v :
  h !! self = Some o -> __class__ o = ClsComment ->
  name ∉ ["author"; "replies"; "subreddit"; "submission"; "is_root"; "_kind"; "fullname"] ->
  let h' := <[self := with_attr o name v]> h in
  setattr reddit (S fuel) (VRef self) name v (State h r) = (Ok tt, State h' r) /\
  getattr reddit self name (State h' r) = (Ok v, State h' r) /\
  (forall other w, other <> name -> __dict__ o !! other = Some w ->
     getattr reddit self other (State h' r) = (Ok w, State h' r)) /\
  (forall l, l <> self -> h' !! l = h !! l).
Proof.
  intros Ho Hcls Hname h'.
  rewrite !not_elem_of_cons in Hname.
  destruct Hname as (H1 & H2 & H3 & H4 & H5 & H6 & H7 & _).
  assert (Ho' : h' !! self = Some (with_attr o name v)).
  { unfold h'. eapply lookup_insert_at. exact Ho. }
  split; [|split; [|split]].
  - rewrite (setattr_Comment reddit fuel h r self o name v Ho Hcls).
    unfold Comment___setattr___body.
    apply String.eqb_neq in H1, H2, H3, H4. rewrite H1, H2, H3. rewrite ret_bind.
    rewrite H4.
    rewrite bool_decide_eq_false_2.
    2:{ rewrite !not_elem_of_cons. repeat split; try assumption. apply not_elem_of_nil. }
    rewrite (store_at h r self o name v Ho). reflexivity.
  - apply (getattr_at reddit h' r self _ name v Ho'). apply lookup_insert_eq.
  - intros other w Hother Hw. apply (getattr_at reddit h' r self _ other w Ho').
    unfold with_attr. simpl. rewrite lookup_insert_ne by congruence. exact Hw.
  - intros l Hl. unfold h'. apply lookup_insert_off. congruence.
Qed.

Lemma Comment_setattr_plain_witness :
  setattr test_reddit 1 (VRef 1) "body" (VStr "hello") (State test_heap []) =
    (Ok tt, State (<[1%nat := with_attr (test_comment "a" "t3_2gmzqe" 0) "body" (VStr "hello")]>
                     test_heap) []) /\
  getattr test_reddit 1 "body"
    (State (<[1%nat := with_attr (test_comment "a" "t3_2gmzqe" 0) "body" (VStr "hello")]>
              test_heap) []) =
    (Ok (VStr "hello"),
     State (<[1%nat := with_attr (test_comment "a" "t3_2gmzqe" 0) "body" (VStr "hello")]>
              test_heap) []).
Proof.
  destruct (Comment_setattr_plain test_reddit 0 test_heap [] 1%nat
              (test_comment "a" "t3_2gmzqe" 0) "body" (VStr "hello"))
    as (Hset & Hget & _).
  - reflexivity.
  - reflexivity.
  - apply (bool_decide_unpack _). vm_compute. exact I.
  - split; [exact Hset | exact Hget].
Defined.

(** X11: what is assigned to [replies] is kept under [_replies], never
    under [replies]: the empty string gives the empty list, and any other
    value the children of the listing that the objector makes of it.
    Read back through the property [replies], it is a forest of the
    submission of the comment that goes through exactly these children. *)
Theorem Comment_setattr_replies reddit fuel h r self o s value h1 r1 items :
  h !! self = Some o -> __class__ o = ClsComment ->
  __dict__ o !! "_submission" = Some (VRef s) ->
  (value = VStr "" /\ items = [] /\ h1 = h /\ r1 = r) \/
  (value <> VStr "" /\ h1 !! self = Some o /\
   exists listing ol,
     objectify reddit value (State h r) = (Ok (VRef listing), State h1 r1) /\
     h1 !! listing = Some ol /\ __dict__ ol !! "children" = Some (VList items)) ->
  let h2 := <[self := with_attr o "_replies" (VList items)]> h1 in
  let forest := length h1 in
  exists h3,
    setattr reddit (S fuel) (VRef self) "replies" value (State h r) = (Ok tt, State h2 r1) /\
    (forall o2, h2 !! self = Some o2 ->
       __dict__ o2 !! "replies" = __dict__ o !! "replies") /\
    replies reddit self (State h2 r1) = (Ok (VRef forest), State h3 r1) /\
    iter (VRef forest) (State h3 r1) = (Ok items, State h3 r1).
Proof.
  intros Ho Hcls Hsub Hvalue h2 forest.
  assert (Ho1 : h1 !! self = Some o).
  { destruct Hvalue as [(_ & _ & -> & _)|(_ & H & _)]; assumption. }
  assert (Ho2 : h2 !! self = Some (with_attr o "_replies" (VList items))).
  { unfold h2. eapply lookup_insert_at. exact Ho1. }
  assert (Hlen : length h2 = length h1) by (unfold h2; apply length_insert).
  destruct (replies_run reddit h2 r1 self _ s items Ho2) as (E1 & E3).
  { unfold with_attr. simpl. rewrite lookup_insert_ne by discriminate. exact Hsub. }
  { unfold with_attr. simpl. apply lookup_insert_eq. }
  rewrite Hlen in E1, E3. fold forest in E1, E3.
  eexists. split; [|split; [|split; [exact E1 | exact E3]]].
  - rewrite (setattr_Comment reddit fuel h r self o _ _ Ho Hcls).
    unfold Comment___setattr___body. cbn [String.eqb Ascii.eqb Bool.eqb].
    destruct Hvalue as [(-> & -> & -> & ->)|(Hne & _ & listing & ol & Hobj & Hl & Hch)].
    + change (eq_str (VStr "") "") with true. cbv beta iota.
      rewrite bind_assoc, !ret_bind. cbv beta iota.
      change ("_replies" =? "submission")%string with false. cbv beta iota.
      rewrite bool_decide_eq_false_2 by (apply (bool_decide_unpack _); vm_compute; exact I).
      rewrite (store_at h r self o _ _ Ho). reflexivity.
    + rewrite (eq_str_false value "" Hne). rewrite !bind_assoc.
      rewrite (bind_Ok _ _ _ _ _ Hobj). cbn [attr].
      rewrite (bind_Ok _ _ _ _ _ (getattr_at reddit h1 r1 listing ol _ _ Hl Hch)).
      rewrite !ret_bind. cbv beta iota.
      change ("_replies" =? "submission")%string with false. cbv beta iota.
      rewrite bool_decide_eq_false_2 by (apply (bool_decide_unpack _); vm_compute; exact I).
      rewrite (store_at h1 r1 self o _ _ Ho1). reflexivity.
  - intros o2 Ho2'. rewrite Ho2 in Ho2'. injection Ho2' as <-.
    unfold with_attr. simpl. apply lookup_insert_ne. discriminate.
Qed.

Lemma Comment_setattr_replies_witness :
  exists h3,
    setattr test_reddit 1 (VRef 1) "replies" (VRef 4) (State listing_heap []) =
      (Ok tt,
       State (<[1%nat := with_attr (test_comment "a" "t3_2gmzqe" 0) "_replies"
                           (VList [VRef 2])]> listing_heap) []) /\
    replies test_reddit 1
      (State (<[1%nat := with_attr (test_comment "a" "t3_2gmzqe" 0) "_replies"
                           (VList [VRef 2])]> listing_heap) []) =
      (Ok (VRef 5), State h3 []) /\
    iter (VRef 5) (State h3 []) = (Ok [VRef 2], State h3 []).
Proof.
  destruct (Comment_setattr_replies test_reddit 0 listing_heap [] 1%nat
              (test_comment "a" "t3_2gmzqe" 0) 0%nat (VRef 4) listing_heap [] [VRef 2])
    as (h3 & Hset & _ & Hread & Hiter).
  - reflexivity.
  - reflexivity.
  - reflexivity.
  - right. split; [discriminate|]. split; [reflexivity|].
    exists 4%nat, (Instance ClsListing (<["children" := VList [VRef 2]]> ∅)).
    split; [reflexivity|]. split; reflexivity.
  - exists h3. split; [exact Hset|]. split; [exact Hread | exact Hiter].
Defined.

(** *** A parent that cannot be named *)

Lemma Comment_init_falsy reddit fuel v h r :
  is_None v = false -> truthy v = false ->
  exists h', Comment___init__ reddit fuel v VNone VNone (State h r) =
      (Raise (ValueError "An invalid value was specified for id."), State h' r) /\
    forall l x, h !! l = Some x -> h' !! l = Some x.
Proof.
  intros Hn Ht. eexists. split.
  - unfold Comment___init__, count_not_None. simpl. rewrite Hn. simpl.
    unfold mbind, M_bind, mret, M_ret, alloc. simpl.
    rewrite !store_last. simpl. rewrite Ht. simpl.
    unfold RedditBase___init__. unfold mbind, M_bind, mret, M_ret. simpl.
    rewrite store_last. rewrite deref_last. simpl. reflexivity.
  - intros l x Hl. apply lookup_app_l_Some. exact Hl.
Qed.

(** X12: when the [parent_id] of a comment is neither the fullname of its
    submission nor in the index of the submission, and has no underscore,
    [parent] raises [IndexError]; when nothing follows its underscore,
    [parent] raises the [ValueError] of a comment without identifier.
    Neither makes a request or changes an object that was there. *)
Theorem parent_malformed reddit fuel h r self o pid s so sid m :
  h !! self = Some o ->
  __dict__ o !! "parent_id" = Some (VStr pid) ->
  __dict__ o !! "_submission" = Some (VRef s) ->
  h !! s = Some so ->
  __class__ so = ClsSubmission ->
  __dict__ so !! "id" = Some (VStr sid) ->
  __dict__ so !! "_comments_by_id" = Some (VMap m) ->
  pid <> (kinds reddit "submission" +:+ "_" +:+ sid)%string -> m !! pid = None ->
  (has_char "_" pid = false ->
     parent reddit fuel self (State h r) = (Raise IndexError, State h r)) /\
  (forall prefix, has_char "_" prefix = false -> pid = (prefix +:+ "_")%string ->
     exists h',
       parent reddit fuel self (State h r) =
         (Raise (ValueError "An invalid value was specified for id."), State h' r) /\
       forall l x, h !! l = Some x -> h' !! l = Some x).
Proof.
  intros Ho Hpid Hsub Hs Hcls Hsid Hidx E Hn.
  set (name := (kinds reddit "submission" +:+ "_" +:+ sid)%string) in *.
  assert (Hname : fullname reddit s (State h r) = (Ok name, State h r)).
  { rewrite (fullname_at reddit h r s so sid Hs (or_intror Hcls) Hsid).
    rewrite Hcls. reflexivity. }
  assert (Hrun : forall parts, PyStr.split1 "_" pid = parts ->
    parent reddit fuel self (State h r) =
    (id ← nth_part parts 1;
     parent ← Comment___init__ reddit fuel (VStr id) VNone VNone;
     s ← submission reddit self;
     store parent "_submission" s ;; mret (VRef parent)) (State h r)).
  { intros parts Hparts. unfold parent.
    rewrite (bind_Ok _ _ _ _ _ (getattr_at reddit h r self o _ _ Ho Hpid)).
    rewrite (bind_Ok _ _ _ _ _ (submission_at reddit h r self o s Ho Hsub)).
    simpl. rewrite (bind_Ok _ _ _ _ _ Hname). simpl.
    apply String.eqb_neq in E. rewrite E.
    rewrite (bind_Ok _ _ _ _ _ (getattr_at reddit h r self o _ _ Ho Hpid)).
    rewrite (bind_Ok _ _ _ _ _ (submission_at reddit h r self o s Ho Hsub)).
    simpl. rewrite (bind_Ok _ _ _ _ _ (getattr_at reddit h r s so _ _ Hs Hidx)).
    simpl. unfold mbind at 1, M_bind at 1, mret, M_ret.
    rewrite bool_decide_eq_false_2 by (rewrite Hn; intros [? [=]]).
    rewrite (bind_Ok _ _ _ _ _ (getattr_at reddit h r self o _ _ Ho Hpid)).
    simpl. unfold mbind at 1, M_bind at 1, mret, M_ret.
    rewrite Hparts. reflexivity. }
  split.
  - intros Hc. rewrite (Hrun _ (split1_segment "_" pid Hc)). reflexivity.
  - intros prefix Hp ->.
    rewrite (Hrun [prefix; ""]) by (apply (split1_stop "_" prefix "" Hp)).
    cbn [nth_part lookup list_lookup]. rewrite ret_bind.
    destruct (Comment_init_falsy reddit fuel (VStr "") h r eq_refl eq_refl) as (h' & Einit & Hh').
    exists h'. split; [|exact Hh'].
    rewrite (bind_Raise _ _ _ _ _ Einit). reflexivity.
Qed.

Lemma parent_malformed_witness :
  parent test_reddit 1 1%nat (State orphan_heap []) =
    (Raise IndexError, State orphan_heap []) /\
  exists h',
    parent test_reddit 1 2%nat (State orphan_heap []) =
      (Raise (ValueError "An invalid value was specified for id."), State h' []).
Proof.
  pose (so := Instance ClsSubmission
      (<["id" := VStr "2gmzqe"]> (<["_comments_by_id" := VMap ∅]>
         (<["_fetched" := VBool false]> ∅)))).
  split.
  - refine (proj1 (parent_malformed test_reddit 1 orphan_heap [] 1%nat
              (test_comment "d" "cklhv0f" 0) "cklhv0f" 0%nat so "2gmzqe" ∅
              _ _ _ _ _ _ _ _ _) _); try reflexivity. discriminate.
  - destruct (proj2 (parent_malformed test_reddit 1 orphan_heap [] 2%nat
              (test_comment "e" "t1_" 0) "t1_" 0%nat so "2gmzqe" ∅
              eq_refl eq_refl eq_refl eq_refl eq_refl eq_refl eq_refl
              ltac:(discriminate) eq_refl) "t1" eq_refl eq_refl) as (h' & E & _).
    exists h'. exact E.
Defined.

(** *** Listings as containers *)

Lemma list_getitem_nonneg {A} (items : list A) i x σ :
  items !! i = Some x -> list_getitem items (Z.of_nat i) σ = (Ok x, σ).
Proof.
  intros Hi. pose proof (lookup_lt_Some _ _ _ Hi) as Hlt. unfold list_getitem.
  destruct (Z.ltb_spec (Z.of_nat i) 0) as [?|_]; [lia|].
  destruct (Z.ltb_spec (Z.of_nat i) 0) as [?|_]; [lia|].
  destruct (Z.leb_spec (Z.of_nat (length items)) (Z.of_nat i)) as [?|_]; [lia|].
  cbn [orb]. rewrite Nat2Z.id, Hi. reflexivity.
Qed.

Lemma list_getitem_neg {A} (items : list A) i x σ :
  items !! i = Some x ->
  list_getitem items (Z.of_nat i - Z.of_nat (length items)) σ = (Ok x, σ).
Proof.
  intros Hi. pose proof (lookup_lt_Some _ _ _ Hi) as Hlt. unfold list_getitem.
  destruct (Z.ltb_spec (Z.of_nat i - Z.of_nat (length items)) 0) as [_|?]; [|lia].
  replace (Z.of_nat i - Z.of_nat (length items) + Z.of_nat (length items))
    with (Z.of_nat i) by lia.
  destruct (Z.ltb_spec (Z.of_nat i) 0) as [?|_]; [lia|].
  destruct (Z.leb_spec (Z.of_nat (length items)) (Z.of_nat i)) as [?|_]; [lia|].
  cbn [orb]. rewrite Nat2Z.id, Hi. reflexivity.
Qed.

Lemma list_getitem_out {A} (items : list A) index σ :
  index < - Z.of_nat (length items) \/ Z.of_nat (length items) <= index ->
  list_getitem items index σ = (@Raise A IndexError, σ).
Proof.
  intros Hout. unfold list_getitem.
  destruct (Z.ltb_spec index 0).
  - destruct (Z.ltb_spec (index + Z.of_nat (length items)) 0); [reflexivity | lia].
  - destruct (Z.ltb_spec index 0); [lia|].
    destruct (Z.leb_spec (Z.of_nat (length items)) index); [reflexivity | lia].
Qed.

(** X13: what is assigned to the attribute of the children of a listing,
    which depends on the class of the listing, is objectified first, and
    the listing then is a container of the items that the objector
    made: its length is their number, an index from 0 gives the items in
    order, a negative index counts from the end, and an index outside is
    an [IndexError].  In the classes that define [after] as a property,
    assigning [after] is an [AttributeError] and changes nothing.  Any
    other attribute is kept as given and the objector is not called. *)
Theorem Listing_children reddit h r self o data items h1 r1 :
  h !! self = Some o -> is_listing (__class__ o) = true ->
  objectify reddit data (State h r) = (Ok (VList items), State h1 r1) ->
  h1 !! self = Some o ->
  let child := CHILD_ATTRIBUTE (__class__ o) in
  let h2 := <[self := with_attr o child (VList items)]> h1 in
  Listing___setattr__ reddit self child data (State h r) = (Ok tt, State h2 r1) /\
  Listing___len__ reddit self (State h2 r1) = (Ok (Z.of_nat (length items)), State h2 r1) /\
  (forall i x, items !! i = Some x ->
     Listing___getitem__ reddit self (Z.of_nat i) (State h2 r1) = (Ok x, State h2 r1) /\
     Listing___getitem__ reddit self (Z.of_nat i - Z.of_nat (length items)) (State h2 r1) =
       (Ok x, State h2 r1)) /\
  (forall index,
     index < - Z.of_nat (length items) \/ Z.of_nat (length items) <= index ->
     Listing___getitem__ reddit self index (State h2 r1) = (Raise IndexError, State h2 r1)) /\
  (after_is_property (__class__ o) = true ->
     forall v, Listing___setattr__ reddit self "after" v (State h r) =
                 (Raise (AttributeError "after"), State h r)) /\
  (forall name v, name <> child ->
     name <> "after" \/ after_is_property (__class__ o) = false ->
     Listing___setattr__ reddit self name v (State h r) =
       (Ok tt, State (<[self := with_attr o name v]> h) r)).
Proof.
  intros Ho Hcls Hobj Ho1 child h2.
  assert (Hafter : (child =? "after")%string = false).
  { unfold child. destruct (__class__ o); reflexivity. }
  assert (Ho2 : h2 !! self = Some (with_attr o child (VList items))).
  { unfold h2. eapply lookup_insert_at. exact Ho1. }
  assert (Hchild : getattr reddit self (CHILD_ATTRIBUTE (__class__ (with_attr o child (VList items))))
                     (State h2 r1) = (Ok (VList items), State h2 r1)).
  { apply (getattr_at reddit h2 r1 self _ _ _ Ho2). apply lookup_insert_eq. }
  split; [|split; [|split; [|split; [|split]]]].
  - unfold Listing___setattr__.
    rewrite (bind_Ok _ _ _ _ _ (deref_at h r self o Ho)).
    fold child. rewrite String.eqb_refl.
    rewrite (bind_Ok _ _ _ _ _ Hobj). rewrite Hafter. cbn [andb].
    rewrite (store_at h1 r1 self o _ _ Ho1). reflexivity.
  - unfold Listing___len__.
    rewrite (bind_Ok _ _ _ _ _ (deref_at h2 r1 self _ Ho2)).
    rewrite (bind_Ok _ _ _ _ _ Hchild). reflexivity.
  - intros i x Hi. unfold Listing___getitem__.
    rewrite !(bind_Ok _ _ _ _ _ (deref_at h2 r1 self _ Ho2)).
    rewrite !(bind_Ok _ _ _ _ _ Hchild). cbn [subscript].
    split; [apply list_getitem_nonneg | apply list_getitem_neg]; exact Hi.
  - intros index Hout. unfold Listing___getitem__.
    rewrite !(bind_Ok _ _ _ _ _ (deref_at h2 r1 self _ Ho2)).
    rewrite !(bind_Ok _ _ _ _ _ Hchild). cbn [subscript].
    apply list_getitem_out. exact Hout.
  - intros Hprop v. unfold Listing___setattr__.
    rewrite (bind_Ok _ _ _ _ _ (deref_at h r self o Ho)).
    fold child. rewrite (String.eqb_sym "after" child), Hafter, ret_bind, Hprop.
    reflexivity.
  - intros name v Hname Hnot. unfold Listing___setattr__.
    rewrite (bind_Ok _ _ _ _ _ (deref_at h r self o Ho)).
    fold child. apply String.eqb_neq in Hname. rewrite Hname. rewrite ret_bind.
    assert (E : ((name =? "after")%string && after_is_property (__class__ o))%bool = false).
    { destruct Hnot as [Hn | ->]; [|apply andb_false_r].
      apply String.eqb_neq in Hn. rewrite Hn. reflexivity. }
    rewrite E. rewrite (store_at h r self o _ _ Ho). reflexivity.
Qed.

Lemma Listing_children_witness :
  Listing___setattr__ test_reddit 0 "mod_notes" (VList [VStr "a"; VStr "b"])
    (State notes_heap []) =
    (Ok tt, State [with_attr (Instance ClsModNoteListing ∅) "mod_notes"
                     (VList [VStr "a"; VStr "b"])] []) /\
  Listing___getitem__ test_reddit 0 (-1)
    (State [with_attr (Instance ClsModNoteListing ∅) "mod_notes"
              (VList [VStr "a"; VStr "b"])] []) =
    (Ok (VStr "b"),
     State [with_attr (Instance ClsModNoteListing ∅) "mod_notes"
              (VList [VStr "a"; VStr "b"])] []) /\
  Listing___getitem__ test_reddit 0 2
    (State [with_attr (Instance ClsModNoteListing ∅) "mod_notes"
              (VList [VStr "a"; VStr "b"])] []) =
    (Raise IndexError,
     State [with_attr (Instance ClsModNoteListing ∅) "mod_notes"
              (VList [VStr "a"; VStr "b"])] []) /\
  Listing___setattr__ test_reddit 0 "after" (VStr "c") (State notes_heap []) =
    (Raise (AttributeError "after"), State notes_heap []).
Proof.
  destruct (Listing_children test_reddit notes_heap [] 0%nat (Instance ClsModNoteListing ∅)
              (VList [VStr "a"; VStr "b"]) [VStr "a"; VStr "b"] notes_heap []
              eq_refl eq_refl eq_refl eq_refl) as (Hset & _ & Hget & Hout & Hafter & _).
  split; [exact Hset|]. split; [|split].
  - exact (proj2 (Hget 1%nat (VStr "b") eq_refl)).
  - apply (Hout 2). right. simpl. lia.
  - apply (Hafter eq_refl).
Defined.

(** *** What [refresh] finds *)

Lemma elem_of_nodes_of t ts : t ∈ nodes_of ts <-> exists t0, t0 ∈ ts /\ t ∈ nodes t0.
Proof.
  unfold nodes_of. rewrite list_elem_of_In, in_concat. split.
  - intros (ls & Hls & Hl). apply in_map_iff in Hls as (t0 & <- & Ht).
    exists t0. rewrite !list_elem_of_In. auto.
  - intros (t0 & Ht & Hl). exists (nodes t0).
    apply list_elem_of_In in Ht. apply list_elem_of_In in Hl.
    split; [apply in_map; assumption | assumption].
Qed.

(** The stack visits every node of a tree, and nothing else. *)
Lemma visit_nodes t0 t : t ∈ visit t0 <-> t ∈ nodes t0.
Proof.
  revert t0. induction t0 as [l id cs IH|l id] using tree_ind'.
  - cbn [visit nodes]. fold (visit_stack cs). fold (nodes_of cs).
    rewrite !elem_of_cons, elem_of_visit_stack, elem_of_nodes_of.
    rewrite Forall_forall in IH. split.
    + intros [->|(c & Hc & Hin)]; [auto|]. right. exists c. split; [exact Hc|].
      apply IH; assumption.
    + intros [->|(c & Hc & Hin)]; [auto|]. right. exists c. split; [exact Hc|].
      apply IH; assumption.
  - reflexivity.
Qed.

Lemma visit_stack_nodes ts t : t ∈ visit_stack ts <-> t ∈ nodes_of ts.
Proof.
  rewrite elem_of_visit_stack, elem_of_nodes_of. split.
  - intros (t0 & H0 & H). exists t0. split; [exact H0 | apply visit_nodes, H].
  - intros (t0 & H0 & H). exists t0. split; [exact H0 | apply visit_nodes, H].
Qed.

Lemma find_absent {A} (f : A -> bool) (l : list A) :
  (forall x, x ∈ l -> f x = false) -> find f l = None.
Proof.
  induction l as [|a l IH]; intros H; [reflexivity|]. simpl.
  rewrite (H a) by apply list_elem_of_here.
  apply IH. intros x Hx. apply H, list_elem_of_further, Hx.
Qed.

Lemma find_present {A} (f : A -> bool) (l : list A) x :
  x ∈ l -> f x = true -> exists y, find f l = Some y /\ y ∈ l /\ f y = true.
Proof.
  induction l as [|a l IH]; intros Hx Hf; [apply elem_of_nil in Hx; contradiction|].
  simpl. destruct (f a) eqn:Ha.
  - exists a. split; [reflexivity|]. split; [apply list_elem_of_here | exact Ha].
  - apply elem_of_cons in Hx as [->|Hx]; [congruence|].
    destruct (IH Hx Hf) as (y & E & Hy & Hfy). exists y.
    split; [exact E|]. split; [apply list_elem_of_further, Hy | exact Hfy].
Qed.

(** The search stops at the one node that has the identifier. *)
Lemma find_node sid ts c cs :
  Node c sid cs ∈ nodes_of ts ->
  (forall t, t ∈ nodes_of ts -> tree_id t = sid -> t = Node c sid cs) ->
  find (has_id sid) (visit_stack ts) = Some (Node c sid cs).
Proof.
  intros Hin Huniq.
  destruct (find_present (has_id sid) (visit_stack ts) (Node c sid cs))
    as (t & Hfind & Ht & Hid).
  { apply visit_stack_nodes, Hin. }
  { unfold has_id. apply String.eqb_refl. }
  apply visit_stack_nodes in Ht. unfold has_id in Hid. apply String.eqb_eq in Hid.
  rewrite (Huniq t Ht Hid) in Hfind. exact Hfind.
Qed.

(** X14: [refresh] finds the comment wherever it is in the trees of the
    answer.  When no node of the trees, at any depth, has the identifier
    of the comment, it raises the [ClientException] of the comment that
    is missing.  When one node has it, and that node is a comment,
    [refresh] returns the comment with the attributes of that node: every
    attribute of the node but [_submission] is now on the comment, the
    attributes that the node does not have are kept, and the submission
    of the comment is the one it had. *)
Theorem refresh_finds reddit fuel h r self o sid s so m x lst olst ts h1 r1 :
  let path := refresh_path reddit o so in
  let params := refresh_params o in
  h !! self = Some o ->
  __dict__ o !! "id" = Some (VStr sid) ->
  __dict__ o !! "_submission" = Some (VRef s) ->
  (forall context, __dict__ o !! "context" = Some context -> exists c, context = VStr c) ->
  h !! s = Some so ->
  is_Some (__dict__ so !! "id") ->
  __dict__ so !! "_comments_by_id" = Some (VMap m) ->
  reddit_get reddit path params (State h (r ++ [(path, params)])) =
    (Ok (VList [x; VRef lst]), State h1 r1) ->
  h1 !! self = Some o -> h1 !! s = Some so -> h1 !! lst = Some olst ->
  __dict__ olst !! "children" = Some (VList (refs ts)) ->
  Forall (shape h1) ts -> NoDup (locs_of ts) ->
  s ∉ locs_of ts -> self ∉ locs_of ts -> self <> s ->
  (size_of ts < fuel)%nat ->
  ((forall t, t ∈ nodes_of ts -> tree_id t <> sid) ->
     refresh reddit fuel self (State h r) =
       (Raise (ClientException MISSING_COMMENT_MESSAGE), State h1 r1)) /\
  (forall c cs oc,
     Node c sid cs ∈ nodes_of ts ->
     (forall t, t ∈ nodes_of ts -> tree_id t = sid -> t = Node c sid cs) ->
     h1 !! c = Some oc -> is_Some (__dict__ oc !! "_submission") ->
     exists h' o',
       refresh reddit fuel self (State h r) = (Ok self, State h' r1) /\
       h' !! self = Some o' /\
       __dict__ o' !! "_submission" = Some (VRef s) /\
       (forall name v, name <> "_submission" ->
          __dict__ oc !! name = Some v -> __dict__ o' !! name = Some v) /\
       (forall name, __dict__ oc !! name = None ->
          __dict__ o' !! name = __dict__ o !! name)).
Proof.
  intros path params Hself Hsid Hsub Hctx Hs Hsubid Hm Hget Hself1 Hs1 Hlst Hch
         Hshape Hnd Hsn Hselfn Hne Hfuel.
  split.
  - intros Hnone. eapply refresh_missing; eauto.
    apply find_absent. intros t Ht. apply visit_stack_nodes in Ht.
    unfold has_id. apply String.eqb_neq. auto.
  - intros c cs oc Hin Huniq Hoc Hocs.
    pose proof (find_node sid ts c cs Hin Huniq) as Hfind.
    edestruct (refresh_found reddit h r self o sid s so Hself Hsid Hsub Hctx Hs Hsubid
                 m x lst olst ts h1 r1) as (h' & E & Hmerged & _ & _); eauto.
    exists h', (merged o oc). split; [exact E|]. split; [exact Hmerged|].
    split; [|split].
    + unfold merged. cbn [__dict__]. rewrite lookup_union_r by apply lookup_delete_eq.
      exact Hsub.
    + intros name v Hname Hv. unfold merged. cbn [__dict__].
      apply lookup_union_Some_l. rewrite lookup_delete_ne by congruence. exact Hv.
    + intros name Hv. unfold merged. cbn [__dict__].
      apply lookup_union_r. destruct (decide (name = "_submission")) as [->|Hn].
      * apply lookup_delete_eq.
      * rewrite lookup_delete_ne by congruence. exact Hv.
Qed.

Lemma refresh_finds_witness :
  exists (h' : list object) (o' : object),
    refresh answering_reddit 4 1%nat (State refresh_heap []) =
      (Ok 1%nat, State h' [("comments/2gmzqe/_/b", [("context", VInt 100)])]) /\
    h' !! 1%nat = Some o' /\
    __dict__ o' !! "_submission" = Some (VRef 0) /\
    __dict__ o' !! "body" = Some (VStr "hello").
Proof.
  destruct (refresh_finds answering_reddit 4 refresh_heap [] 1%nat
              (Instance ClsComment
                 (<["_submission" := VRef 0]> (__dict__ (shallow_comment (VStr "b")))))
              "b" 0%nat
              (Instance ClsSubmission
                 (<["id" := VStr "2gmzqe"]> (<["_comments_by_id" := VMap ∅]>
                    (<["_fetched" := VBool false]> ∅))))
              ∅ (VRef 2) 3%nat
              (Instance ClsListing (<["children" := VList [VRef 4]]> ∅))
              [Node 4 "a" [Node 5 "b" []; More 6 "m"]]
              (refresh_heap ++ answer 2)
              [("comments/2gmzqe/_/b", [("context", VInt 100)])])
    as (_ & Hfound).
  - reflexivity.
  - reflexivity.
  - reflexivity.
  - intros context Hc. vm_compute in Hc. discriminate Hc.
  - reflexivity.
  - eexists. reflexivity.
  - reflexivity.
  - reflexivity.
  - reflexivity.
  - reflexivity.
  - reflexivity.
  - reflexivity.
  - constructor; [|constructor].
    eapply (shape_Node _ 4 "a"); [reflexivity..|].
    constructor; [|constructor; [|constructor]].
    + eapply (shape_Node _ 5 "b"); [reflexivity..|]. constructor.
    + eapply (shape_More _ 6 "m"); reflexivity.
  - apply (bool_decide_unpack _). vm_compute. exact I.
  - apply (bool_decide_unpack _). vm_compute. exact I.
  - apply (bool_decide_unpack _). vm_compute. exact I.
  - discriminate.
  - vm_compute. lia.
  - destruct (Hfound 5%nat []
                (Instance ClsComment
                   (<["body" := VStr "hello"]> (__dict__ (fresh_comment "b" "t1_a" [])))))
      as (h' & o' & E & Ho' & Hsub & Hattrs & _).
    + cbn. rewrite !elem_of_cons. auto.
    + intros t Ht Hid. cbn in Ht. rewrite !elem_of_cons in Ht.
      destruct Ht as [->|[->|[->|Ht]]];
        [discriminate Hid | reflexivity | discriminate Hid |].
      apply elem_of_nil in Ht. contradiction.
    + reflexivity.
    + eexists. reflexivity.
    + exists h', o'. split; [exact E|]. split; [exact Ho'|]. split; [exact Hsub|].
      apply (Hattrs "body" (VStr "hello")); [discriminate | reflexivity].
Defined.

(** *** Payloads *)

Lemma payload_dict_cons k v items d :
  payload_dict ((k, v) :: items) d = payload_dict items (<[k := v]> d).
Proof. reflexivity. Qed.

Lemma payload_dict_other items d k :
  k ∉ items.*1 -> payload_dict items d !! k = d !! k.
Proof.
  revert d. induction items as [|[k0 v0] items IH]; intros d Hk; [reflexivity|].
  rewrite payload_dict_cons. cbn [fmap list_fmap fst] in Hk.
  apply not_elem_of_cons in Hk as [Hk0 Hk].
  rewrite (IH _ Hk). apply lookup_insert_ne. congruence.
Qed.

Lemma payload_dict_entry items d k v :
  NoDup items.*1 -> (k, v) ∈ items -> payload_dict items d !! k = Some v.
Proof.
  revert d. induction items as [|[k0 v0] items IH]; intros d Hnd Hin.
  - apply elem_of_nil in Hin. contradiction.
  - rewrite payload_dict_cons. cbn [fmap list_fmap fst] in Hnd.
    apply NoDup_cons in Hnd as [Hk0 Hnd].
    apply elem_of_cons in Hin as [[= -> ->]|Hin].
    + rewrite payload_dict_other by exact Hk0. apply lookup_insert_eq.
    + apply IH; assumption.
Qed.

Lemma payload_dict_is_Some items d k :
  is_Some (payload_dict items d !! k) <-> k ∈ items.*1 \/ is_Some (d !! k).
Proof.
  revert d. induction items as [|[k0 v0] items IH]; intros d.
  - cbn. rewrite elem_of_nil. tauto.
  - rewrite payload_dict_cons, IH. cbn [fmap list_fmap fst]. rewrite elem_of_cons.
    destruct (decide (k = k0)) as [->|Hk].
    + rewrite lookup_insert_eq. split; [auto | intros _; right; eauto].
    + rewrite lookup_insert_ne by congruence. tauto.
Qed.

Lemma plain_attribute_store reddit assign self name v σ :
  plain_attribute name = true ->
  Comment___setattr___body reddit assign self name v σ = store self name v σ.
Proof.
  unfold plain_attribute. rewrite negb_true_iff, bool_decide_eq_false.
  rewrite !not_elem_of_cons. intros (H1 & H2 & H3 & H4 & H5 & H6 & H7 & _).
  unfold Comment___setattr___body.
  apply String.eqb_neq in H1, H2, H3, H4. rewrite H1, H2, H3. rewrite ret_bind.
  rewrite H4. rewrite bool_decide_eq_false_2; [reflexivity|].
  rewrite !not_elem_of_cons. repeat split; try assumption. apply not_elem_of_nil.
Qed.

Lemma for_each_plain reddit fuel h r items : forall d,
  Forall (fun kv => plain_attribute kv.1 = true) items ->
  for_each (fun '(attribute, value) =>
              Comment___setattr__ reddit (S fuel) (length h) attribute value)
    items (State (h ++ [Instance ClsComment d]) r) =
  (Ok tt, State (h ++ [Instance ClsComment (payload_dict items d)]) r).
Proof.
  induction items as [|[k v] items IH]; intros d Hall; [reflexivity|].
  apply Forall_cons in Hall as [Hk Hall]. cbn [for_each].
  assert (E : Comment___setattr__ reddit (S fuel) (length h) k v
                (State (h ++ [Instance ClsComment d]) r) =
              (Ok tt, State (h ++ [Instance ClsComment (<[k := v]> d)]) r)).
  { cbn [Comment___setattr__]. rewrite plain_attribute_store by exact Hk.
    apply store_last. }
  rewrite (bind_Ok _ _ _ _ _ E). rewrite payload_dict_cons. apply IH, Hall.
Qed.

Lemma Comment_init_payload reddit fuel items h r :
  Forall (fun kv => plain_attribute kv.1 = true) items ->
  Comment___init__ reddit (S fuel) VNone VNone (VDict items) (State h r) =
    if bool_decide ("id" ∈ items.*1)
    then (Ok (length h), State (h ++ [payload_comment items]) r)
    else (Raise (ValueError "An invalid value was specified for id."),
          State (h ++ [payload_comment items]) r).
Proof.
  intros Hall. unfold Comment___init__, count_not_None. cbn [List.filter is_None negb length].
  cbn [Nat.eqb negb].
  assert (Ealloc : alloc (Instance ClsComment ∅) (State h r) =
                   (Ok (length h), State (h ++ [Instance ClsComment ∅]) r)) by reflexivity.
  rewrite (bind_Ok _ _ _ _ _ Ealloc).
  rewrite (bind_Ok _ _ _ _ _ (store_last h _ r _ _)). cbn [__class__ __dict__].
  rewrite (bind_Ok _ _ _ _ _ (store_last h _ r _ _)). cbn [__class__ __dict__ truthy].
  rewrite ret_bind. unfold RedditBase___init__.
  assert (Eset : (if truthy (VDict items)
                  then for_each (fun '(attribute, value) =>
                         Comment___setattr__ reddit (S fuel) (length h) attribute value) items
                  else mret tt)
                   (State (h ++ [Instance ClsComment
                      (<["_submission" := VNone]> (<["_replies" := VList []]> ∅))]) r) =
                 (Ok tt, State (h ++ [Instance ClsComment
                    (payload_dict items
                       (<["_submission" := VNone]> (<["_replies" := VList []]> ∅)))]) r)).
  { destruct items as [|kv items]; [reflexivity|].
    cbn [truthy]. apply for_each_plain, Hall. }
  rewrite !bind_assoc.
  rewrite (bind_Ok _ _ _ _ _ Eset). rewrite !bind_assoc.
  rewrite (bind_Ok _ _ _ _ _ (store_last h _ r _ _)). cbn [__class__ __dict__].
  rewrite bind_assoc.
  rewrite (bind_Ok _ _ _ _ _ (deref_last h _ r)). cbn [__dict__].
  fold (payload_comment items).
  destruct (decide ("id" ∈ items.*1)) as [Hid|Hid].
  - rewrite (bool_decide_eq_true_2 ("id" ∈ items.*1)) by exact Hid.
    rewrite bool_decide_eq_true_2; [reflexivity|].
    rewrite lookup_insert_ne by discriminate. apply payload_dict_is_Some. auto.
  - rewrite (bool_decide_eq_false_2 ("id" ∈ items.*1)) by exact Hid.
    rewrite bool_decide_eq_false_2; [reflexivity|].
    rewrite lookup_insert_ne by discriminate. rewrite payload_dict_is_Some.
    intros [?|[? ?]]; [auto | discriminate].
Qed.

(** X15: a comment made from a payload of attributes that [__setattr__]
    does not intercept has each attribute of the payload as it was given,
    is fetched, and has no reply and no submission unless the payload
    says so; a payload without [id] makes the constructor raise
    [ValueError].  No request is made. *)
Theorem Comment_from_payload reddit fuel items σ :
  Forall (fun kv => plain_attribute kv.1 = true) items ->
  ("id" ∈ items.*1 ->
     Comment___init__ reddit (S fuel) VNone VNone (VDict items) σ =
       (Ok (length (heap σ)), State (heap σ ++ [payload_comment items]) (requests σ)) /\
     __dict__ (payload_comment items) !! "_fetched" = Some (VBool true) /\
     (NoDup items.*1 -> forall k v, (k, v) ∈ items -> k <> "_fetched" ->
        __dict__ (payload_comment items) !! k = Some v) /\
     ("_replies" ∉ items.*1 ->
        __dict__ (payload_comment items) !! "_replies" = Some (VList [])) /\
     ("_submission" ∉ items.*1 ->
        __dict__ (payload_comment items) !! "_submission" = Some VNone)) /\
  ("id" ∉ items.*1 ->
     exists σ',
       Comment___init__ reddit (S fuel) VNone VNone (VDict items) σ =
         (Raise (ValueError "An invalid value was specified for id."), σ') /\
       requests σ' = requests σ).
Proof.
  intros Hall. destruct σ as [h r]. cbn [heap requests].
  pose proof (Comment_init_payload reddit fuel items h r Hall) as E. split.
  - intros Hid. rewrite bool_decide_eq_true_2 in E by exact Hid.
    split; [exact E|]. unfold payload_comment. cbn [__dict__].
    split; [apply lookup_insert_eq|]. split; [|split].
    + intros Hnd k v Hin Hk. rewrite lookup_insert_ne by congruence.
      apply payload_dict_entry; assumption.
    + intros Hk. rewrite lookup_insert_ne by discriminate.
      rewrite payload_dict_other by exact Hk. reflexivity.
    + intros Hk. rewrite lookup_insert_ne by discriminate.
      rewrite payload_dict_other by exact Hk. reflexivity.
  - intros Hid. rewrite bool_decide_eq_false_2 in E by exact Hid.
    eexists. split; [exact E | reflexivity].
Qed.

Lemma Comment_from_payload_witness :
  Comment___init__ test_reddit 1 VNone VNone (VDict [("id", VStr "dummy"); ("n", VInt 1)])
    empty_state =
    (Ok 0%nat, State [payload_comment [("id", VStr "dummy"); ("n", VInt 1)]] []) /\
  __dict__ (payload_comment [("id", VStr "dummy"); ("n", VInt 1)]) !! "_fetched" =
    Some (VBool true) /\
  exists σ',
    Comment___init__ test_reddit 1 VNone VNone (VDict [("n", VInt 1)]) empty_state =
      (Raise (ValueError "An invalid value was specified for id."), σ').
Proof.
  split; [|split].
  - refine (proj1 (proj1 (Comment_from_payload test_reddit 0
                            [("id", VStr "dummy"); ("n", VInt 1)] empty_state _) _)).
    + repeat constructor.
    + apply (bool_decide_unpack _). vm_compute. exact I.
  - reflexivity.
  - destruct (proj2 (Comment_from_payload test_reddit 0 [("n", VInt 1)] empty_state
                       ltac:(repeat constructor))) as (σ' & E & _).
    + apply (bool_decide_unpack _). vm_compute. exact I.
    + exists σ'. exact E.
Defined.

(** *** Fetching *)

Lemma dict_update_at h r self o other oo :
  h !! self = Some o -> h !! other = Some oo ->
  dict_update self (VRef other) (State h r) =
    (Ok tt, State (<[self := updated o oo]> h) r).
Proof.
  intros Ho Hoo. unfold dict_update.
  rewrite (bind_Ok _ _ _ _ _ (deref_at h r other oo Hoo)).
  rewrite (update_hit (State h r) self o _ Ho). reflexivity.
Qed.

(** X16: when the answer to the request of a comment has no children,
    [_fetch] raises a [ClientException] that names the comment by its
    fullname and leaves the comment as it is.  Otherwise the comment
    takes every attribute of the comment made from the first child: the
    attributes of the payload, [_fetched], and also [_replies] and
    [_submission], so that the submission it had is forgotten unless the
    payload has one; then the fetch of the base class goes on. *)
Theorem Comment__fetch_spec reddit _fetch_data RedditBase__fetch fuel h r self o id
    top data h1 r1 :
  _fetch_data self (State h r) = (Ok (VDict top), State h1 r1) ->
  dict_get "data" top = Some (VDict data) ->
  h1 !! self = Some o -> __class__ o = ClsComment ->
  __dict__ o !! "id" = Some (VStr id) ->
  (forall children, dict_get "children" data = Some children -> truthy children = false ->
     Comment__fetch reddit _fetch_data RedditBase__fetch fuel self (State h r) =
       (Raise (ClientException
                 ("No data returned for comment " +:+ kinds reddit "comment" +:+ "_" +:+ id)),
        State h1 r1)) /\
  (forall child rest items,
     dict_get "children" data = Some (VList (VDict child :: rest)) ->
     dict_get "data" child = Some (VDict items) ->
     Forall (fun kv => plain_attribute kv.1 = true) items -> "id" ∈ items.*1 ->
     let h2 := <[self := updated o (payload_comment items)]> (h1 ++ [payload_comment items]) in
     Comment__fetch reddit _fetch_data RedditBase__fetch (S fuel) self (State h r) =
       RedditBase__fetch self (State h2 r1) /\
     h2 !! self = Some (updated o (payload_comment items)) /\
     __dict__ (updated o (payload_comment items)) !! "_fetched" = Some (VBool true) /\
     (NoDup items.*1 -> forall k v, (k, v) ∈ items -> k <> "_fetched" ->
        __dict__ (updated o (payload_comment items)) !! k = Some v) /\
     ("_submission" ∉ items.*1 ->
        __dict__ (updated o (payload_comment items)) !! "_submission" = Some VNone)).
Proof.
  intros Hfetch Hdata Ho Hcls Hid.
  assert (Hhead : forall k : pyval -> M unit,
    (data0 ← _fetch_data self; data1 ← subscript_key data0 "data"; k data1) (State h r) =
    k (VDict data) (State h1 r1)).
  { intros k. rewrite (bind_Ok _ _ _ _ _ Hfetch). cbn [subscript_key]. rewrite Hdata.
    rewrite ret_bind. reflexivity. }
  split.
  - intros children Hch Hfalse. unfold Comment__fetch. rewrite Hhead.
    cbn [subscript_key]. rewrite Hch, ret_bind, Hfalse. cbn [negb].
    rewrite (bind_Ok _ _ _ _ _ (fullname_at reddit h1 r1 self o id Ho (or_introl Hcls) Hid)).
    rewrite Hcls. reflexivity.
  - intros child rest items Hch Hchild Hplain Hidin h2.
    assert (Ho1 : (h1 ++ [payload_comment items]) !! self = Some o)
      by (apply lookup_app_l_Some; exact Ho).
    split; [|split; [|split; [|split]]].
    + unfold Comment__fetch. rewrite Hhead.
      cbn [subscript_key]. rewrite Hch, !ret_bind. cbn [truthy negb].
      rewrite ret_bind. cbn [subscript].
      rewrite (bind_Ok _ _ _ _ _ (list_getitem_nonneg (VDict child :: rest) 0 _ _ eq_refl)).
      cbn [subscript_key]. rewrite Hchild, ret_bind.
      pose proof (Comment_init_payload reddit fuel items h1 r1 Hplain) as Einit.
      rewrite bool_decide_eq_true_2 in Einit by exact Hidin.
      rewrite (bind_Ok _ _ _ _ _ Einit).
      assert (Hother : (h1 ++ [payload_comment items]) !! length h1
                       = Some (payload_comment items)).
      { rewrite lookup_app_r by lia. rewrite Nat.sub_diag. reflexivity. }
      rewrite (bind_Ok _ _ _ _ _ (dict_update_at _ r1 self o _ _ Ho1 Hother)).
      reflexivity.
    + unfold h2. eapply lookup_insert_at. exact Ho1.
    + unfold updated, payload_comment. cbn [__dict__].
      apply lookup_union_Some_l, lookup_insert_eq.
    + intros Hnd k v Hin Hk. unfold updated, payload_comment. cbn [__dict__].
      apply lookup_union_Some_l. rewrite lookup_insert_ne by congruence.
      apply payload_dict_entry; assumption.
    + intros Hk. unfold updated, payload_comment. cbn [__dict__].
      apply lookup_union_Some_l. rewrite lookup_insert_ne by discriminate.
      rewrite payload_dict_other by exact Hk. reflexivity.
Qed.

Lemma Comment__fetch_spec_witness :
  Comment__fetch test_reddit (answers (info_answer [])) set_fetched 1 1%nat
    (State test_heap []) =
    (Raise (ClientException "No data returned for comment t1_a"), State test_heap []) /\
  exists h' o',
    Comment__fetch test_reddit
      (answers (info_answer
         [VDict [("kind", VStr "t1");
                 ("data", VDict [("id", VStr "a"); ("body", VStr "hello")])]]))
      set_fetched 1 1%nat (State test_heap []) = (Ok tt, State h' []) /\
    h' !! 1%nat = Some o' /\
    __dict__ o' !! "body" = Some (VStr "hello") /\
    __dict__ o' !! "_submission" = Some VNone.
Proof.
  split.
  - refine (proj1 (Comment__fetch_spec test_reddit (answers (info_answer [])) set_fetched
                     1 test_heap [] 1%nat (test_comment "a" "t3_2gmzqe" 0) "a"
                     _ _ test_heap [] eq_refl eq_refl eq_refl eq_refl eq_refl)
              (VList []) eq_refl eq_refl).
  - destruct (proj2 (Comment__fetch_spec test_reddit
                (answers (info_answer
                   [VDict [("kind", VStr "t1");
                           ("data", VDict [("id", VStr "a"); ("body", VStr "hello")])]]))
                set_fetched 0 test_heap [] 1%nat (test_comment "a" "t3_2gmzqe" 0) "a"
                _ _ test_heap [] eq_refl eq_refl eq_refl eq_refl eq_refl)
              [("kind", VStr "t1"); ("data", VDict [("id", VStr "a"); ("body", VStr "hello")])]
              [] [("id", VStr "a"); ("body", VStr "hello")] eq_refl eq_refl)
      as (E & _).
    + repeat constructor.
    + apply (bool_decide_unpack _). vm_compute. exact I.
    + rewrite E. do 2 eexists. split; [reflexivity|]. split; [reflexivity|].
      split; reflexivity.
Defined.

Lemma plain_entry_store reddit self k v σ :
  plain_entry (k, v) = true -> Redditor___setattr__ reddit self k v σ = store self k v σ.
Proof.
  unfold plain_entry. cbn [fst snd]. rewrite negb_true_iff, orb_false_iff.
  intros [H1 H2]. unfold Redditor___setattr__. rewrite H1, ret_bind, H2. reflexivity.
Qed.

Lemma for_each_plain_entries reddit h r items : forall d,
  Forall (fun kv => plain_entry kv = true) items ->
  for_each (fun '(attribute, value) => Redditor___setattr__ reddit (length h) attribute value)
    items (State (h ++ [Instance ClsRedditor d]) r) =
  (Ok tt, State (h ++ [Instance ClsRedditor (payload_dict items d)]) r).
Proof.
  induction items as [|[k v] items IH]; intros d Hall; [reflexivity|].
  apply Forall_cons in Hall as [Hk Hall]. cbn [for_each].
  assert (E : Redditor___setattr__ reddit (length h) k v
                (State (h ++ [Instance ClsRedditor d]) r) =
              (Ok tt, State (h ++ [Instance ClsRedditor (<[k := v]> d)]) r)).
  { rewrite plain_entry_store by exact Hk. apply store_last. }
  rewrite (bind_Ok _ _ _ _ _ E). rewrite payload_dict_cons. apply IH, Hall.
Qed.

Lemma Redditor_init_payload reddit items h r :
  Forall (fun kv => plain_entry kv = true) items ->
  items = [] \/ "name" ∈ items.*1 ->
  Redditor___init__ reddit VNone VNone (VDict items) (State h r) =
    if bool_decide ("name" ∈ items.*1)
    then (Ok (length h), State (h ++ [payload_redditor items]) r)
    else (Raise (ValueError "An invalid value was specified for name."),
          State (h ++ [payload_redditor items]) r).
Proof.
  intros Hall Hname. unfold Redditor___init__, count_not_None.
  cbn [List.filter is_None negb length]. cbn [Nat.eqb negb].
  assert (Eassert : (if truthy (VDict items)
                     then if has_name (VDict items) then mret tt
                          else raise (AssertionError ASSERT_MSG)
                     else mret tt) (State h r) = (Ok tt, State h r)).
  { destruct Hname as [->|Hname]; [reflexivity|].
    apply has_name_spec in Hname. rewrite Hname.
    destruct (truthy (VDict items)); reflexivity. }
  rewrite (bind_Ok _ _ _ _ _ Eassert).
  assert (Ealloc : alloc (Instance ClsRedditor ∅) (State h r) =
                   (Ok (length h), State (h ++ [Instance ClsRedditor ∅]) r)) by reflexivity.
  rewrite (bind_Ok _ _ _ _ _ Ealloc).
  rewrite (bind_Ok _ _ _ _ _ (store_last h _ r _ _)). cbn [__class__ __dict__ truthy].
  rewrite ret_bind. unfold RedditBase___init__.
  assert (Eset : (if truthy (VDict items)
                  then for_each (fun '(attribute, value) =>
                         Redditor___setattr__ reddit (length h) attribute value) items
                  else mret tt)
                   (State (h ++ [Instance ClsRedditor
                      (<["_listing_use_sort" := VBool true]> ∅)]) r) =
                 (Ok tt, State (h ++ [Instance ClsRedditor
                    (payload_dict items (<["_listing_use_sort" := VBool true]> ∅))]) r)).
  { destruct items as [|kv items]; [reflexivity|].
    cbn [truthy]. apply for_each_plain_entries, Hall. }
  rewrite !bind_assoc.
  rewrite (bind_Ok _ _ _ _ _ Eset). rewrite !bind_assoc.
  rewrite (bind_Ok _ _ _ _ _ (store_last h _ r _ _)). cbn [__class__ __dict__].
  rewrite bind_assoc.
  rewrite (bind_Ok _ _ _ _ _ (deref_last h _ r)). cbn [__dict__].
  fold (payload_redditor items).
  destruct Hname as [->|Hname].
  - reflexivity.
  - rewrite (bool_decide_eq_true_2 ("name" ∈ items.*1)) by exact Hname.
    rewrite bool_decide_eq_true_2; [reflexivity|].
    rewrite lookup_insert_ne by discriminate. apply payload_dict_is_Some. auto.
Qed.

Lemma for_each_readonly reddit h r pre k v post : forall d,
  Forall (fun kv => plain_entry kv = true) pre ->
  k ∈ ["_kind"; "_path"; "fullname"] ->
  for_each (fun '(attribute, value) => Redditor___setattr__ reddit (length h) attribute value)
    (pre ++ (k, v) :: post) (State (h ++ [Instance ClsRedditor d]) r) =
  (Raise (AttributeError k), State (h ++ [Instance ClsRedditor (payload_dict pre d)]) r).
Proof.
  induction pre as [|[k0 v0] pre IH]; intros d Hall Hk.
  - cbn [app for_each payload_dict fold_left].
    assert (E : Redditor___setattr__ reddit (length h) k v
                  (State (h ++ [Instance ClsRedditor d]) r) =
                (Raise (AttributeError k), State (h ++ [Instance ClsRedditor d]) r)).
    { unfold Redditor___setattr__.
      assert (Hsub : (k =? "subreddit")%string = false).
      { apply String.eqb_neq. intros ->. revert Hk.
        apply (bool_decide_unpack _). vm_compute. exact I. }
      rewrite Hsub. cbn [andb]. rewrite ret_bind.
      rewrite bool_decide_eq_true_2 by exact Hk. reflexivity. }
    rewrite (bind_Raise _ _ _ _ _ E). reflexivity.
  - apply Forall_cons in Hall as [Hk0 Hall].
    change (((k0, v0) :: pre) ++ (k, v) :: post) with ((k0, v0) :: (pre ++ (k, v) :: post)).
    cbn [for_each].
    assert (E : Redditor___setattr__ reddit (length h) k0 v0
                  (State (h ++ [Instance ClsRedditor d]) r) =
                (Ok tt, State (h ++ [Instance ClsRedditor (<[k0 := v0]> d)]) r)).
    { rewrite plain_entry_store by exact Hk0. apply store_last. }
    rewrite (bind_Ok _ _ _ _ _ E). rewrite payload_dict_cons. apply IH; assumption.
Qed.

Lemma Redditor_init_readonly reddit pre k v post h r :
  "name" ∈ (pre ++ (k, v) :: post).*1 ->
  Forall (fun kv => plain_entry kv = true) pre ->
  k ∈ ["_kind"; "_path"; "fullname"] ->
  exists h',
    Redditor___init__ reddit VNone VNone (VDict (pre ++ (k, v) :: post)) (State h r) =
      (Raise (AttributeError k), State h' r) /\
    forall l x, h !! l = Some x -> h' !! l = Some x.
Proof.
  intros Hname Hall Hk. eexists. split.
  - unfold Redditor___init__, count_not_None.
    cbn [List.filter is_None negb length]. cbn [Nat.eqb negb].
    assert (Ht : truthy (VDict (pre ++ (k, v) :: post)) = true) by (destruct pre; reflexivity).
    rewrite Ht. apply has_name_spec in Hname. rewrite Hname. rewrite ret_bind.
    assert (Ealloc : alloc (Instance ClsRedditor ∅) (State h r) =
                     (Ok (length h), State (h ++ [Instance ClsRedditor ∅]) r)) by reflexivity.
    rewrite (bind_Ok _ _ _ _ _ Ealloc).
    rewrite (bind_Ok _ _ _ _ _ (store_last h _ r _ _)). cbn [__class__ __dict__ truthy].
    rewrite ret_bind. unfold RedditBase___init__. rewrite Ht.
    rewrite !bind_assoc.
    rewrite (bind_Raise _ _ _ _ _ (for_each_readonly reddit h r pre k v post _ Hall Hk)).
    reflexivity.
  - intros l x Hl. apply lookup_app_l_Some. exact Hl.
Qed.

(** X17: the fetch of a redditor makes a redditor of the data of the
    answer and takes its attributes.  Data that are not empty and have no
    [name] fail the assertion of the constructor, empty data are a
    [ValueError], and an entry named after a property without setter
    ([_kind], [_path], [fullname]) is an [AttributeError]; in these cases
    the redditor is left as it was.  Otherwise, for data whose entries
    [__setattr__] keeps as they are given, the redditor has every entry
    of the data, and is still marked as not fetched when the fetch of the
    base class takes over. *)
Theorem Redditor__fetch_spec reddit _fetch_data RedditBase__fetch h r self o
    top items h1 r1 :
  _fetch_data self (State h r) = (Ok (VDict top), State h1 r1) ->
  dict_get "data" top = Some (VDict items) ->
  h1 !! self = Some o ->
  (items <> [] -> "name" ∉ items.*1 ->
     Redditor__fetch reddit _fetch_data RedditBase__fetch self (State h r) =
       (Raise (AssertionError ASSERT_MSG), State h1 r1)) /\
  (items = [] ->
     exists h' msg,
       Redditor__fetch reddit _fetch_data RedditBase__fetch self (State h r) =
         (Raise (ValueError msg), State h' r1) /\
       h' !! self = Some o) /\
  (forall pre k v post,
     items = pre ++ (k, v) :: post -> "name" ∈ items.*1 ->
     Forall (fun kv => plain_entry kv = true) pre ->
     k ∈ ["_kind"; "_path"; "fullname"] ->
     exists h',
       Redditor__fetch reddit _fetch_data RedditBase__fetch self (State h r) =
         (Raise (AttributeError k), State h' r1) /\
       h' !! self = Some o) /\
  ("name" ∈ items.*1 -> Forall (fun kv => plain_entry kv = true) items ->
     let h2 := <[self := updated o (payload_redditor items)]>
                 (h1 ++ [payload_redditor items]) in
     Redditor__fetch reddit _fetch_data RedditBase__fetch self (State h r) =
       RedditBase__fetch self (State h2 r1) /\
     h2 !! self = Some (updated o (payload_redditor items)) /\
     __dict__ (updated o (payload_redditor items)) !! "_fetched" = Some (VBool false) /\
     (NoDup items.*1 -> forall k v, (k, v) ∈ items -> k <> "_fetched" ->
        __dict__ (updated o (payload_redditor items)) !! k = Some v)).
Proof.
  intros Hfetch Hdata Ho.
  assert (Hhead : forall k : pyval -> M unit,
    (data0 ← _fetch_data self; data1 ← subscript_key data0 "data"; k data1) (State h r) =
    k (VDict items) (State h1 r1)).
  { intros k. rewrite (bind_Ok _ _ _ _ _ Hfetch). cbn [subscript_key]. rewrite Hdata.
    rewrite ret_bind. reflexivity. }
  split; [|split; [|split]].
  - intros Hne Hname. unfold Redditor__fetch. rewrite Hhead.
    assert (E : Redditor___init__ reddit VNone VNone (VDict items) (State h1 r1) =
                (Raise (AssertionError ASSERT_MSG), State h1 r1)).
    { unfold Redditor___init__.
      replace (count_not_None [VNone; VNone; VDict items]) with 1%nat by reflexivity.
      assert (Ht : truthy (VDict items) = true) by (destruct items; [congruence|reflexivity]).
      assert (Eh : has_name (VDict items) = false).
      { apply not_true_is_false. rewrite has_name_spec. assumption. }
      cbn [Nat.eqb negb]. rewrite Ht, Eh. reflexivity. }
    rewrite (bind_Raise _ _ _ _ _ E). reflexivity.
  - intros ->. unfold Redditor__fetch. rewrite Hhead.
    pose proof (Redditor_init_payload reddit [] h1 r1 (List.Forall_nil _) (or_introl eq_refl)) as E.
    rewrite bool_decide_eq_false_2 in E by (cbn; apply not_elem_of_nil).
    do 2 eexists. split.
    + rewrite (bind_Raise _ _ _ _ _ E). reflexivity.
    + apply lookup_app_l_Some. exact Ho.
  - intros pre k v post -> Hname Hplain Hk. unfold Redditor__fetch. rewrite Hhead.
    destruct (Redditor_init_readonly reddit pre k v post h1 r1 Hname Hplain Hk)
      as (h' & E & Hkeep).
    exists h'. split; [|apply Hkeep, Ho].
    rewrite (bind_Raise _ _ _ _ _ E). reflexivity.
  - intros Hname Hplain h2.
    assert (Ho1 : (h1 ++ [payload_redditor items]) !! self = Some o)
      by (apply lookup_app_l_Some; exact Ho).
    split; [|split; [|split]].
    + unfold Redditor__fetch. rewrite Hhead.
      pose proof (Redditor_init_payload reddit items h1 r1 Hplain (or_intror Hname)) as E.
      rewrite bool_decide_eq_true_2 in E by exact Hname.
      rewrite (bind_Ok _ _ _ _ _ E).
      assert (Hother : (h1 ++ [payload_redditor items]) !! length h1
                       = Some (payload_redditor items)).
      { rewrite lookup_app_r by lia. rewrite Nat.sub_diag. reflexivity. }
      rewrite (bind_Ok _ _ _ _ _ (dict_update_at _ r1 self o _ _ Ho1 Hother)).
      reflexivity.
    + unfold h2. eapply lookup_insert_at. exact Ho1.
    + unfold updated, payload_redditor. cbn [__dict__].
      apply lookup_union_Some_l, lookup_insert_eq.
    + intros Hnd k v Hin Hk. unfold updated, payload_redditor. cbn [__dict__].
      apply lookup_union_Some_l. rewrite lookup_insert_ne by congruence.
      apply payload_dict_entry; assumption.
Qed.

Lemma Redditor__fetch_spec_witness :
  Redditor__fetch test_reddit
    (answers (VDict [("kind", VStr "t2"); ("data", VDict [("id", VStr "x")])]))
    set_fetched 0%nat (State [named_redditor (VStr "spez")] []) =
    (Raise (AssertionError ASSERT_MSG), State [named_redditor (VStr "spez")] []) /\
  (exists h',
     Redditor__fetch test_reddit
       (answers (VDict [("kind", VStr "t2");
                        ("data", VDict [("name", VStr "spez"); ("_kind", VStr "t2")])]))
       set_fetched 0%nat (State [named_redditor (VStr "spez")] []) =
       (Raise (AttributeError "_kind"), State h' [])) /\
  exists h' o',
    Redditor__fetch test_reddit
      (answers (VDict [("kind", VStr "t2");
                       ("data", VDict [("name", VStr "spez"); ("link_karma", VInt 7)])]))
      set_fetched 0%nat (State [named_redditor (VStr "spez")] []) = (Ok tt, State h' []) /\
    h' !! 0%nat = Some o' /\
    __dict__ o' !! "link_karma" = Some (VInt 7) /\
    __dict__ o' !! "_fetched" = Some (VBool true).
Proof.
  split; [|split].
  - refine (proj1 (Redditor__fetch_spec test_reddit
                     (answers (VDict [("kind", VStr "t2"); ("data", VDict [("id", VStr "x")])]))
                     set_fetched [named_redditor (VStr "spez")] [] 0%nat
                     (named_redditor (VStr "spez")) _ [("id", VStr "x")]
                     [named_redditor (VStr "spez")] [] eq_refl eq_refl eq_refl) _ _).
    + discriminate.
    + apply (bool_decide_unpack _). vm_compute. exact I.
  - destruct (proj1 (proj2 (proj2 (Redditor__fetch_spec test_reddit
                (answers (VDict [("kind", VStr "t2");
                                 ("data", VDict [("name", VStr "spez");
                                                 ("_kind", VStr "t2")])]))
                set_fetched [named_redditor (VStr "spez")] [] 0%nat
                (named_redditor (VStr "spez")) _
                [("name", VStr "spez"); ("_kind", VStr "t2")]
                [named_redditor (VStr "spez")] [] eq_refl eq_refl eq_refl)))
              [("name", VStr "spez")] "_kind" (VStr "t2") [] eq_refl)
      as (h' & E & _).
    + apply (bool_decide_unpack _). vm_compute. exact I.
    + repeat constructor.
    + apply (bool_decide_unpack _). vm_compute. exact I.
    + exists h'. exact E.
  - destruct (proj2 (proj2 (proj2 (Redditor__fetch_spec test_reddit
                (answers (VDict [("kind", VStr "t2");
                                 ("data", VDict [("name", VStr "spez");
                                                 ("link_karma", VInt 7)])]))
                set_fetched [named_redditor (VStr "spez")] [] 0%nat
                (named_redditor (VStr "spez")) _
                [("name", VStr "spez"); ("link_karma", VInt 7)]
                [named_redditor (VStr "spez")] [] eq_refl eq_refl eq_refl))))
      as (E & _).
    + apply (bool_decide_unpack _). vm_compute. exact I.
    + repeat constructor.
    + rewrite E. do 2 eexists. split; [reflexivity|]. split; [reflexivity|].
      split; reflexivity.
Defined.

(** X18: after [refresh], the parent of the comment is found in the trees
    of the answer: when the node that was found has, as its [parent_id],
    the fullname of a comment of these trees, [parent] returns that very
    comment, makes no request and changes nothing. *)
Theorem refresh_then_parent reddit fuel h r self o sid s so subid m x lst olst ts h1 r1
    c cs oc p pid :
  let path := refresh_path reddit o so in
  let params := refresh_params o in
  let kind := kinds reddit "comment" in
  h !! self = Some o ->
  __dict__ o !! "id" = Some (VStr sid) ->
  __dict__ o !! "_submission" = Some (VRef s) ->
  (forall context, __dict__ o !! "context" = Some context -> exists c, context = VStr c) ->
  h !! s = Some so -> __class__ so = ClsSubmission ->
  __dict__ so !! "id" = Some (VStr subid) ->
  __dict__ so !! "_comments_by_id" = Some (VMap m) ->
  reddit_get reddit path params (State h (r ++ [(path, params)])) =
    (Ok (VList [x; VRef lst]), State h1 r1) ->
  h1 !! self = Some o -> h1 !! s = Some so -> h1 !! lst = Some olst ->
  __dict__ olst !! "children" = Some (VList (refs ts)) ->
  Forall (shape h1) ts -> NoDup (locs_of ts) ->
  s ∉ locs_of ts -> self ∉ locs_of ts -> self <> s ->
  (size_of ts < fuel)%nat ->
  Node c sid cs ∈ nodes_of ts ->
  (forall t, t ∈ nodes_of ts -> tree_id t = sid -> t = Node c sid cs) ->
  h1 !! c = Some oc -> is_Some (__dict__ oc !! "_submission") ->
  __dict__ oc !! "parent_id" = Some (VStr (kind +:+ "_" +:+ pid)) ->
  (p, pid) ∈ comments_of ts -> NoDup (comments_of ts).*2 ->
  (kind +:+ "_" +:+ pid)%string <> (kinds reddit "submission" +:+ "_" +:+ subid)%string ->
  exists h',
    refresh reddit fuel self (State h r) = (Ok self, State h' r1) /\
    forall fuel', parent reddit fuel' self (State h' r1) = (Ok (VRef p), State h' r1).
Proof.
  intros path params kind Hself Hsid Hsub Hctx Hs Hcls Hsubid Hm Hget Hself1 Hs1 Hlst Hch
         Hshape Hnd Hsn Hselfn Hne Hfuel Hin Huniq Hoc Hocs Hpid Hp Hids Hroot.
  pose proof (find_node sid ts c cs Hin Huniq) as Hfind.
  edestruct (refresh_found reddit h r self o sid s so Hself Hsid Hsub Hctx Hs
               ltac:(eauto) m x lst olst ts h1 r1) as (h' & E & Hmerged & _ & Hrep); eauto.
  exists h'. split; [exact E|]. intros fuel'.
  destruct Hrep as (_ & _ & Hidx & _). unfold indexed in Hidx. rewrite Hcls in Hidx.
  refine (parent_index reddit fuel' h' r1 self (merged o oc) _ s _ subid _ p
            Hmerged _ _ Hidx eq_refl _ _ Hroot _).
  - unfold merged. cbn [__dict__]. apply lookup_union_Some_l.
    rewrite lookup_delete_ne by discriminate. exact Hpid.
  - unfold merged. cbn [__dict__]. rewrite lookup_union_r by apply lookup_delete_eq.
    exact Hsub.
  - cbn [__dict__]. rewrite lookup_insert_ne by discriminate. exact Hsubid.
  - cbn [__dict__]. apply lookup_insert_eq.
  - apply register_lookup; assumption.
Qed.

Lemma refresh_then_parent_witness :
  exists h' : list object,
    refresh answering_reddit 4 1%nat (State refresh_heap []) =
      (Ok 1%nat, State h' [("comments/2gmzqe/_/b", [("context", VInt 100)])]) /\
    parent answering_reddit 1 1%nat
      (State h' [("comments/2gmzqe/_/b", [("context", VInt 100)])]) =
      (Ok (VRef 4), State h' [("comments/2gmzqe/_/b", [("context", VInt 100)])]).
Proof.
  destruct (refresh_then_parent answering_reddit 4 refresh_heap [] 1%nat
              (Instance ClsComment
                 (<["_submission" := VRef 0]> (__dict__ (shallow_comment (VStr "b")))))
              "b" 0%nat
              (Instance ClsSubmission
                 (<["id" := VStr "2gmzqe"]> (<["_comments_by_id" := VMap ∅]>
                    (<["_fetched" := VBool false]> ∅))))
              "2gmzqe" ∅ (VRef 2) 3%nat
              (Instance ClsListing (<["children" := VList [VRef 4]]> ∅))
              [Node 4 "a" [Node 5 "b" []; More 6 "m"]]
              (refresh_heap ++ answer 2)
              [("comments/2gmzqe/_/b", [("context", VInt 100)])]
              5%nat []
              (Instance ClsComment
                 (<["body" := VStr "hello"]> (__dict__ (fresh_comment "b" "t1_a" []))))
              4%nat "a")
    as (h' & E & Hparent).
  - reflexivity.
  - reflexivity.
  - reflexivity.
  - intros context Hc. vm_compute in Hc. discriminate Hc.
  - reflexivity.
  - reflexivity.
  - reflexivity.
  - reflexivity.
  - reflexivity.
  - reflexivity.
  - reflexivity.
  - reflexivity.
  - reflexivity.
  - constructor; [|constructor].
    eapply (shape_Node _ 4 "a"); [reflexivity..|].
    constructor; [|constructor; [|constructor]].
    + eapply (shape_Node _ 5 "b"); [reflexivity..|]. constructor.
    + eapply (shape_More _ 6 "m"); reflexivity.
  - apply (bool_decide_unpack _). vm_compute. exact I.
  - apply (bool_decide_unpack _). vm_compute. exact I.
  - apply (bool_decide_unpack _). vm_compute. exact I.
  - discriminate.
  - vm_compute. lia.
  - cbn. rewrite !elem_of_cons. auto.
  - intros t Ht Hid. cbn in Ht. rewrite !elem_of_cons in Ht.
    destruct Ht as [->|[->|[->|Ht]]];
      [discriminate Hid | reflexivity | discriminate Hid |].
    apply elem_of_nil in Ht. contradiction.
  - reflexivity.
  - eexists. reflexivity.
  - reflexivity.
  - apply (bool_decide_unpack _). vm_compute. exact I.
  - apply (bool_decide_unpack _). vm_compute. exact I.
  - discriminate.
  - exists h'. split; [exact E | exact (Hparent 1%nat)].
Defined.

(** *** The name of a redditor *)

(** X19: for a redditor that has its [_fullname], [_fetch_info] asks the
    server once, for the users of that fullname, keeps as [name] the name
    that the answer has under the fullname, and names the redditor by it;
    an answer without the fullname is a [KeyError] and no name is kept.
    For a redditor that has its name and no [_fullname], it makes no
    request and changes nothing. *)
Theorem Redditor__fetch_info_spec reddit API_PATH h r self o :
  h !! self = Some o ->
  (forall fullname response h1 r1,
     __dict__ o !! "_fullname" = Some (VStr fullname) ->
     reddit_get reddit (API_PATH "user_by_fullname") [("ids", VStr fullname)]
       (State h (r ++ [(API_PATH "user_by_fullname", [("ids", VStr fullname)])])) =
       (Ok (VDict response), State h1 r1) ->
     h1 !! self = Some o ->
     (forall user name,
        dict_get fullname response = Some (VDict user) -> dict_get "name" user = Some name ->
        Redditor__fetch_info reddit API_PATH self (State h r) =
          (Ok ("user_about", [("user", name)], VNone),
           State (<[self := with_attr o "name" name]> h1) r1)) /\
     (dict_get fullname response = None ->
        Redditor__fetch_info reddit API_PATH self (State h r) =
          (Raise (KeyError fullname), State h1 r1))) /\
  (forall name missing,
     __dict__ o !! "_fullname" = None -> __dict__ o !! "name" = Some name ->
     RedditBase___getattr__ reddit self "_fullname" (State h r) =
       (Raise (AttributeError missing), State h r) ->
     __class__ o = ClsRedditor ->
     Redditor__fetch_info reddit API_PATH self (State h r) =
       (Ok ("user_about", [("user", name)], VNone), State h r)).
Proof.
  intros Ho. split.
  - intros fullname response h1 r1 Hfull Hget Ho1.
    assert (Hhas : hasattr reddit self "_fullname" (State h r) = (Ok true, State h r)).
    { unfold hasattr, except_AttributeError.
      rewrite (bind_Ok _ _ _ _ _ (getattr_at reddit h r self o _ _ Ho Hfull)). reflexivity. }
    assert (Hreq : get reddit (API_PATH "user_by_fullname") [("ids", VStr fullname)]
                     (State h r) = (Ok (VDict response), State h1 r1)).
    { unfold get.
      assert (Elog : log_request (API_PATH "user_by_fullname", [("ids", VStr fullname)])
                       (State h r) =
                     (Ok tt, State h (r ++ [(API_PATH "user_by_fullname",
                                             [("ids", VStr fullname)])]))) by reflexivity.
      rewrite (bind_Ok _ _ _ _ _ Elog). exact Hget. }
    split.
    + intros user name Huser Hname. unfold Redditor__fetch_info.
      rewrite (bind_Ok _ _ _ _ _ Hhas). rewrite !bind_assoc.
      rewrite (bind_Ok _ _ _ _ _ (getattr_at reddit h r self o _ _ Ho Hfull)).
      unfold _fetch_username. rewrite !bind_assoc. rewrite (bind_Ok _ _ _ _ _ Hreq).
      cbn [subscript_value subscript_key]. rewrite Huser. rewrite !bind_assoc, ret_bind.
      cbn [subscript_key]. rewrite Hname. rewrite ret_bind.
      unfold Redditor___setattr__. cbn [String.eqb Ascii.eqb Bool.eqb andb].
      rewrite !bind_assoc, ret_bind.
      rewrite bool_decide_eq_false_2 by (apply (bool_decide_unpack _); vm_compute; exact I).
      rewrite (bind_Ok _ _ _ _ _ (store_at h1 r1 self o _ _ Ho1)).
      assert (Ho2 : <[self := with_attr o "name" name]> h1 !! self
                    = Some (with_attr o "name" name)).
      { eapply lookup_insert_at. exact Ho1. }
      fold (with_attr o "name" name).
      rewrite (bind_Ok _ _ _ _ _ (getattr_at reddit _ r1 self _ "name" name Ho2
                                    (lookup_insert_eq _ _ _))).
      reflexivity.
    + intros Huser. unfold Redditor__fetch_info.
      rewrite (bind_Ok _ _ _ _ _ Hhas). rewrite !bind_assoc.
      rewrite (bind_Ok _ _ _ _ _ (getattr_at reddit h r self o _ _ Ho Hfull)).
      unfold _fetch_username. rewrite !bind_assoc. rewrite (bind_Ok _ _ _ _ _ Hreq).
      cbn [subscript_value subscript_key]. rewrite Huser. reflexivity.
  - intros name missing Hfull Hname Hbase Hcls.
    assert (Hhas : hasattr reddit self "_fullname" (State h r) = (Ok false, State h r)).
    { unfold hasattr, except_AttributeError.
      assert (E : getattr reddit self "_fullname" (State h r) =
                  (Raise (AttributeError missing), State h r)).
      { unfold getattr. rewrite (bind_Ok _ _ _ _ _ (deref_at h r self o Ho)).
        rewrite Hfull, Hcls. exact Hbase. }
      rewrite (bind_Raise _ _ _ _ _ E). reflexivity. }
    unfold Redditor__fetch_info.
    rewrite (bind_Ok _ _ _ _ _ Hhas). rewrite ret_bind.
    rewrite (bind_Ok _ _ _ _ _ (getattr_at reddit h r self o _ _ Ho Hname)).
    reflexivity.
Qed.

Lemma Redditor__fetch_info_spec_witness :
  Redditor__fetch_info naming_reddit test_paths 0%nat
    (State [fullnamed_redditor (VStr "t2_abc")] []) =
    (Ok ("user_about", [("user", VStr "spez")], VNone),
     State [with_attr (fullnamed_redditor (VStr "t2_abc")) "name" (VStr "spez")]
           [("api/user_data_by_account_ids", [("ids", VStr "t2_abc")])]) /\
  Redditor__fetch_info naming_reddit test_paths 0%nat
    (State [named_redditor (VStr "spez")] []) =
    (Ok ("user_about", [("user", VStr "spez")], VNone),
     State [named_redditor (VStr "spez")] []).
Proof.
  split.
  - refine (proj1 (proj1 (Redditor__fetch_info_spec naming_reddit test_paths
                            [fullnamed_redditor (VStr "t2_abc")] [] 0%nat _ eq_refl)
                     "t2_abc" [("t2_abc", VDict [("name", VStr "spez")])]
                     [fullnamed_redditor (VStr "t2_abc")]
                     [("api/user_data_by_account_ids", [("ids", VStr "t2_abc")])]
                     eq_refl eq_refl eq_refl)
              [("name", VStr "spez")] (VStr "spez") eq_refl eq_refl).
  - refine (proj2 (Redditor__fetch_info_spec naming_reddit test_paths
                     [named_redditor (VStr "spez")] [] 0%nat _ eq_refl)
              (VStr "spez") "_fullname" eq_refl eq_refl eq_refl eq_refl).
Defined.

(** *** What the setter of the submission leaves alone *)

(** X20: assigning a submission to a comment changes the index of the
    submission only under the fullnames of the comment and of the
    comments among its replies: every other entry is as it was, and none
    is removed.  The other attributes of the submission, the attributes
    of the comments other than [_submission] and [_replies], and every
    object outside the tree are as they were, and no request is made. *)
Theorem submission_setter_frame reddit fuel h r l id cs s so m :
  let t := Node l id cs in
  let kind := kinds reddit "comment" in
  shape h t -> NoDup (locs t) -> s ∉ locs t ->
  h !! s = Some so -> __dict__ so !! "_comments_by_id" = Some (VMap m) ->
  (height t <= fuel)%nat ->
  exists h' m',
    setattr reddit fuel (VRef l) "submission" (VRef s) (State h r) = (Ok tt, State h' r) /\
    h' !! s = Some (Instance (__class__ so)
                      (<["_comments_by_id" := VMap m']> (__dict__ so))) /\
    (forall key, (forall c cid, (c, cid) ∈ comments t -> key <> (kind +:+ "_" +:+ cid)%string) ->
       m' !! key = m !! key) /\
    (forall l', (l' < length h)%nat -> l' ∉ locs t -> l' <> s -> h' !! l' = h !! l') /\
    (forall c cid o, (c, cid) ∈ comments t -> h !! c = Some o ->
       exists o', h' !! c = Some o' /\
         forall name, name <> "_submission" -> name <> "_replies" ->
                      __dict__ o' !! name = __dict__ o !! name).
Proof.
  intros t kind Hsh Hnd Hs Hso Hm Hfuel.
  destruct (tree_runs reddit s so fuel t Hfuel h r m I Hsh Hnd Hs
              (indexed_init h s so m Hso Hm)) as (h' & E & (Hlen & Hframe & Hidx & Hall)).
  rewrite locs_of_one in Hall, Hframe. rewrite comments_of_one in Hidx.
  exists h', (register kind (comments t) m).
  split; [exact E|]. split; [exact Hidx|]. split; [|split; [exact Hframe|]].
  - intros key Hkey. apply register_other. intros [c cid] Hin E'.
    exact (Hkey c cid Hin (eq_sym E')).
  - intros c cid o Hin Ho.
    destruct (comments_shape h t c cid Hsh Hin) as (Hl & o0 & Ho0 & Hc & _).
    rewrite Forall_forall in Hall.
    destruct (Hall c Hl) as (o1 & o' & Ho1 & Ho' & _ & Hd).
    assert (o1 = o) by congruence. subst o1.
    assert (o0 = o) by congruence. subst o0.
    rewrite Hc in Hd. exists o'. split; [exact Ho' | apply Hd].
Qed.

Lemma submission_setter_frame_witness :
  exists (h' : list object) (m' : gmap string loc),
    setattr test_reddit 2 (VRef 1) "submission" (VRef 0) (State fresh_heap [])
      = (Ok tt, State h' []) /\
    m' !! "t1_zzz" = None /\
    exists o', h' !! 2%nat = Some o' /\ __dict__ o' !! "parent_id" = Some (VStr "t1_a").
Proof.
  destruct (submission_setter_frame test_reddit 2 fresh_heap [] 1%nat "a"
              [Node 2 "b" []; More 3 "m"] 0%nat
              (Instance ClsSubmission
                 (<["id" := VStr "2gmzqe"]> (<["_comments_by_id" := VMap ∅]>
                    (<["_fetched" := VBool false]> ∅))))
              ∅)
    as (h' & m' & E & _ & Hkeys & _ & Hattrs).
  - exact fresh_tree_shape.
  - apply (bool_decide_unpack _). vm_compute. exact I.
  - apply (bool_decide_unpack _). vm_compute. exact I.
  - reflexivity.
  - reflexivity.
  - simpl. lia.
  - exists h', m'. split; [exact E|]. split.
    + rewrite (Hkeys "t1_zzz"); [reflexivity|].
      intros c cid Hin. cbn in Hin. rewrite !elem_of_cons in Hin.
      destruct Hin as [[= -> ->]|[[= -> ->]|Hin]]; [discriminate..|].
      apply elem_of_nil in Hin. contradiction.
    + destruct (Hattrs 2%nat "b" (fresh_comment "b" "t1_a" [])) as (o' & Ho' & Hsame).
      * apply (bool_decide_unpack _). vm_compute. exact I.
      * reflexivity.
      * exists o'. split; [exact Ho'|]. rewrite Hsame by discriminate. reflexivity.
Defined.
